(** * WAF log analyzer: a shallow embedding of [waf-analyzer.py]

    The development follows the pipeline of the analyzer,

      get_log_files -> download_and_parse_logs -> analyze_threat_patterns
                    -> generate_report

    and is organised as the script is: first the pieces of Python the script
    relies on (strings, integer and float formatting, insertion-ordered
    dictionaries, calendar dates), then the four methods of [WAFAnalyzer],
    then the properties.

    Conventions.
    - A Python [str] is a Rocq [string], one character per code point; the
      model covers text whose code points are below 256.
    - A Python [int] is a [Z]; a Python [float] is a binary64 value of
      [SpecFloat.spec_float], with the IEEE operations of [SpecFloat].
    - A raised exception is [None] (or a dedicated constructor where the
      script distinguishes exception classes).
    - The services the script calls but does not define (S3 listing and
      retrieval, gzip, the JSON decoder, the local time zone, the clock, the
      plotting library) are parameters of the functions that use them. *)

From Stdlib Require Import ZArith List Bool Lia Ascii String.
From Stdlib Require Import Permutation Sorted DecimalString DecimalZ.
From Stdlib Require Import SpecFloat.
Import ListNotations.

Local Open Scope string_scope.
Local Open Scope Z_scope.

(** ** Python strings *)

Module PyStr.

Definition code (c : ascii) : N := N_of_ascii c.

Definition between (lo hi : N) (c : ascii) : bool :=
  (N.leb lo (code c) && N.leb (code c) hi)%bool.

(** [str.isspace] on one character (code points below 256): the ASCII
    controls 9..13 and 28..31, the space, NEL (133) and NBSP (160). *)
Definition isspace (c : ascii) : bool :=
  (between 9 13 c || between 28 32 c
   || N.eqb (code c) 133 || N.eqb (code c) 160)%bool.

(** [str.lower] on one character: A..Z, and the Latin-1 capitals 192..222
    except the multiplication sign 215, move up by 32. *)
Definition lower_char (c : ascii) : ascii :=
  if (between 65 90 c
      || (between 192 222 c && negb (N.eqb (code c) 215)))%bool
  then ascii_of_N (code c + 32)
  else c.

Fixpoint lower (s : string) : string :=
  match s with
  | EmptyString => EmptyString
  | String c s' => String (lower_char c) (lower s')
  end.

(** [needle in hay] *)
Fixpoint contains (needle hay : string) : bool :=
  (prefix needle hay
   || match hay with
      | EmptyString => false
      | String _ hay' => contains needle hay'
      end)%bool.

(** [s.endswith(suffix)] *)
Fixpoint endswith (s suffix : string) : bool :=
  (String.eqb s suffix
   || match s with
      | EmptyString => false
      | String _ s' => endswith s' suffix
      end)%bool.

Fixpoint lstrip (s : string) : string :=
  match s with
  | EmptyString => EmptyString
  | String c s' => if isspace c then lstrip s' else s
  end.

Fixpoint rstrip (s : string) : string :=
  match s with
  | EmptyString => EmptyString
  | String c s' =>
      match rstrip s' with
      | EmptyString => if isspace c then EmptyString else String c EmptyString
      | r => String c r
      end
  end.

(** [s.strip()] *)
Definition strip (s : string) : string := rstrip (lstrip s).

Definition newline : ascii := ascii_of_N 10.

(** [s.split('\n')]: never empty, [''.split('\n') == ['']]. *)
Fixpoint split_lines (s : string) : list string :=
  match s with
  | EmptyString => [EmptyString]
  | String c s' =>
      if Ascii.eqb c newline then EmptyString :: split_lines s'
      else match split_lines s' with
           | l :: ls => String c l :: ls
           | [] => [String c EmptyString]
           end
  end.

(** ["\n".join(ls)] *)
Fixpoint join_lines (ls : list string) : string :=
  match ls with
  | [] => EmptyString
  | [l] => l
  | l :: ls' => l ++ String newline (join_lines ls')
  end.

(** [c * n] for a one-character string [c] *)
Fixpoint repeat_char (c : ascii) (n : nat) : string :=
  match n with
  | O => EmptyString
  | S n' => String c (repeat_char c n')
  end.

End PyStr.

(** ** Python numbers and their formatting *)

Module PyNum.

(** [str(n)] and [f"{n}"] for an [int]. *)
Definition str_int (n : Z) : string := NilZero.string_of_int (Z.to_int n).

(** [f"{n:02d}"]: zeros are added up to width 2, the sign counting as one
    column. *)
Definition fmt_02d (n : Z) : string :=
  if (0 <=? n) && (n <? 10) then "0" ++ str_int n else str_int n.

(** Digits of a natural number grouped in threes from the right. *)
Fixpoint group3 (rev_digits : list ascii) : list ascii :=
  match rev_digits with
  | a :: b :: c :: ((_ :: _) as rest) => a :: b :: c :: ","%char :: group3' rest
  | l => l
  end
with group3' (rev_digits : list ascii) : list ascii :=
  match rev_digits with
  | a :: b :: c :: ((_ :: _) as rest) => a :: b :: c :: ","%char :: group3 rest
  | l => l
  end.

(** [f"{n:,}"] *)
Definition fmt_comma (n : Z) : string :=
  let digits := list_ascii_of_string (str_int (Z.abs n)) in
  let grouped := string_of_list_ascii (rev (group3 (rev digits))) in
  if n <? 0 then "-" ++ grouped else grouped.

(** *** binary64 *)

Definition float := spec_float.
Definition prec : Z := 53.
Definition emax : Z := 1024.

(** [float(n)] for an [int] that is in range. *)
Definition float_of_int (n : Z) : float := binary_normalize prec emax n 0 false.

Definition fmul : float -> float -> float := SFmul prec emax.

Definition exact_int (n : Z) : float :=
  match n with
  | Z0 => S754_zero false
  | Zpos p => S754_finite false p 0
  | Zneg p => S754_finite true p 0
  end.

(** [a / b] on two [int]s: the exact quotient rounded once to binary64;
    [ZeroDivisionError] and [OverflowError] are [None]. *)
Definition true_div (a b : Z) : option float :=
  if b =? 0 then None
  else match SFdiv prec emax (exact_int a) (exact_int b) with
       | S754_infinity _ => None
       | q => Some q
       end.

(** Nearest integer to [num / den], ties to even, for [0 <= num], [0 < den]. *)
Definition round_half_even (num den : Z) : Z :=
  let q := num / den in
  let r := num mod den in
  match (2 * r ?= den) with
  | Lt => q
  | Gt => q + 1
  | Eq => if Z.even q then q else q + 1
  end.

Definition zero_pad (width : nat) (s : string) : string :=
  PyStr.repeat_char "0"%char (width - String.length s) ++ s.

(** [f"{x:.<d>f}"] for [d >= 1]: the exact binary value rounded to [d]
    decimals, ties to even. *)
Definition fmt_fixed (d : nat) (x : float) : string :=
  match x with
  | S754_nan => "nan"
  | S754_infinity s => if s then "-inf" else "inf"
  | S754_zero s =>
      (if s then "-" else "") ++ "0." ++ zero_pad d ""
  | S754_finite s m e =>
      let scale := 10 ^ Z.of_nat d in
      let n :=
        if 0 <=? e then Zpos m * 2 ^ e * scale
        else round_half_even (Zpos m * scale) (2 ^ (- e)) in
      (if s then "-" else "")
        ++ str_int (n / scale) ++ "." ++ zero_pad d (str_int (n mod scale))
  end.

End PyNum.

(** ** Insertion-ordered dictionaries of counters

    [defaultdict(int)] as the script uses it: the only update is
    [d[k] += 1], which adds [k] at the end when it is new; [items()] lists the
    entries in insertion order. *)

Class EqKey (K : Type) := {
  keqb : K -> K -> bool;
  keqb_spec : forall a b : K, reflect (a = b) (keqb a b)
}.

#[export] Instance EqKey_string : EqKey string :=
  {| keqb := String.eqb; keqb_spec := String.eqb_spec |}.

#[export] Instance EqKey_Z : EqKey Z :=
  {| keqb := Z.eqb; keqb_spec := Z.eqb_spec |}.

Module Counter.
Section Counter.
Context {K : Type} `{EqKey K}.

Definition t := list (K * Z).

Definition empty : t := [].

(** [d.get(k, 0)] *)
Fixpoint get (k : K) (d : t) : Z :=
  match d with
  | [] => 0
  | (k', v) :: d' => if keqb k k' then v else get k d'
  end.

(** [d[k] += 1] *)
Fixpoint incr (k : K) (d : t) : t :=
  match d with
  | [] => [(k, 1)]
  | (k', v) :: d' =>
      if keqb k k' then (k', v + 1) :: d' else (k', v) :: incr k d'
  end.

Definition keys (d : t) : list K := map fst d.
Definition values (d : t) : list Z := map snd d.

(** [sum(d.values())] *)
Definition total (d : t) : Z := fold_right Z.add 0 (values d).
End Counter.
Arguments t K : clear implicits.
End Counter.

(** ** [sorted]

    Python's sort is stable; an insertion sort that places an element before
    the first one it does not follow gives the same list. [le a b] reads
    "[a] may stand before [b]". *)

Section Sorted.
Context {A : Type} (le : A -> A -> bool).

Fixpoint insert_sorted (x : A) (l : list A) : list A :=
  match l with
  | [] => [x]
  | y :: l' => if le x y then x :: y :: l' else y :: insert_sorted x l'
  end.

Definition py_sorted (l : list A) : list A := fold_right insert_sorted [] l.
End Sorted.

(** [sorted(d.items(), key=lambda x: x[1], reverse=True)] *)
Definition sorted_by_count {K : Type} (d : Counter.t K) : list (K * Z) :=
  py_sorted (fun a b => snd b <=? snd a) d.

(** ** Calendar dates

    A [datetime] at midnight is its proleptic Gregorian ordinal
    (0001-01-01 is 1, 9999-12-31 is [MAXORDINAL]), as [datetime.toordinal]
    gives it. *)

Module PyDate.

Definition MAXORDINAL : Z := 3652059.
Definition DI400Y : Z := 146097.
Definition DI100Y : Z := 36524.
Definition DI4Y : Z := 1461.

Definition DAYS_IN_MONTH : list Z :=
  [-1; 31; 28; 31; 30; 31; 30; 31; 31; 30; 31; 30; 31].
Definition DAYS_BEFORE_MONTH : list Z :=
  [-1; 0; 31; 59; 90; 120; 151; 181; 212; 243; 273; 304; 334].

Definition b2z (b : bool) : Z := if b then 1 else 0.

(** [_ord2ymd] of the [datetime] module. *)
Definition ord2ymd (ordinal : Z) : Z * Z * Z :=
  let n := ordinal - 1 in
  let n400 := n / DI400Y in
  let n := n mod DI400Y in
  let year := n400 * 400 + 1 in
  let n100 := n / DI100Y in
  let n := n mod DI100Y in
  let n4 := n / DI4Y in
  let n := n mod DI4Y in
  let n1 := n / 365 in
  let n := n mod 365 in
  let year := year + n100 * 100 + n4 * 4 + n1 in
  if (n1 =? 4) || (n100 =? 4) then (year - 1, 12, 31)
  else
    let leapyear := (n1 =? 3) && (negb (n4 =? 24) || (n100 =? 3)) in
    let month := Z.shiftr (n + 50) 5 in
    let preceding :=
      nth (Z.to_nat month) DAYS_BEFORE_MONTH 0 + b2z ((2 <? month) && leapyear) in
    if n <? preceding then
      let month := month - 1 in
      let preceding :=
        preceding - (nth (Z.to_nat month) DAYS_IN_MONTH 0
                     + b2z ((month =? 2) && leapyear)) in
      (year, month, n - preceding + 1)
    else (year, month, n - preceding + 1).

(** [d + timedelta(days=1)]; [OverflowError] past 9999-12-31. *)
Definition next_day (ordinal : Z) : option Z :=
  if ordinal + 1 <=? MAXORDINAL then Some (ordinal + 1) else None.

(** [_is_leap], [_days_before_year], [_days_before_month] and [_ymd2ord] of
    the [datetime] module: the ordinal of a date. *)
Definition is_leap (year : Z) : bool :=
  (year mod 4 =? 0) && (negb (year mod 100 =? 0) || (year mod 400 =? 0)).

Definition days_before_year (year : Z) : Z :=
  let y := year - 1 in y * 365 + y / 4 - y / 100 + y / 400.

Definition days_before_month (year month : Z) : Z :=
  nth (Z.to_nat month) DAYS_BEFORE_MONTH 0 + b2z ((2 <? month) && is_leap year).

Definition ymd2ord (date : Z * Z * Z) : Z :=
  let '(year, month, day) := date in
  days_before_year year + days_before_month year month + day.

(** *** [datetime.fromtimestamp(seconds).hour]

    [utc_offset s] is the offset of local time from UTC, in seconds, at
    the instant [s] (the zone rules of the host).

    The C implementation converts the instant to local time and, to set
    the [fold] attribute, converts two further instants: the one
    [max_fold_seconds] (24 hours) earlier and, when the offset dropped in
    between, the one [transition] seconds earlier.  Each conversion goes
    through [utc_to_seconds], which raises [ValueError] when the local year
    leaves 1..9999; so the call raises on the whole first day of year 1. *)
Definition MIN_LOCAL : Z := -62135596800.
Definition MAX_LOCAL : Z := 253402300799.
Definition max_fold_seconds : Z := 24 * 3600.

(** [local(u)]: the local time at the instant [s], in seconds since
    0001-01-01 plus [MIN_LOCAL]; [None] for the [ValueError] of
    [utc_to_seconds]. *)
Definition local (utc_offset : Z -> Z) (s : Z) : option Z :=
  let l := s + utc_offset s in
  if (MIN_LOCAL <=? l) && (l <=? MAX_LOCAL) then Some l else None.

Definition fromtimestamp_hour (utc_offset : Z -> Z) (millis : Z) : option Z :=
  let seconds := millis / 1000 in
  match local utc_offset seconds with
  | None => None
  | Some result_seconds =>
      let hour := (result_seconds mod 86400) / 3600 in
      match local utc_offset (seconds - max_fold_seconds) with
      | None => None
      | Some probe_seconds =>
          let transition := result_seconds - probe_seconds - max_fold_seconds in
          if transition <? 0 then
            match local utc_offset (seconds + transition) with
            | None => None
            | Some _ => Some hour
            end
          else Some hour
      end
  end.

End PyDate.

(** ** Log records and the analysis result *)

(** [d.get(key, default)] on an optional field. *)
Definition get_default {A : Type} (field : option A) (default : A) : A :=
  match field with
  | Some v => v
  | None => default
  end.

Record Header := {
  name : option string;
  value : option string
}.

Record HttpRequest := {
  country : option string;
  clientIP : option string;
  uri : option string;
  httpMethod : option string;
  headers : option (list Header)
}.

(** [{}], the default of [log.get('httpRequest', {})]. *)
Definition no_request : HttpRequest :=
  {| country := None; clientIP := None; uri := None; httpMethod := None;
     headers := None |}.

(** One parsed WAF event, its fields typed as the log format has them.  A
    field is [None] when its key is absent. *)
Record LogRecord := {
  action : option string;
  timestamp : option Z;
  terminatingRuleId : option string;
  httpRequest : option HttpRequest
}.

Record Analysis := {
  total_requests : Z;
  blocked_requests : Z;
  allowed_requests : Z;
  blocked_by_rule : Counter.t string;
  blocked_by_country : Counter.t string;
  blocked_by_ip : Counter.t string;
  top_blocked_uris : Counter.t string;
  attack_methods : Counter.t string;
  hourly_distribution : Counter.t Z
}.

(** Outcome of [json.loads] on one line. *)
Inductive loads_result (A : Type) :=
| Parsed (entry : A)
| JSONDecodeError
| OtherError (message : string).
Arguments Parsed {A} entry.
Arguments JSONDecodeError {A}.
Arguments OtherError {A} message.

(** Outcome of [list_objects_v2]: an exception, or a response whose
    ['Contents'] (the keys of its objects) may be missing. *)
Inductive listing :=
| ListingError (message : string)
| Listing (contents : option (list string)).

(** ** The analyzer *)

Section WAFAnalyzer.

(** [s3_client.list_objects_v2(Bucket=bucket_name, Prefix=prefix)] *)
Variable list_objects_v2 : string -> listing.

(** [gzip.decompress(s3_client.get_object(...)['Body'].read()).decode('utf-8')]:
    the text of the object, or the message of the exception. *)
Variable get_object_text : string -> string + string.

(** The type of a decoded log entry, and [json.loads]. *)
Variable Entry : Type.
Variable json_loads : string -> loads_result Entry.

(** Offset of local time from UTC, in seconds, at an instant. *)
Variable utc_offset : Z -> Z.

(** *** [get_log_files] *)

Definition day_prefix (current_date : Z) : string :=
  let '(year, month, day) := PyDate.ord2ymd current_date in
  "year=" ++ PyNum.str_int year ++ "/month=" ++ PyNum.fmt_02d month
    ++ "/day=" ++ PyNum.fmt_02d day ++ "/".

(** The keys one iteration of the [while] loop appends. *)
Definition day_keys (current_date : Z) : list string :=
  match list_objects_v2 (day_prefix current_date) with
  | Listing (Some contents) =>
      filter (fun key => PyStr.endswith key ".gz") contents
  | Listing None => []
  | ListingError _ => []
  end.

(** The [while current_date <= end_date] loop, by recursion on the number
    of days left in the range. *)
Fixpoint collect_days (days_left : nat) (current_date : Z)
    (log_files : list string) : option (list string) :=
  match days_left with
  | O => Some log_files
  | S days_left' =>
      let log_files := (log_files ++ day_keys current_date)%list in
      match PyDate.next_day current_date with
      | Some tomorrow => collect_days days_left' tomorrow log_files
      | None => None
      end
  end.

(** [start_date] and [end_date] are the ordinals of the two midnights the
    command line passes.  The value is the returned list; [None] when the
    last [current_date += timedelta(days=1)] overflows.  The diagnostic the
    method prints on a listing failure is not part of the value. *)
Definition get_log_files (start_date end_date : Z) : option (list string) :=
  match collect_days (Z.to_nat (end_date - start_date + 1)) start_date [] with
  | Some log_files => Some (py_sorted String.leb log_files)
  | None => None
  end.

(** *** [download_and_parse_logs] *)

(** The loop over the lines of one file: the entries appended to [logs],
    and the message of an exception other than [JSONDecodeError] if one
    ended the loop. *)
Fixpoint parse_lines (lines : list string) (logs : list Entry)
    : list Entry * option string :=
  match lines with
  | [] => (logs, None)
  | line :: lines' =>
      if String.eqb line "" then parse_lines lines' logs
      else match json_loads line with
           | Parsed log_entry => parse_lines lines' (logs ++ [log_entry])%list
           | JSONDecodeError => parse_lines lines' logs
           | OtherError message => (logs, Some message)
           end
  end.

Record Download := {
  logs : list Entry;
  processed_files : Z;
  stdout : list string
}.

Definition processing_message (log_file : string) : string :=
  "Processing " ++ log_file ++ "...".
Definition error_message (log_file message : string) : string :=
  "Error processing " ++ log_file ++ ": " ++ message.
Definition summary_message (processed entries : Z) : string :=
  "Processed " ++ PyNum.str_int processed ++ " files, parsed "
    ++ PyNum.str_int entries ++ " log entries".

(** The body of [for log_file in log_files], after the cap test. *)
Definition process_file (log_file : string) (st : Download) : Download :=
  let out := (stdout st ++ [processing_message log_file])%list in
  match get_object_text log_file with
  | inr message =>
      {| logs := logs st;
         processed_files := processed_files st;
         stdout := (out ++ [error_message log_file message])%list |}
  | inl content =>
      match parse_lines (PyStr.split_lines (PyStr.strip content)) (logs st) with
      | (logs', None) =>
          {| logs := logs';
             processed_files := processed_files st + 1;
             stdout := out |}
      | (logs', Some message) =>
          {| logs := logs';
             processed_files := processed_files st;
             stdout := (out ++ [error_message log_file message])%list |}
      end
  end.

(** [max_files and processed_files >= max_files] *)
Definition cap_reached (max_files : option Z) (processed : Z) : bool :=
  match max_files with
  | None => false
  | Some cap => negb (cap =? 0) && (cap <=? processed)
  end.

Fixpoint download_loop (log_files : list string) (max_files : option Z)
    (st : Download) : Download :=
  match log_files with
  | [] => st
  | log_file :: log_files' =>
      if cap_reached max_files (processed_files st) then st
      else download_loop log_files' max_files (process_file log_file st)
  end.

Definition download_run (log_files : list string) (max_files : option Z)
    : Download :=
  let st := download_loop log_files max_files
              {| logs := []; processed_files := 0; stdout := [] |} in
  {| logs := logs st;
     processed_files := processed_files st;
     stdout := (stdout st ++
                [summary_message (processed_files st)
                   (Z.of_nat (List.length (logs st)))])%list |}.

Definition download_and_parse_logs (log_files : list string)
    (max_files : option Z) : list Entry :=
  logs (download_run log_files max_files).

(** *** [analyze_threat_patterns] *)

(** The [for header in headers] loop: the value of the first header named
    "user-agent" in any letter case, [''] when there is none. *)
Fixpoint find_user_agent (hs : list Header) : string :=
  match hs with
  | [] => ""
  | header :: hs' =>
      if String.eqb (PyStr.lower (get_default (name header) "")) "user-agent"
      then get_default (value header) ""
      else find_user_agent hs'
  end.

(** The [if]/[elif] chain on [rule_id.lower()]. *)
Definition classify (rule_id : string) : string :=
  if PyStr.contains "sql" (PyStr.lower rule_id)
     || PyStr.contains "sqli" (PyStr.lower rule_id)
  then "SQL Injection"
  else if PyStr.contains "xss" (PyStr.lower rule_id)
  then "Cross-Site Scripting"
  else if PyStr.contains "ratelimit" (PyStr.lower rule_id)
  then "Rate Limiting"
  else if PyStr.contains "geo" (PyStr.lower rule_id)
  then "Geographic Block"
  else "Other".

Definition request_of (log : LogRecord) : HttpRequest :=
  get_default (httpRequest log) no_request.

Definition rule_id_of (log : LogRecord) : string :=
  get_default (terminatingRuleId log) "Unknown".
Definition country_of (log : LogRecord) : string :=
  get_default (country (request_of log)) "Unknown".
Definition client_ip_of (log : LogRecord) : string :=
  get_default (clientIP (request_of log)) "Unknown".
Definition uri_of (log : LogRecord) : string :=
  get_default (uri (request_of log)) "Unknown".

(** [datetime.fromtimestamp(log.get('timestamp', 0) / 1000).hour] *)
Definition hour_of (log : LogRecord) : option Z :=
  PyDate.fromtimestamp_hour utc_offset (get_default (timestamp log) 0).

(** The [if action == 'BLOCK'] branch.  [http_method] and [user_agent] are
    looked up as the script does; no counter uses them. *)
Definition count_block (log : LogRecord) (a : Analysis) : Analysis :=
  let rule_id := rule_id_of log in
  let http_method := get_default (httpMethod (request_of log)) "Unknown" in
  let user_agent := find_user_agent (get_default (headers (request_of log)) []) in
  {| total_requests := total_requests a;
     blocked_requests := blocked_requests a + 1;
     allowed_requests := allowed_requests a;
     blocked_by_rule := Counter.incr rule_id (blocked_by_rule a);
     blocked_by_country := Counter.incr (country_of log) (blocked_by_country a);
     blocked_by_ip := Counter.incr (client_ip_of log) (blocked_by_ip a);
     top_blocked_uris := Counter.incr (uri_of log) (top_blocked_uris a);
     attack_methods := Counter.incr (classify rule_id) (attack_methods a);
     hourly_distribution := hourly_distribution a |}.

(** The [elif action == 'ALLOW'] branch. *)
Definition count_allow (a : Analysis) : Analysis :=
  {| total_requests := total_requests a;
     blocked_requests := blocked_requests a;
     allowed_requests := allowed_requests a + 1;
     blocked_by_rule := blocked_by_rule a;
     blocked_by_country := blocked_by_country a;
     blocked_by_ip := blocked_by_ip a;
     top_blocked_uris := top_blocked_uris a;
     attack_methods := attack_methods a;
     hourly_distribution := hourly_distribution a |}.

Definition count_hour (hour : Z) (a : Analysis) : Analysis :=
  {| total_requests := total_requests a;
     blocked_requests := blocked_requests a;
     allowed_requests := allowed_requests a;
     blocked_by_rule := blocked_by_rule a;
     blocked_by_country := blocked_by_country a;
     blocked_by_ip := blocked_by_ip a;
     top_blocked_uris := top_blocked_uris a;
     attack_methods := attack_methods a;
     hourly_distribution := Counter.incr hour (hourly_distribution a) |}.

(** The branch on [action], without the hour. *)
Definition count_action (log : LogRecord) (a : Analysis) : Analysis :=
  let action := get_default (action log) "" in
  if String.eqb action "BLOCK" then count_block log a
  else if String.eqb action "ALLOW" then count_allow a
  else a.

(** One iteration of [for log in logs]; [None] when [fromtimestamp]
    raises, which happens before any counter is touched. *)
Definition analyze_one (log : LogRecord) (a : Analysis) : option Analysis :=
  match hour_of log with
  | None => None
  | Some hour => Some (count_hour hour (count_action log a))
  end.

Fixpoint analyze_loop (logs : list LogRecord) (a : Analysis) : option Analysis :=
  match logs with
  | [] => Some a
  | log :: logs' =>
      match analyze_one log a with
      | None => None
      | Some a' => analyze_loop logs' a'
      end
  end.

Definition initial_analysis (logs : list LogRecord) : Analysis :=
  {| total_requests := Z.of_nat (List.length logs);
     blocked_requests := 0;
     allowed_requests := 0;
     blocked_by_rule := Counter.empty;
     blocked_by_country := Counter.empty;
     blocked_by_ip := Counter.empty;
     top_blocked_uris := Counter.empty;
     attack_methods := Counter.empty;
     hourly_distribution := Counter.empty |}.

Definition analyze_threat_patterns (logs : list LogRecord) : option Analysis :=
  analyze_loop logs (initial_analysis logs).

End WAFAnalyzer.

(** *** [generate_report]

    [now] is the text of [datetime.now().strftime('%Y-%m-%d %H:%M:%S')].  The
    value below is the returned [report_text]; the same text is what the
    method prints or writes to [output_file]. *)

Module Report.

Definition banner : string := PyStr.repeat_char "="%char 60.
Definition rule : string := PyStr.repeat_char "-"%char 30.

Definition hundred : PyNum.float := PyNum.float_of_int 100.

(** The [if analysis['total_requests'] > 0] block. *)
Definition block_rate_lines (analysis : Analysis) : option (list string) :=
  if 0 <? total_requests analysis then
    match PyNum.true_div (blocked_requests analysis) (total_requests analysis) with
    | Some q =>
        let block_rate := PyNum.fmul q hundred in
        Some ["Block Rate: " ++ PyNum.fmt_fixed 2 block_rate ++ "%"]
    | None => None
    end
  else Some [].

Definition blocks_line (item : string * Z) : string :=
  fst item ++ ": " ++ PyNum.fmt_comma (snd item) ++ " blocks".

(** [for key, count in sorted_items[:10]] *)
Definition top10_lines (d : Counter.t string) : list string :=
  map blocks_line (firstn 10 (sorted_by_count d)).

Definition method_line (blocked : Z) (item : string * Z) : option string :=
  let percentage :=
    if 0 <? blocked then
      match PyNum.true_div (snd item) blocked with
      | Some q => Some (PyNum.fmul q hundred)
      | None => None
      end
    else Some (S754_zero false) in
  match percentage with
  | Some p =>
      Some (fst item ++ ": " ++ PyNum.fmt_comma (snd item)
              ++ " (" ++ PyNum.fmt_fixed 1 p ++ "%)")
  | None => None
  end.

Fixpoint method_lines (blocked : Z) (items : list (string * Z))
    : option (list string) :=
  match items with
  | [] => Some []
  | item :: items' =>
      match method_line blocked item with
      | None => None
      | Some line =>
          match method_lines blocked items' with
          | None => None
          | Some lines => Some (line :: lines)
          end
      end
  end.

Definition header_lines (now : string) : list string :=
  [banner; "AWS WAF Security Analysis Report"; banner; "Generated: " ++ now; ""].

Definition count_lines (analysis : Analysis) : list string :=
  ["SUMMARY STATISTICS"; rule;
   "Total Requests: " ++ PyNum.fmt_comma (total_requests analysis);
   "Blocked Requests: " ++ PyNum.fmt_comma (blocked_requests analysis);
   "Allowed Requests: " ++ PyNum.fmt_comma (allowed_requests analysis)].

(** The list [report] just before it is joined. *)
Definition report_lines (now : string) (analysis : Analysis)
    : option (list string) :=
  match block_rate_lines analysis with
  | None => None
  | Some rate =>
      match method_lines (blocked_requests analysis)
              (sorted_by_count (attack_methods analysis)) with
      | None => None
      | Some methods =>
          Some (header_lines now
                ++ count_lines analysis ++ rate ++ [""]
                ++ ["TOP TRIGGERED RULES"; rule]
                ++ top10_lines (blocked_by_rule analysis) ++ [""]
                ++ ["TOP ATTACKING COUNTRIES"; rule]
                ++ top10_lines (blocked_by_country analysis) ++ [""]
                ++ ["TOP ATTACKING IP ADDRESSES"; rule]
                ++ top10_lines (blocked_by_ip analysis) ++ [""]
                ++ ["ATTACK METHODS DISTRIBUTION"; rule]
                ++ methods ++ [""]
                ++ ["TOP BLOCKED URIs"; rule]
                ++ top10_lines (top_blocked_uris analysis))%list
      end
  end.

Definition generate_report (now : string) (analysis : Analysis)
    : option string :=
  option_map PyStr.join_lines (report_lines now analysis).

End Report.

(** *** [create_visualizations]

    The method hands five data series to the plotting library and saves one
    image for each.  A chart is recorded as the series it is built from and
    the file it is saved to; drawing is the library's business, and so is
    refusing to draw. *)

Module Charts.

Inductive chart :=
| Pie (labels : list string) (sizes : list Z)
| Bar (categories : list string) (heights : list Z)
| Line (xs ys : list Z)
| BarH (categories : list string) (widths : list Z).

(** [sorted(d.items(), key=lambda x: x[1], reverse=True)[:10]] *)
Definition top10 (d : Counter.t string) : list (string * Z) :=
  firstn 10 (sorted_by_count d).

(** The two columns of [pairs], as [zip] with the starred argument gives
    them, [([], [])] for no pair. *)
Definition unzip (pairs : list (string * Z)) : list string * list Z :=
  (map fst pairs, map snd pairs).

(** [rule[:30] + '...' if len(rule) > 30 else rule] *)
Definition truncate_rule (rule : string) : string :=
  if Nat.ltb 30 (String.length rule) then substring 0 30 rule ++ "..." else rule.

(** [list(range(24))] *)
Definition hours : list Z := map Z.of_nat (seq 0 24).

(** [[analysis['hourly_distribution'].get(hour, 0) for hour in hours]] *)
Definition hourly_counts (analysis : Analysis) : list Z :=
  map (fun hour => Counter.get hour (hourly_distribution analysis)) hours.

(** The five charts of an analysis, with the files they are saved to, in
    the order the method draws them. *)
Definition planned_charts (analysis : Analysis) (output_dir : string)
    : list (string * chart) :=
  let '(countries, country_counts) := unzip (top10 (blocked_by_country analysis)) in
  let methods := Counter.keys (attack_methods analysis) in
  let method_counts := Counter.values (attack_methods analysis) in
  let '(rules, rule_counts) := unzip (top10 (blocked_by_rule analysis)) in
  let truncated_rules := map truncate_rule rules in
  [(output_dir ++ "/request_distribution.png",
    Pie ["Blocked"; "Allowed"]
        [blocked_requests analysis; allowed_requests analysis]);
   (output_dir ++ "/top_countries.png", Bar countries country_counts);
   (output_dir ++ "/attack_methods.png", Pie methods method_counts);
   (output_dir ++ "/hourly_distribution.png", Line hours (hourly_counts analysis));
   (output_dir ++ "/top_rules.png", BarH truncated_rules rule_counts)].

(** The charts are drawn and saved one after the other.  [plots c] tells
    whether the plotting library draws the chart [c]; when it does not, the
    plotting call raises (as [plt.pie] does, with [ValueError], on sizes it
    cannot turn into fractions), nothing in the method catches the exception,
    the chart is not saved and no later chart is drawn.  The value is the
    charts saved and whether an exception ended the loop. *)
Fixpoint save_charts (plots : chart -> bool) (planned : list (string * chart))
    : list (string * chart) * bool :=
  match planned with
  | [] => ([], false)
  | (file, c) :: planned' =>
      if plots c then
        let '(saved, raised) := save_charts plots planned' in
        ((file, c) :: saved, raised)
      else ([], true)
  end.

Record Drawing := {
  saved : list (string * chart);
  printed : list string;
  raised : bool
}.

(** [available] is [VISUALIZATION_AVAILABLE].  The output directory is
    taken to exist or to be created without error. *)
Definition create_visualizations (available : bool) (plots : chart -> bool)
    (analysis : Analysis) (output_dir : string) : Drawing :=
  if negb available then
    {| saved := [];
       printed := ["Visualization libraries not available. Install with:";
                   "pip install matplotlib seaborn pandas"];
       raised := false |}
  else
    let '(saved, raised) := save_charts plots (planned_charts analysis output_dir) in
    {| saved := saved;
       printed := if raised then []
                  else ["Visualizations saved to " ++ output_dir ++ "/"];
       raised := raised |}.

End Charts.

(** *** [main]

    The command line after [argparse]: the two date texts, the cap, and the
    chart switch.  [strptime] is [datetime.strptime(text, '%Y-%m-%d')], the
    ordinal of the day or [None] for [ValueError].  In [main] the entries the
    parser returns are the records the aggregator reads, so the decoder
    yields [LogRecord]s. *)

Record Args := {
  start_date : string;
  end_date : string;
  max_files : option Z;
  output_charts : string;
  no_charts : bool
}.

(** How [main] ends: [sys.exit(1)] with the message printed before it, an
    exception nothing catches, or the end of the function. *)
Inductive ending :=
| Exit1 (message : string)
| Uncaught
| Completed.

(** What a run leaves behind: how it ended, the report it printed, if it
    got that far, and the charts it saved. *)
Record Run := {
  ended : ending;
  report_text : option string;
  charts : list (string * Charts.chart)
}.

Section Main.

Variable strptime : string -> option Z.
Variable list_objects_v2 : string -> listing.
Variable get_object_text : string -> string + string.
Variable json_loads : string -> loads_result LogRecord.
Variable utc_offset : Z -> Z.
Variable now : string.
Variable VISUALIZATION_AVAILABLE : bool.
Variable plots : Charts.chart -> bool.

Definition stopped (how : ending) : Run :=
  {| ended := how; report_text := None; charts := [] |}.

(** The end of [main], once the report is printed. *)
Definition visualize (args : Args) (analysis : Analysis) (text : string) : Run :=
  if negb (no_charts args) then
    if VISUALIZATION_AVAILABLE then
      let drawing :=
        Charts.create_visualizations VISUALIZATION_AVAILABLE plots analysis
          (output_charts args) in
      {| ended := if Charts.raised drawing then Uncaught else Completed;
         report_text := Some text;
         charts := Charts.saved drawing |}
    else {| ended := Completed; report_text := Some text; charts := [] |}
  else {| ended := Completed; report_text := Some text; charts := [] |}.

Definition main (args : Args) : Run :=
  match strptime (start_date args), strptime (end_date args) with
  | Some start_day, Some end_day =>
      match get_log_files list_objects_v2 start_day end_day with
      | None => stopped Uncaught
      | Some [] => stopped (Exit1 "No log files found for the specified date range")
      | Some log_files =>
          match download_and_parse_logs get_object_text LogRecord json_loads
                  log_files (max_files args) with
          | [] => stopped (Exit1 "No log entries found")
          | logs =>
              match analyze_threat_patterns utc_offset logs with
              | None => stopped Uncaught
              | Some analysis =>
                  match Report.generate_report now analysis with
                  | None => stopped Uncaught
                  | Some text => visualize args analysis text
                  end
              end
          end
      end
  | _, _ => stopped (Exit1 "Error: Date format should be YYYY-MM-DD")
  end.

End Main.

(** * Vocabulary of the properties

    Definitions that serve to state and prove the properties; none of them
    is part of the script. *)

Fixpoint count {A : Type} (p : A -> bool) (l : list A) : Z :=
  match l with
  | [] => 0
  | x :: l' => (if p x then 1 else 0) + count p l'
  end.

Definition is_block (log : LogRecord) : bool :=
  String.eqb (get_default (action log) "") "BLOCK".

Definition is_allow (log : LogRecord) : bool :=
  String.eqb (get_default (action log) "") "ALLOW".

Definition set_hourly (d : Counter.t Z) (a : Analysis) : Analysis :=
  {| total_requests := total_requests a;
     blocked_requests := blocked_requests a;
     allowed_requests := allowed_requests a;
     blocked_by_rule := blocked_by_rule a;
     blocked_by_country := blocked_by_country a;
     blocked_by_ip := blocked_by_ip a;
     top_blocked_uris := top_blocked_uris a;
     attack_methods := attack_methods a;
     hourly_distribution := d |}.

(** The action branches of all iterations, hours left aside. *)
Definition tally_actions (logs : list LogRecord) (a : Analysis) : Analysis :=
  fold_left (fun a log => count_action log a) logs a.

Definition tally_hours (hours : list Z) (d : Counter.t Z) : Counter.t Z :=
  fold_left (fun d hour => Counter.incr hour d) hours d.

Definition set_total (n : Z) (a : Analysis) : Analysis :=
  {| total_requests := n;
     blocked_requests := blocked_requests a;
     allowed_requests := allowed_requests a;
     blocked_by_rule := blocked_by_rule a;
     blocked_by_country := blocked_by_country a;
     blocked_by_ip := blocked_by_ip a;
     top_blocked_uris := top_blocked_uris a;
     attack_methods := attack_methods a;
     hourly_distribution := hourly_distribution a |}.

(** The hours of all records, when [fromtimestamp] accepts each one. *)
Fixpoint hours_of (utc_offset : Z -> Z) (logs : list LogRecord) : option (list Z) :=
  match logs with
  | [] => Some []
  | log :: logs' =>
      match hour_of utc_offset log, hours_of utc_offset logs' with
      | Some h, Some hs => Some (h :: hs)
      | _, _ => None
      end
  end.

Definition hour_is (utc_offset : Z -> Z) (k : Z) (log : LogRecord) : bool :=
  match hour_of utc_offset log with
  | Some h => h =? k
  | None => false
  end.

(** A blocked record whose [field] is [k]. *)
Definition blocked_with (field : LogRecord -> string) (k : string)
    (log : LogRecord) : bool :=
  is_block log && String.eqb k (field log).

Definition attack_of (log : LogRecord) : string := classify (rule_id_of log).

(** Two analyses that agree on everything the action branches write. *)
Definition same_action_tally (a a' : Analysis) : Prop :=
  blocked_requests a = blocked_requests a'
  /\ allowed_requests a = allowed_requests a'
  /\ blocked_by_rule a = blocked_by_rule a'
  /\ blocked_by_country a = blocked_by_country a'
  /\ blocked_by_ip a = blocked_by_ip a'
  /\ top_blocked_uris a = top_blocked_uris a'
  /\ attack_methods a = attack_methods a'.

(** The days [current], [current + 1], ... of a range of [n] days. *)
Fixpoint days_from (n : nat) (current : Z) : list Z :=
  match n with
  | O => []
  | S n' => current :: days_from n' (current + 1)
  end.

(** The end of [_ord2ymd]: the month and the day of the day [n] of a year,
    counted from 0. *)
Definition month_day (leapyear : bool) (n : Z) : Z * Z :=
  let month := Z.shiftr (n + 50) 5 in
  let preceding :=
    nth (Z.to_nat month) PyDate.DAYS_BEFORE_MONTH 0
    + PyDate.b2z ((2 <? month) && leapyear) in
  if n <? preceding then
    let month := month - 1 in
    let preceding :=
      preceding - (nth (Z.to_nat month) PyDate.DAYS_IN_MONTH 0
                   + PyDate.b2z ((month =? 2) && leapyear)) in
    (month, n - preceding + 1)
  else (month, n - preceding + 1).

(** [p i && p (i + 1) && ...], [fuel] tests in all. *)
Fixpoint all_from (fuel : nat) (i : Z) (p : Z -> bool) : bool :=
  match fuel with
  | O => true
  | S fuel' => p i && all_from fuel' (i + 1) p
  end.

(** Month and day are in range and count the days of the year up to [n]. *)
Definition month_day_ok (leapyear : bool) (n : Z) : bool :=
  let '(month, day) := month_day leapyear n in
  (1 <=? month) && (month <=? 12) && (1 <=? day) && (day <=? 31)
  && (nth (Z.to_nat month) PyDate.DAYS_BEFORE_MONTH 0
      + PyDate.b2z ((2 <? month) && leapyear) + day =? n + 1).

Fixpoint no_slash (s : string) : bool :=
  match s with
  | EmptyString => true
  | String c s' => negb (Ascii.eqb c "/") && no_slash s'
  end.

(** The text before the first slash, and the text after it. *)
Fixpoint until_slash (s : string) : string * string :=
  match s with
  | EmptyString => (EmptyString, EmptyString)
  | String c s' =>
      if Ascii.eqb c "/" then (EmptyString, s')
      else (String c (fst (until_slash s')), snd (until_slash s'))
  end.

Fixpoint drop (n : nat) (s : string) : string :=
  match n, s with
  | S n', String _ s' => drop n' s'
  | _, _ => s
  end.

(** The year, month and day fields of a key [year=Y/month=M/day=D/...]. *)
Definition key_date (key : string) : string * string * string :=
  let year := until_slash (drop 5 key) in
  let month := until_slash (drop 6 (snd year)) in
  let day := until_slash (drop 4 (snd month)) in
  (fst year, fst month, fst day).

(** The value of a numeral. *)
Fixpoint digits_value (acc : Z) (s : string) : Z :=
  match s with
  | EmptyString => acc
  | String c s' => digits_value (10 * acc + (Z.of_N (N_of_ascii c) - 48)) s'
  end.

(** What S3 answers to [list_objects_v2(Prefix=asked)]: keys of objects of
    the bucket, every one starting with the prefix asked for, and no key
    twice, a bucket holding one object under a key. *)
Definition s3_listing (list_objects_v2 : string -> listing) : Prop :=
  forall (asked : string) (contents : list string),
    list_objects_v2 asked = Listing (Some contents) ->
    NoDup contents /\ Forall (fun key => prefix asked key = true) contents.

(** Follows the specification's words: the lines of a file "interleave"
    valid lines (non-empty, decoded to an entry), malformed lines (the
    decoder raises [JSONDecodeError]) and empty lines; [entries] are the
    entries of the valid lines, in order. *)
Inductive Interleaved (Entry : Type) (json_loads : string -> loads_result Entry)
    : list string -> list Entry -> Prop :=
| Interleaved_nil : Interleaved Entry json_loads [] []
| Interleaved_valid (line : string) (entry : Entry) lines entries :
    line <> "" -> json_loads line = Parsed entry ->
    Interleaved Entry json_loads lines entries ->
    Interleaved Entry json_loads (line :: lines) (entry :: entries)
| Interleaved_malformed (line : string) lines entries :
    json_loads line = JSONDecodeError ->
    Interleaved Entry json_loads lines entries ->
    Interleaved Entry json_loads (line :: lines) entries
| Interleaved_empty lines entries :
    Interleaved Entry json_loads lines entries ->
    Interleaved Entry json_loads ("" :: lines) entries.

(** [capital_of c k]: [c] is an ASCII capital and [k] its small letter. *)
Definition capital_of (c k : ascii) : Prop :=
  (65 <= N_of_ascii c <= 90)%N /\ N_of_ascii k = (N_of_ascii c + 32)%N.

Definition small_letter (k : ascii) : Prop := (97 <= N_of_ascii k <= 122)%N.

Fixpoint small_letters (keyword : string) : Prop :=
  match keyword with
  | EmptyString => True
  | String k keyword' => small_letter k /\ small_letters keyword'
  end.

(** [spells word keyword]: [word] is [keyword], a word of small ASCII
    letters, with any of its letters possibly written as a capital. *)
Fixpoint spells (word keyword : string) : Prop :=
  match word, keyword with
  | EmptyString, EmptyString => True
  | String c word', String k keyword' =>
      small_letter k /\ (c = k \/ capital_of c k) /\ spells word' keyword'
  | _, _ => False
  end.

(** The keyword occurs in the text, in whatever letter case: the text is
    [pre ++ word ++ post] for a [word] that spells the keyword. *)
Definition occurs (keyword text : string) : Prop :=
  exists pre word post : string,
    text = pre ++ word ++ post /\ spells word keyword.

(** Two texts that differ in the case of ASCII letters only. *)
Fixpoint same_ignoring_case (s t : string) : Prop :=
  match s, t with
  | EmptyString, EmptyString => True
  | String c s', String d t' =>
      (c = d \/ capital_of c d \/ capital_of d c) /\ same_ignoring_case s' t'
  | _, _ => False
  end.

(** ** Sample data *)

(** A host whose local time is UTC. *)
Definition utc_zone (seconds : Z) : Z := 0.

Definition sqli_record : LogRecord :=
  {| action := Some "BLOCK";
     timestamp := None;
     terminatingRuleId := Some "AWSManagedRulesSQLiRuleSet";
     httpRequest := None |}.

Definition rate_record : LogRecord :=
  {| action := Some "BLOCK";
     timestamp := Some 1700000000000;
     terminatingRuleId := Some "RateLimitRule";
     httpRequest :=
       Some {| country := Some "US";
               clientIP := None;
               uri := Some "/login";
               httpMethod := Some "POST";
               headers := Some [{| name := Some "User-Agent";
                                   value := Some "curl/8.0" |}] |} |}.

Definition allowed_record : LogRecord :=
  {| action := Some "ALLOW";
     timestamp := Some 1700003600000;
     terminatingRuleId := Some "Default_Action";
     httpRequest := None |}.

Definition counted_record : LogRecord :=
  {| action := Some "COUNT";
     timestamp := Some 1700007200000;
     terminatingRuleId := None;
     httpRequest := None |}.

Definition example_logs : list LogRecord :=
  [sqli_record; sqli_record; rate_record; allowed_record; allowed_record].

(** The result for [example_logs] on a host in [utc_zone]. *)
Definition example_analysis : Analysis :=
  {| total_requests := 5;
     blocked_requests := 3;
     allowed_requests := 2;
     blocked_by_rule := [("AWSManagedRulesSQLiRuleSet", 2); ("RateLimitRule", 1)];
     blocked_by_country := [("Unknown", 2); ("US", 1)];
     blocked_by_ip := [("Unknown", 3)];
     top_blocked_uris := [("Unknown", 2); ("/login", 1)];
     attack_methods := [("SQL Injection", 2); ("Rate Limiting", 1)];
     hourly_distribution := [(0, 2); (22, 1); (23, 2)] |}.

(** The report of the result for no record at all. *)
Definition empty_report : list string :=
  [Report.banner; "AWS WAF Security Analysis Report"; Report.banner;
   "Generated: 2024-03-01 12:00:00"; "";
   "SUMMARY STATISTICS"; Report.rule;
   "Total Requests: 0"; "Blocked Requests: 0"; "Allowed Requests: 0";
   "";
   "TOP TRIGGERED RULES"; Report.rule; "";
   "TOP ATTACKING COUNTRIES"; Report.rule; "";
   "TOP ATTACKING IP ADDRESSES"; Report.rule; "";
   "ATTACK METHODS DISTRIBUTION"; Report.rule; "";
   "TOP BLOCKED URIs"; Report.rule].

(** A listing that answers a prefix with three keys under it, out of order,
    one of them not a compressed log. *)
Definition dated_listing (prefix : string) : listing :=
  Listing (Some [prefix ++ "waf-b.gz"; prefix ++ "waf-a.gz"; prefix ++ "notes.txt"]).

(** A store in which every object holds the one line "x", and a decoder that
    accepts every line. *)
Definition one_line_object (key : string) : string + string := inl "x".
Definition accept_all (line : string) : loads_result unit := Parsed tt.


(** A decoder that takes the lines opening with a brace and keeps their
    text. *)
Definition brace_decoder (line : string) : loads_result string :=
  if prefix "{" line then Parsed line else JSONDecodeError.

Definition sample_content : string :=
  PyStr.join_lines ["{first}"; "not json"; ""; "{second}"; "trunc}"; ""].

(** A store with the one object "day1.gz". *)
Definition sample_store (key : string) : string + string :=
  if String.eqb key "day1.gz" then inl sample_content else inr "NoSuchKey".

(** A store in which the object "bad.gz" cannot be fetched and every other
    object holds one line. *)
Definition flaky_store (key : string) : string + string :=
  if String.eqb key "bad.gz" then inr "AccessDenied" else inl "{x}".

(** [json.loads] on the lines of [nested_content], under the default
    recursion limit of the interpreter: the line "{}" decodes to the empty
    object (kept as its text); a line of opening brackets, at least as many
    as the recursion limit allows nested calls, makes the scanner raise
    [RecursionError] before it can find the array unfinished; the scanner
    rejects every other line of the example with [JSONDecodeError]. *)
Definition RECURSION_LIMIT : nat := 1000.

Definition recursion_message : string :=
  "maximum recursion depth exceeded while decoding a JSON array from a unicode string".

Fixpoint all_brackets (line : string) : bool :=
  match line with
  | EmptyString => true
  | String c line' => Ascii.eqb c "[" && all_brackets line'
  end.

Definition nesting_decoder (line : string) : loads_result string :=
  if String.eqb line "{}" then Parsed line
  else if all_brackets line && (RECURSION_LIMIT <=? String.length line)%nat
  then OtherError recursion_message
  else JSONDecodeError.

(** A malformed line: 1100 opening brackets, none closed. *)
Definition nested_line : string := PyStr.repeat_char "[" 1100.

(** A file of three lines, the malformed one between two valid ones. *)
Definition nested_content : string :=
  PyStr.join_lines ["{}"; nested_line; "{}"].

Definition nested_store (key : string) : string + string := inl nested_content.


(** ** Vocabulary of the further properties *)

(** The five categories [classify] can give. *)
Definition categories : list string :=
  ["SQL Injection"; "Cross-Site Scripting"; "Rate Limiting"; "Geographic Block";
   "Other"].

(** Every count of a table is at least 1. *)
Definition positive_counts {K : Type} (d : Counter.t K) : Prop :=
  Forall (fun entry => 1 <= snd entry) d.

(** A table as a dictionary has it: distinct keys, no count below 1. *)
Definition well_formed {K : Type} (d : Counter.t K) : Prop :=
  NoDup (Counter.keys d) /\ positive_counts d.

(** The text holds no newline. *)
Fixpoint no_newline (line : string) : bool :=
  match line with
  | EmptyString => true
  | String c line' => negb (Ascii.eqb c PyStr.newline) && no_newline line'
  end.

(** The order of [sorted(..., key=lambda x: x[1], reverse=True)]: the larger
    count first. *)
Definition count_ge {K : Type} (x y : K * Z) : Prop := snd y <= snd x.

(** The entries of a table with a given count, in the order of the table. *)
Definition with_count {K : Type} (c : Z) (items : list (K * Z)) : list (K * Z) :=
  filter (fun item => snd item =? c) items.

(** [sum(values)] *)
Definition sum (values : list Z) : Z := fold_right Z.add 0 values.

(** The key of a file can be fetched and decompressed. *)
Definition fetchable (get_object_text : string -> string + string)
    (log_file : string) : bool :=
  match get_object_text log_file with
  | inl _ => true
  | inr _ => false
  end.

(** The keys a listing contributes, whatever way it fails to list any. *)
Definition listed (response : listing) : list string :=
  match response with
  | Listing (Some contents) => contents
  | Listing None => []
  | ListingError _ => []
  end.

(** Every character of the text is white space. *)
Fixpoint all_space (s : string) : bool :=
  match s with
  | EmptyString => true
  | String c s' => PyStr.isspace c && all_space s'
  end.


(** ** Sample data of the further properties *)




(** A decoder that gives up on the line "deep" with an exception of its
    own. *)
Definition raising_decoder (line : string) : loads_result string :=
  if prefix "{" line then Parsed line
  else if String.eqb line "deep" then OtherError "maximum recursion depth exceeded"
  else JSONDecodeError.

Definition deep_content : string :=
  PyStr.join_lines ["{first}"; "oops"; "deep"; "{never read}"].

Definition deep_store (key : string) : string + string := inl deep_content.

(** A store whose objects are blank. *)
Definition blank_store (key : string) : string + string :=
  inl (String " " (String PyStr.newline (String " " EmptyString))).

(** A listing that fails for every prefix, and one that answers without
    ['Contents']. *)
Definition failing_listing (prefix : string) : listing := ListingError "AccessDenied".
Definition bare_listing (prefix : string) : listing := Listing None.

(** A small table with ties. *)
Definition tied_table : Counter.t string :=
  [("a", 1); ("b", 3); ("c", 1); ("d", 3); ("e", 2)].

(** The pieces of a run of the command: one day, one object of three
    lines. *)
Definition sample_strptime (text : string) : option Z :=
  if String.eqb text "2024-03-01" then Some 738946 else None.

Definition record_decoder (line : string) : loads_result LogRecord :=
  if String.eqb line "B" then Parsed sqli_record
  else if String.eqb line "A" then Parsed allowed_record
  else JSONDecodeError.

Definition record_store (key : string) : string + string :=
  inl (PyStr.join_lines ["B"; "A"; "junk"; "B"]).

(** The plotting library as the sample runs meet it: [plt.pie] raises
    [ValueError] when its sizes do not add up to a positive number (an empty
    series, or zeros only); bars and lines are drawn whatever the series. *)
Definition sample_plots (c : Charts.chart) : bool :=
  match c with
  | Charts.Pie _ sizes => 0 <? sum sizes
  | _ => true
  end.

(** A store whose objects hold allowed requests only. *)
Definition allowed_store (key : string) : string + string :=
  inl (PyStr.join_lines ["A"; "A"]).

Definition sample_args : Args :=
  {| start_date := "2024-03-01";
     end_date := "2024-03-01";
     max_files := Some 1;
     output_charts := "./waf_charts";
     no_charts := false |}.

(** * Properties *)

Example ord2ymd_examples :
  PyDate.ord2ymd 1 = (1, 1, 1) /\ PyDate.ord2ymd 738945 = (2024, 2, 29)
  /\ PyDate.ord2ymd 738946 = (2024, 3, 1) /\ PyDate.ord2ymd 3652059 = (9999, 12, 31)
  /\ PyDate.ord2ymd 730120 = (2000, 1, 1) /\ PyDate.ord2ymd 730119 = (1999, 12, 31).
Proof. repeat split; vm_compute; reflexivity. Qed.


(** ** Counters *)

Section CounterFacts.
Context {K : Type} `{EqKey K}.

Lemma keqb_refl (k : K) : keqb k k = true.
Proof. destruct (keqb_spec k k); congruence. Qed.

Lemma get_incr (k k' : K) (d : Counter.t K) :
  Counter.get k (Counter.incr k' d)
  = Counter.get k d + (if keqb k k' then 1 else 0).
Proof.
  induction d as [|[k0 v] d IH]; simpl.
  - destruct (keqb k k'); reflexivity.
  - destruct (keqb_spec k' k0) as [->|Hne]; simpl.
    + destruct (keqb k k0); lia.
    + destruct (keqb_spec k k0) as [->|Hne'].
      * destruct (keqb_spec k0 k'); [congruence | lia].
      * apply IH.
Qed.

Lemma total_incr (k : K) (d : Counter.t K) :
  Counter.total (Counter.incr k d) = Counter.total d + 1.
Proof.
  unfold Counter.total, Counter.values.
  induction d as [|[k0 v] d IH]; simpl; [reflexivity|].
  destruct (keqb k k0); simpl; lia.
Qed.

(** The keys of a counter built by [incr] are pairwise distinct. *)
Lemma keys_incr_In (k k' : K) (d : Counter.t K) :
  In k (Counter.keys (Counter.incr k' d)) <-> k = k' \/ In k (Counter.keys d).
Proof.
  unfold Counter.keys.
  induction d as [|[k0 v] d IH]; simpl.
  - intuition congruence.
  - destruct (keqb_spec k' k0) as [->|Hne]; simpl.
    + intuition congruence.
    + rewrite IH. intuition congruence.
Qed.

Lemma keys_incr_NoDup (k : K) (d : Counter.t K) :
  NoDup (Counter.keys d) -> NoDup (Counter.keys (Counter.incr k d)).
Proof.
  unfold Counter.keys.
  induction d as [|[k0 v] d IH]; simpl; intros Hnd.
  - constructor; [intros [] | constructor].
  - inversion Hnd as [|? ? Hnotin Hnd']; subst.
    destruct (keqb_spec k k0) as [->|Hne]; simpl.
    + constructor; assumption.
    + constructor; [|apply IH; assumption].
      intros Hin. apply (keys_incr_In k0 k d) in Hin.
      destruct Hin as [->|Hin]; [congruence | contradiction].
Qed.
End CounterFacts.

(** ** Counting records *)

Lemma count_nonneg {A : Type} (p : A -> bool) (l : list A) : 0 <= count p l.
Proof. induction l as [|x l IH]; simpl; [lia | destruct (p x); lia]. Qed.

Lemma count_app {A : Type} (p : A -> bool) (l1 l2 : list A) :
  count p (l1 ++ l2) = count p l1 + count p l2.
Proof. induction l1 as [|x l1 IH]; simpl; [reflexivity | rewrite IH; lia]. Qed.

Lemma count_Permutation {A : Type} (p : A -> bool) (l l' : list A) :
  Permutation l l' -> count p l = count p l'.
Proof. induction 1; simpl; lia. Qed.

(** ** The aggregation loop, split into its two independent tallies *)

Lemma count_hour_set_hourly (h : Z) (a : Analysis) :
  count_hour h a = set_hourly (Counter.incr h (hourly_distribution a)) a.
Proof. reflexivity. Qed.

Lemma count_action_set_hourly (log : LogRecord) (d : Counter.t Z) (a : Analysis) :
  count_action log (set_hourly d a) = set_hourly d (count_action log a).
Proof.
  unfold count_action.
  destruct (String.eqb _ "BLOCK"); [reflexivity|].
  destruct (String.eqb _ "ALLOW"); reflexivity.
Qed.

Lemma count_action_hourly (log : LogRecord) (a : Analysis) :
  hourly_distribution (count_action log a) = hourly_distribution a.
Proof.
  unfold count_action.
  destruct (String.eqb _ "BLOCK"); [reflexivity|].
  destruct (String.eqb _ "ALLOW"); reflexivity.
Qed.

Lemma tally_actions_set_hourly (logs : list LogRecord) (d : Counter.t Z) (a : Analysis) :
  tally_actions logs (set_hourly d a) = set_hourly d (tally_actions logs a).
Proof.
  revert a. induction logs as [|log logs IH]; intros a; simpl; [reflexivity|].
  rewrite count_action_set_hourly. apply IH.
Qed.

Lemma tally_actions_hourly (logs : list LogRecord) (a : Analysis) :
  hourly_distribution (tally_actions logs a) = hourly_distribution a.
Proof.
  revert a. induction logs as [|log logs IH]; intros a; simpl; [reflexivity|].
  rewrite IH. apply count_action_hourly.
Qed.

Lemma set_hourly_set_hourly (d d' : Counter.t Z) (a : Analysis) :
  set_hourly d (set_hourly d' a) = set_hourly d a.
Proof. reflexivity. Qed.

Lemma count_action_set_total (log : LogRecord) (n : Z) (a : Analysis) :
  count_action log (set_total n a) = set_total n (count_action log a).
Proof.
  unfold count_action.
  destruct (String.eqb _ "BLOCK"); [reflexivity|].
  destruct (String.eqb _ "ALLOW"); reflexivity.
Qed.

(** The action branches never read [total_requests]. *)
Lemma tally_actions_set_total (logs : list LogRecord) (n : Z) (a : Analysis) :
  tally_actions logs (set_total n a) = set_total n (tally_actions logs a).
Proof.
  revert a. induction logs as [|log logs IH]; intros a; simpl; [reflexivity|].
  rewrite count_action_set_total. apply IH.
Qed.

Lemma initial_analysis_total (logs : list LogRecord) :
  initial_analysis logs = set_total (Z.of_nat (List.length logs)) (initial_analysis []).
Proof. reflexivity. Qed.

Section AggregatorFacts.
Variable utc_offset : Z -> Z.

Lemma analyze_loop_split (logs : list LogRecord) (a : Analysis) :
  analyze_loop utc_offset logs a
  = match hours_of utc_offset logs with
    | Some hs =>
        Some (set_hourly (tally_hours hs (hourly_distribution a))
                (tally_actions logs a))
    | None => None
    end.
Proof.
  revert a. induction logs as [|log logs IH]; intros a; simpl.
  - destruct a; reflexivity.
  - unfold analyze_one. destruct (hour_of utc_offset log) as [h|]; [|reflexivity].
    rewrite IH. destruct (hours_of utc_offset logs) as [hs|]; [|reflexivity].
    simpl. rewrite count_hour_set_hourly, tally_actions_set_hourly.
    rewrite set_hourly_set_hourly, count_action_hourly. reflexivity.
Qed.

Lemma hours_of_length (logs : list LogRecord) (hs : list Z) :
  hours_of utc_offset logs = Some hs -> List.length hs = List.length logs.
Proof.
  revert hs. induction logs as [|log logs IH]; intros hs; simpl.
  - intros [= <-]. reflexivity.
  - destruct (hour_of utc_offset log); [|discriminate].
    destruct (hours_of utc_offset logs); [|discriminate].
    intros [= <-]. simpl. f_equal. apply IH. reflexivity.
Qed.

Lemma hours_of_defined (logs : list LogRecord) :
  Forall (fun log => hour_of utc_offset log <> None) logs
  <-> exists hs, hours_of utc_offset logs = Some hs.
Proof.
  induction logs as [|log logs IH]; simpl.
  - split; [eexists; reflexivity | constructor].
  - split.
    + intros Hall. inversion Hall as [|? ? Hh Hrest]; subst.
      apply IH in Hrest. destruct Hrest as [hs ->].
      destruct (hour_of utc_offset log); [eexists; reflexivity | congruence].
    + intros [hs Hhs].
      destruct (hour_of utc_offset log) eqn:Hh; [|discriminate].
      destruct (hours_of utc_offset logs) eqn:Hrest; [|discriminate].
      constructor; [congruence|]. apply IH. eexists; reflexivity.
Qed.

(** The aggregator returns exactly when every timestamp is one
    [fromtimestamp] accepts. *)
Lemma analyze_defined (logs : list LogRecord) :
  Forall (fun log => hour_of utc_offset log <> None) logs
  <-> exists a, analyze_threat_patterns utc_offset logs = Some a.
Proof.
  unfold analyze_threat_patterns. rewrite analyze_loop_split, hours_of_defined.
  split.
  - intros [hs ->]. eexists; reflexivity.
  - intros [a Ha]. destruct (hours_of utc_offset logs); [eexists; reflexivity | discriminate].
Qed.

Lemma tally_hours_get (logs : list LogRecord) (hs : list Z) (d : Counter.t Z) (k : Z) :
  hours_of utc_offset logs = Some hs ->
  Counter.get k (tally_hours hs d) = Counter.get k d + count (hour_is utc_offset k) logs.
Proof.
  revert hs d. induction logs as [|log logs IH]; intros hs d; simpl.
  - intros [= <-]. simpl. lia.
  - unfold hour_is at 1.
    destruct (hour_of utc_offset log) as [h|]; [|discriminate].
    destruct (hours_of utc_offset logs) as [hs'|]; [|discriminate].
    intros [= <-]. simpl. rewrite (IH hs' _ eq_refl), get_incr. simpl.
    rewrite (Z.eqb_sym h k). lia.
Qed.

Lemma tally_hours_total (hs : list Z) (d : Counter.t Z) :
  Counter.total (tally_hours hs d) = Counter.total d + Z.of_nat (List.length hs).
Proof.
  revert d. induction hs as [|h hs IH]; intros d; simpl tally_hours.
  - simpl. lia.
  - unfold tally_hours in *. simpl fold_left. rewrite IH, total_incr.
    simpl List.length. lia.
Qed.

End AggregatorFacts.

(** ** What the action tally computes *)

Lemma block_not_allow (log : LogRecord) : is_block log = true -> is_allow log = false.
Proof.
  unfold is_block, is_allow. intros Hb.
  apply String.eqb_eq in Hb. rewrite Hb. reflexivity.
Qed.

Lemma count_action_block (log : LogRecord) (a : Analysis) :
  is_block log = true -> count_action log a = count_block log a.
Proof. unfold count_action, is_block. intros ->. reflexivity. Qed.

Lemma count_action_allow (log : LogRecord) (a : Analysis) :
  is_block log = false -> is_allow log = true -> count_action log a = count_allow a.
Proof. unfold count_action, is_block, is_allow. intros -> ->. reflexivity. Qed.

Lemma count_action_other (log : LogRecord) (a : Analysis) :
  is_block log = false -> is_allow log = false -> count_action log a = a.
Proof. unfold count_action, is_block, is_allow. intros -> ->. reflexivity. Qed.

Ltac case_action log :=
  let Hb := fresh "Hblock" in
  let Ha := fresh "Hallow" in
  destruct (is_block log) eqn:Hb;
  [ pose proof (block_not_allow log Hb) as Ha;
    rewrite (count_action_block log _ Hb), ?Ha
  | destruct (is_allow log) eqn:Ha;
    [ rewrite (count_action_allow log _ Hb Ha)
    | rewrite (count_action_other log _ Hb Ha) ] ].

Lemma tally_actions_cons (log : LogRecord) (logs : list LogRecord) (a : Analysis) :
  tally_actions (log :: logs) a = tally_actions logs (count_action log a).
Proof. reflexivity. Qed.

Lemma tally_actions_totals (logs : list LogRecord) (a : Analysis) :
  total_requests (tally_actions logs a) = total_requests a
  /\ blocked_requests (tally_actions logs a) = blocked_requests a + count is_block logs
  /\ allowed_requests (tally_actions logs a) = allowed_requests a + count is_allow logs.
Proof.
  revert a. induction logs as [|log logs IH]; intros a.
  - cbn -[Z.add]. repeat split; lia.
  - rewrite !tally_actions_cons. cbn -[Z.add tally_actions].
    destruct (IH (count_action log a)) as (Ht & Hb & Ha).
    rewrite Ht, Hb, Ha. clear IH Ht Hb Ha.
    case_action log; cbn -[Z.add]; repeat split; lia.
Qed.

Lemma tally_actions_tables (logs : list LogRecord) (a : Analysis) (k : string) :
  Counter.get k (blocked_by_rule (tally_actions logs a))
    = Counter.get k (blocked_by_rule a) + count (blocked_with rule_id_of k) logs
  /\ Counter.get k (blocked_by_country (tally_actions logs a))
    = Counter.get k (blocked_by_country a) + count (blocked_with country_of k) logs
  /\ Counter.get k (blocked_by_ip (tally_actions logs a))
    = Counter.get k (blocked_by_ip a) + count (blocked_with client_ip_of k) logs
  /\ Counter.get k (top_blocked_uris (tally_actions logs a))
    = Counter.get k (top_blocked_uris a) + count (blocked_with uri_of k) logs
  /\ Counter.get k (attack_methods (tally_actions logs a))
    = Counter.get k (attack_methods a) + count (blocked_with attack_of k) logs.
Proof.
  revert a. induction logs as [|log logs IH]; intros a.
  - cbn -[Z.add]. repeat split; lia.
  - rewrite !tally_actions_cons. cbn -[Z.add tally_actions].
    destruct (IH (count_action log a)) as (H1 & H2 & H3 & H4 & H5).
    rewrite H1, H2, H3, H4, H5. clear IH H1 H2 H3 H4 H5.
    unfold blocked_with, attack_of.
    case_action log; cbn -[Z.add]; rewrite ?get_incr; cbn -[Z.add];
      repeat split; lia.
Qed.

(** Records that are neither blocked nor allowed leave the action tally as it
    is, wherever they stand in the sequence. *)
Lemma tally_actions_skip (l1 l2 : list LogRecord) (log : LogRecord) (a : Analysis) :
  is_block log = false -> is_allow log = false ->
  tally_actions (l1 ++ log :: l2) a = tally_actions (l1 ++ l2) a.
Proof.
  intros Hb Ha. unfold tally_actions.
  rewrite !fold_left_app. simpl. rewrite (count_action_other log _ Hb Ha).
  reflexivity.
Qed.

(** ** Invariants of the analysis result *)

(** C2. In every result the aggregator produces, blocked plus allowed
    requests do not exceed the total; and a record whose action is neither
    BLOCK nor ALLOW, wherever it stands, only adds one to the total and one
    to its hour: without it the aggregator returns a result with the same
    blocked and allowed counts and the same five tables. *)
Theorem blocked_allowed_le_total :
  forall (utc_offset : Z -> Z) (logs : list LogRecord) (a : Analysis),
    analyze_threat_patterns utc_offset logs = Some a ->
    blocked_requests a + allowed_requests a <= total_requests a
    /\ forall (l1 l2 : list LogRecord) (log : LogRecord),
         logs = (l1 ++ log :: l2)%list ->
         get_default (action log) "" <> "BLOCK" ->
         get_default (action log) "" <> "ALLOW" ->
         exists (a0 : Analysis) (hour : Z),
           analyze_threat_patterns utc_offset (l1 ++ l2) = Some a0
           /\ hour_of utc_offset log = Some hour
           /\ same_action_tally a a0
           /\ total_requests a = total_requests a0 + 1
           /\ forall k : Z,
                Counter.get k (hourly_distribution a)
                = Counter.get k (hourly_distribution a0)
                  + (if k =? hour then 1 else 0).
Proof.
  intros utc_offset logs a Hrun. split.
  - unfold analyze_threat_patterns in Hrun. rewrite analyze_loop_split in Hrun.
    destruct (hours_of utc_offset logs) as [hs|]; [|discriminate].
    injection Hrun as <-. cbn [blocked_requests allowed_requests total_requests set_hourly].
    destruct (tally_actions_totals logs (initial_analysis logs)) as (-> & -> & ->).
    cbn [blocked_requests allowed_requests total_requests initial_analysis].
    assert (Hle : count is_block logs + count is_allow logs
                  <= Z.of_nat (List.length logs)).
    { clear. induction logs as [|log logs IH]; cbn -[Z.add Z.of_nat]; [lia|].
      rewrite Nat2Z.inj_succ.
      destruct (is_block log) eqn:Hb.
      - rewrite (block_not_allow log Hb). lia.
      - destruct (is_allow log); lia. }
    lia.
  - intros l1 l2 log -> Hnb Hna.
    assert (Hb : is_block log = false) by (apply String.eqb_neq; exact Hnb).
    assert (Hal : is_allow log = false) by (apply String.eqb_neq; exact Hna).
    assert (Hdef : Forall (fun r => hour_of utc_offset r <> None) (l1 ++ log :: l2)).
    { apply analyze_defined. eexists; exact Hrun. }
    apply Forall_app in Hdef. destruct Hdef as [Hd1 Hd2].
    inversion Hd2 as [|? ? Hdlog Hd2']; subst.
    destruct (hour_of utc_offset log) as [hour|] eqn:Hhour; [|congruence].
    assert (Hdef0 : Forall (fun r => hour_of utc_offset r <> None) (l1 ++ l2)).
    { apply Forall_app. split; assumption. }
    apply analyze_defined in Hdef0. destruct Hdef0 as [a0 Hrun0].
    exists a0, hour. split; [exact Hrun0|]. split; [reflexivity|].
    unfold analyze_threat_patterns in Hrun, Hrun0.
    rewrite analyze_loop_split in Hrun, Hrun0.
    destruct (hours_of utc_offset (l1 ++ log :: l2)) as [hs|] eqn:Hhs; [|discriminate].
    destruct (hours_of utc_offset (l1 ++ l2)) as [hs0|] eqn:Hhs0; [|discriminate].
    injection Hrun as <-. injection Hrun0 as <-.
    rewrite (tally_actions_skip l1 l2 log _ Hb Hal).
    rewrite (initial_analysis_total (l1 ++ log :: l2)), (initial_analysis_total (l1 ++ l2)).
    rewrite !tally_actions_set_total.
    split; [repeat split|].
    split.
    + cbn [total_requests set_hourly set_total]. rewrite !length_app. simpl List.length. lia.
    + intros k. cbn [hourly_distribution set_hourly set_total].
      rewrite (tally_hours_get utc_offset _ _ _ k Hhs), (tally_hours_get utc_offset _ _ _ k Hhs0).
      rewrite !count_app. cbn -[Z.add]. unfold hour_is at 2. rewrite Hhour.
      rewrite (Z.eqb_sym hour k). lia.
Qed.

Lemma fromtimestamp_hour_range (utc_offset : Z -> Z) (millis hour : Z) :
  PyDate.fromtimestamp_hour utc_offset millis = Some hour -> 0 <= hour < 24.
Proof.
  unfold PyDate.fromtimestamp_hour. cbv zeta.
  destruct (PyDate.local utc_offset (millis / 1000)) as [result|]; [|discriminate].
  assert (Hhour : 0 <= (result mod 86400) / 3600 < 24).
  { pose proof (Z.mod_pos_bound result 86400 ltac:(lia)) as Hm.
    split; [apply Z.div_pos; lia | apply Z.div_lt_upper_bound; lia]. }
  destruct (PyDate.local utc_offset _) as [probe|]; [|discriminate].
  destruct (_ <? 0).
  - destruct (PyDate.local utc_offset _); [|discriminate].
    intros [= <-]. exact Hhour.
  - intros [= <-]. exact Hhour.
Qed.

(** C10. Every record the loop gets through, one without a timestamp
    included (its hour is that of epoch 0), adds one to exactly one bucket of
    the hourly distribution, a bucket between 0 and 23; so in every result
    the aggregator produces the hourly counts sum to the total. *)
Theorem hourly_sum_is_total :
  forall (utc_offset : Z -> Z) (logs : list LogRecord) (a : Analysis),
    analyze_threat_patterns utc_offset logs = Some a ->
    Counter.total (hourly_distribution a) = total_requests a
    /\ forall (log : LogRecord) (b b' : Analysis),
         analyze_one utc_offset log b = Some b' ->
         exists hour : Z,
           0 <= hour < 24
           /\ hourly_distribution b' = Counter.incr hour (hourly_distribution b)
           /\ (forall k : Z,
                 Counter.get k (hourly_distribution b')
                 = Counter.get k (hourly_distribution b) + (if k =? hour then 1 else 0))
           /\ (timestamp log = None ->
               PyDate.fromtimestamp_hour utc_offset 0 = Some hour).
Proof.
  intros utc_offset logs a Hrun. split.
  - unfold analyze_threat_patterns in Hrun. rewrite analyze_loop_split in Hrun.
    destruct (hours_of utc_offset logs) as [hs|] eqn:Hhs; [|discriminate].
    injection Hrun as <-.
    cbn [hourly_distribution total_requests set_hourly].
    rewrite tally_hours_total, (hours_of_length utc_offset logs hs Hhs).
    destruct (tally_actions_totals logs (initial_analysis logs)) as (-> & _).
    reflexivity.
  - intros log b b'. unfold analyze_one.
    destruct (hour_of utc_offset log) as [hour|] eqn:Hhour; [|discriminate].
    intros [= <-]. exists hour.
    split; [exact (fromtimestamp_hour_range _ _ _ Hhour)|].
    cbn [hourly_distribution count_hour]. rewrite count_action_hourly.
    split; [reflexivity|]. split.
    + intros k. rewrite get_incr. reflexivity.
    + intros Hts. unfold hour_of in Hhour. rewrite Hts in Hhour. exact Hhour.
Qed.

(** ** Order independence *)

(** C7. When the aggregator returns a result for a record sequence, it
    returns one for every permutation of it, with the same three totals and
    the same count under every key of the rule, country, IP, URI,
    attack-category and hourly tables. *)
Theorem permutation_same_counters :
  forall (utc_offset : Z -> Z) (logs logs' : list LogRecord) (a : Analysis),
    Permutation logs logs' ->
    analyze_threat_patterns utc_offset logs = Some a ->
    exists a' : Analysis,
      analyze_threat_patterns utc_offset logs' = Some a'
      /\ total_requests a' = total_requests a
      /\ blocked_requests a' = blocked_requests a
      /\ allowed_requests a' = allowed_requests a
      /\ (forall k : string,
            Counter.get k (blocked_by_rule a') = Counter.get k (blocked_by_rule a)
            /\ Counter.get k (blocked_by_country a') = Counter.get k (blocked_by_country a)
            /\ Counter.get k (blocked_by_ip a') = Counter.get k (blocked_by_ip a)
            /\ Counter.get k (top_blocked_uris a') = Counter.get k (top_blocked_uris a)
            /\ Counter.get k (attack_methods a') = Counter.get k (attack_methods a))
      /\ (forall h : Z,
            Counter.get h (hourly_distribution a') = Counter.get h (hourly_distribution a)).
Proof.
  intros utc_offset logs logs' a Hperm Hrun.
  assert (Hdef' : exists a', analyze_threat_patterns utc_offset logs' = Some a').
  { apply analyze_defined. apply (Permutation_Forall Hperm).
    apply analyze_defined. eexists; exact Hrun. }
  destruct Hdef' as [a' Hrun']. exists a'. split; [exact Hrun'|].
  unfold analyze_threat_patterns in Hrun, Hrun'.
  rewrite analyze_loop_split in Hrun, Hrun'.
  destruct (hours_of utc_offset logs) as [hs|] eqn:Hhs; [|discriminate].
  destruct (hours_of utc_offset logs') as [hs'|] eqn:Hhs'; [|discriminate].
  injection Hrun as <-. injection Hrun' as <-.
  destruct (tally_actions_totals logs (initial_analysis logs)) as (Ht & Hb & Ha).
  destruct (tally_actions_totals logs' (initial_analysis logs')) as (Ht' & Hb' & Ha').
  cbn [total_requests blocked_requests allowed_requests blocked_by_rule
       blocked_by_country blocked_by_ip top_blocked_uris attack_methods
       hourly_distribution set_hourly].
  rewrite Ht, Hb, Ha, Ht', Hb', Ha'.
  cbn [total_requests blocked_requests allowed_requests initial_analysis].
  rewrite (Permutation_length Hperm), !(count_Permutation _ _ _ Hperm).
  repeat (split; [reflexivity|]). split.
  - intros k.
    destruct (tally_actions_tables logs (initial_analysis logs) k)
      as (H1 & H2 & H3 & H4 & H5).
    destruct (tally_actions_tables logs' (initial_analysis logs') k)
      as (H1' & H2' & H3' & H4' & H5').
    rewrite H1, H2, H3, H4, H5, H1', H2', H3', H4', H5'.
    rewrite !(count_Permutation _ _ _ Hperm). repeat split; reflexivity.
  - intros h.
    rewrite (tally_hours_get utc_offset _ _ _ h Hhs),
            (tally_hours_get utc_offset _ _ _ h Hhs').
    rewrite (count_Permutation _ _ _ Hperm). reflexivity.
Qed.

(** ** Defaults of missing fields *)

(** C6. A blocked record the loop gets through, when it has no
    [httpRequest] at all, adds one to the key "Unknown" of the country,
    client-IP and URI tables; and each of the three does so as well when
    [httpRequest] is there but lacks that field. *)
Theorem blocked_without_request_counts_unknown :
  forall (utc_offset : Z -> Z) (log : LogRecord) (a a' : Analysis),
    action log = Some "BLOCK" ->
    analyze_one utc_offset log a = Some a' ->
    (httpRequest log = None ->
       blocked_by_country a' = Counter.incr "Unknown" (blocked_by_country a)
       /\ blocked_by_ip a' = Counter.incr "Unknown" (blocked_by_ip a)
       /\ top_blocked_uris a' = Counter.incr "Unknown" (top_blocked_uris a)
       /\ Counter.get "Unknown" (blocked_by_country a')
          = Counter.get "Unknown" (blocked_by_country a) + 1
       /\ Counter.get "Unknown" (blocked_by_ip a')
          = Counter.get "Unknown" (blocked_by_ip a) + 1
       /\ Counter.get "Unknown" (top_blocked_uris a')
          = Counter.get "Unknown" (top_blocked_uris a) + 1)
    /\ (forall req : HttpRequest,
          httpRequest log = Some req ->
          (country req = None ->
             blocked_by_country a' = Counter.incr "Unknown" (blocked_by_country a))
          /\ (clientIP req = None ->
                blocked_by_ip a' = Counter.incr "Unknown" (blocked_by_ip a))
          /\ (uri req = None ->
                top_blocked_uris a' = Counter.incr "Unknown" (top_blocked_uris a))).
Proof.
  intros utc_offset log a a' Hact. unfold analyze_one.
  destruct (hour_of utc_offset log) as [hour|]; [|discriminate].
  intros [= <-]. unfold count_action. rewrite Hact.
  cbn [get_default String.eqb Ascii.eqb Bool.eqb].
  cbn [count_hour count_block blocked_by_country blocked_by_ip top_blocked_uris].
  unfold country_of, client_ip_of, uri_of, request_of.
  split.
  - intros ->. cbn [get_default no_request country clientIP uri].
    rewrite !get_incr. repeat split; reflexivity.
  - intros req ->. cbn [get_default].
    repeat split; intros ->; reflexivity.
Qed.

(** ** Attack categories *)

Lemma prefix_app (n h : string) :
  prefix n h = true <-> exists post, h = n ++ post.
Proof.
  revert h. induction n as [|c n IH]; intros h.
  - simpl. destruct h; split; eauto.
  - destruct h as [|d h]; simpl.
    + split; [discriminate | intros [post Heq]; discriminate].
    + destruct (ascii_dec c d) as [->|Hne].
      * rewrite IH. split; intros [post Heq]; exists post; congruence.
      * split; [discriminate | intros [post Heq]; congruence].
Qed.

(** [PyStr.contains] decides the substring relation. *)
Lemma contains_spec (n h : string) :
  PyStr.contains n h = true <-> exists pre post, h = pre ++ n ++ post.
Proof.
  induction h as [|d h IH].
  - cbn [PyStr.contains]. rewrite orb_false_r, prefix_app. split.
    + intros [post Heq]. exists "", post. exact Heq.
    + intros [pre [post Heq]]. destruct pre; [exists post; exact Heq | discriminate].
  - cbn [PyStr.contains]. rewrite orb_true_iff, prefix_app, IH. split.
    + intros [[post Heq] | [pre [post Heq]]].
      * exists "", post. exact Heq.
      * exists (String d pre), post. simpl. congruence.
    + intros [pre [post Heq]]. destruct pre as [|c pre].
      * left. exists post. exact Heq.
      * right. exists pre, post. simpl in Heq. congruence.
Qed.

Lemma lower_char_idem (c : ascii) : PyStr.lower_char (PyStr.lower_char c) = PyStr.lower_char c.
Proof. destruct c as [[] [] [] [] [] [] [] []]; reflexivity. Qed.

Lemma lower_idem (s : string) : PyStr.lower (PyStr.lower s) = PyStr.lower s.
Proof.
  induction s as [|c s IH]; simpl; [reflexivity|].
  rewrite lower_char_idem, IH. reflexivity.
Qed.

Lemma classify_lower (rule_id : string) :
  classify (PyStr.lower rule_id) = classify rule_id.
Proof. unfold classify. rewrite lower_idem. reflexivity. Qed.

Lemma lower_char_capital (c k : ascii) :
  capital_of c k -> PyStr.lower_char c = k.
Proof.
  intros [Hr He]. unfold PyStr.lower_char, PyStr.between, PyStr.code.
  replace (N.leb 65 (N_of_ascii c)) with true by (symmetry; apply N.leb_le; lia).
  replace (N.leb (N_of_ascii c) 90) with true by (symmetry; apply N.leb_le; lia).
  cbn [andb orb]. rewrite <- He. apply ascii_N_embedding.
Qed.

Lemma lower_char_small (k : ascii) :
  small_letter k -> PyStr.lower_char k = k.
Proof.
  intros Hk. unfold small_letter in Hk.
  unfold PyStr.lower_char, PyStr.between, PyStr.code.
  replace (N.leb (N_of_ascii k) 90) with false by (symmetry; apply N.leb_gt; lia).
  replace (N.leb 192 (N_of_ascii k)) with false by (symmetry; apply N.leb_gt; lia).
  rewrite andb_false_r. reflexivity.
Qed.

Lemma lower_char_inv (c k : ascii) :
  small_letter k -> PyStr.lower_char c = k -> c = k \/ capital_of c k.
Proof.
  intros Hk. unfold small_letter in Hk.
  unfold PyStr.lower_char, PyStr.between, PyStr.code.
  pose proof (N_ascii_bounded c) as Hc.
  destruct (N.leb 65 (N_of_ascii c) && N.leb (N_of_ascii c) 90)%bool eqn:Hcap.
  - cbn [orb]. intros <-. right.
    apply andb_true_iff in Hcap. destruct Hcap as [H1 H2].
    apply N.leb_le in H1, H2. split; [lia|].
    apply N_ascii_embedding. lia.
  - cbn [orb].
    destruct (N.leb 192 (N_of_ascii c) && N.leb (N_of_ascii c) 222
              && negb (N.eqb (N_of_ascii c) 215))%bool eqn:Hlat.
    + intros <-. exfalso.
      apply andb_true_iff in Hlat. destruct Hlat as [Hlat _].
      apply andb_true_iff in Hlat. destruct Hlat as [H1 H2].
      apply N.leb_le in H1, H2.
      rewrite N_ascii_embedding in Hk by lia. lia.
    + intros ->. left. reflexivity.
Qed.

Lemma lower_app (s t : string) :
  PyStr.lower (s ++ t) = PyStr.lower s ++ PyStr.lower t.
Proof.
  induction s as [|c s IH]; simpl; [reflexivity|]. rewrite IH. reflexivity.
Qed.

Lemma lower_app_inv (s x y : string) :
  PyStr.lower s = x ++ y ->
  exists a b, s = a ++ b /\ PyStr.lower a = x /\ PyStr.lower b = y.
Proof.
  revert s. induction x as [|k x IH]; intros s H.
  - exists "", s. repeat split. exact H.
  - destruct s as [|c s]; [discriminate|]. simpl in H.
    injection H as Hc Hs. destruct (IH s Hs) as (a & b & -> & Ha & Hb).
    exists (String c a), b. simpl. rewrite Hc, Ha. repeat split. exact Hb.
Qed.

Lemma spells_lower (word keyword : string) :
  spells word keyword -> PyStr.lower word = keyword.
Proof.
  revert keyword. induction word as [|c w IH]; intros [|k kw]; simpl; try tauto.
  intros (Hk & Hc & Hw). rewrite (IH kw Hw). f_equal.
  destruct Hc as [->|Hc]; [apply lower_char_small; exact Hk | apply lower_char_capital; exact Hc].
Qed.

Lemma lower_spells (word keyword : string) :
  small_letters keyword -> PyStr.lower word = keyword -> spells word keyword.
Proof.
  revert keyword. induction word as [|c w IH]; intros [|k kw]; simpl; try discriminate; try tauto.
  intros [Hk Hkw] H. injection H as Hc Hw.
  split; [exact Hk|]. split; [apply lower_char_inv; assumption | apply IH; assumption].
Qed.

(** The keyword test of [classify], [keyword in rule_id.lower()], decides
    whether the keyword occurs in the rule id in whatever letter case. *)
Lemma contains_lower_occurs (keyword text : string) :
  small_letters keyword ->
  PyStr.contains keyword (PyStr.lower text) = true <-> occurs keyword text.
Proof.
  intros Hkw. rewrite contains_spec. split.
  - intros (pre' & post' & H).
    destruct (lower_app_inv _ _ _ H) as (pre & rest & -> & _ & Hrest).
    destruct (lower_app_inv _ _ _ Hrest) as (word & post & -> & Hword & _).
    exists pre, word, post. split; [reflexivity|].
    apply lower_spells; assumption.
  - intros (pre & word & post & -> & Hsp).
    exists (PyStr.lower pre), (PyStr.lower post).
    rewrite !lower_app, (spells_lower _ _ Hsp). reflexivity.
Qed.

Lemma contains_lower_not_occurs (keyword text : string) :
  small_letters keyword ->
  ~ occurs keyword text -> PyStr.contains keyword (PyStr.lower text) = false.
Proof.
  intros Hkw Hno. destruct (PyStr.contains keyword (PyStr.lower text)) eqn:H; [|reflexivity].
  exfalso. apply Hno. apply contains_lower_occurs; assumption.
Qed.

Lemma same_ignoring_case_lower (s t : string) :
  same_ignoring_case s t -> PyStr.lower s = PyStr.lower t.
Proof.
  revert t. induction s as [|c s IH]; intros [|d t]; simpl; try tauto.
  intros [Hc Hs]. rewrite (IH t Hs). f_equal.
  destruct Hc as [->|[Hc|Hc]]; [reflexivity| |].
  - rewrite (lower_char_capital c d Hc). symmetry. apply lower_char_small.
    destruct Hc as [Hr He]. unfold small_letter. lia.
  - rewrite (lower_char_capital d c Hc). apply lower_char_small.
    destruct Hc as [Hr He]. unfold small_letter. lia.
Qed.

Lemma keywords_small :
  small_letters "sql" /\ small_letters "sqli" /\ small_letters "xss"
  /\ small_letters "ratelimit" /\ small_letters "geo".
Proof. unfold small_letters, small_letter. cbn. repeat split; lia. Qed.

(** C8. The category of a blocked record is [classify] of its rule id
    (of "Unknown" when the id is missing).  [classify] looks for keywords
    that occur in the id as substrings, in whatever letter case, the first
    hit deciding: "sql" or "sqli" gives SQL Injection; failing that "xss"
    gives Cross-Site Scripting; failing that "ratelimit" gives Rate
    Limiting; failing that "geo" gives Geographic Block; otherwise Other.
    An id holding both "sql" and "xss" is SQL Injection, and ids that differ
    only in the case of their letters get the same category. *)
Theorem classify_first_match_wins :
  forall rule_id : string,
    let has (keyword : string) := occurs keyword rule_id in
    (has "sql" \/ has "sqli" -> classify rule_id = "SQL Injection")
    /\ (~ has "sql" -> ~ has "sqli" -> has "xss" ->
          classify rule_id = "Cross-Site Scripting")
    /\ (~ has "sql" -> ~ has "sqli" -> ~ has "xss" -> has "ratelimit" ->
          classify rule_id = "Rate Limiting")
    /\ (~ has "sql" -> ~ has "sqli" -> ~ has "xss" -> ~ has "ratelimit" ->
        has "geo" ->
          classify rule_id = "Geographic Block")
    /\ (~ has "sql" -> ~ has "sqli" -> ~ has "xss" -> ~ has "ratelimit" ->
        ~ has "geo" ->
          classify rule_id = "Other")
    /\ (has "sql" -> has "xss" -> classify rule_id = "SQL Injection")
    /\ (forall rule_id' : string,
          same_ignoring_case rule_id' rule_id ->
          classify rule_id' = classify rule_id)
    /\ (forall (log : LogRecord) (a : Analysis),
          action log = Some "BLOCK" ->
          get_default (terminatingRuleId log) "Unknown" = rule_id ->
          attack_methods (count_action log a)
          = Counter.incr (classify rule_id) (attack_methods a)).
Proof.
  intros rule_id has. unfold has.
  destruct keywords_small as (Ksql & Ksqli & Kxss & Krate & Kgeo).
  assert (Hyes : forall kw, small_letters kw -> occurs kw rule_id ->
                   PyStr.contains kw (PyStr.lower rule_id) = true).
  { intros kw Hkw H. apply contains_lower_occurs; assumption. }
  assert (Hno : forall kw, small_letters kw -> ~ occurs kw rule_id ->
                   PyStr.contains kw (PyStr.lower rule_id) = false).
  { intros kw Hkw H. apply contains_lower_not_occurs; assumption. }
  split; [|split; [|split; [|split; [|split; [|split; [|split]]]]]].
  - unfold classify. intros [H|H].
    + rewrite (Hyes _ Ksql H). reflexivity.
    + rewrite (Hyes _ Ksqli H), orb_true_r. reflexivity.
  - unfold classify. intros H1 H2 H3.
    rewrite (Hno _ Ksql H1), (Hno _ Ksqli H2), (Hyes _ Kxss H3). reflexivity.
  - unfold classify. intros H1 H2 H3 H4.
    rewrite (Hno _ Ksql H1), (Hno _ Ksqli H2), (Hno _ Kxss H3), (Hyes _ Krate H4).
    reflexivity.
  - unfold classify. intros H1 H2 H3 H4 H5.
    rewrite (Hno _ Ksql H1), (Hno _ Ksqli H2), (Hno _ Kxss H3), (Hno _ Krate H4),
            (Hyes _ Kgeo H5).
    reflexivity.
  - unfold classify. intros H1 H2 H3 H4 H5.
    rewrite (Hno _ Ksql H1), (Hno _ Ksqli H2), (Hno _ Kxss H3), (Hno _ Krate H4),
            (Hno _ Kgeo H5).
    reflexivity.
  - unfold classify. intros H _. rewrite (Hyes _ Ksql H). reflexivity.
  - unfold classify. intros rule_id' Hsame.
    rewrite (same_ignoring_case_lower _ _ Hsame). reflexivity.
  - intros log a Hact Hrule. unfold count_action. rewrite Hact.
    cbn [get_default String.eqb Ascii.eqb Bool.eqb].
    cbn [count_block attack_methods]. unfold rule_id_of. rewrite Hrule.
    reflexivity.
Qed.

(** ** [sorted] sorts *)

Section SortedFacts.
Context {A : Type} (le : A -> A -> bool).
Hypothesis le_total : forall a b, le a b = true \/ le b a = true.

Let leP (a b : A) : Prop := le a b = true.

Lemma insert_sorted_Permutation (x : A) (l : list A) :
  Permutation (x :: l) (insert_sorted le x l).
Proof.
  induction l as [|y l IH]; simpl; [reflexivity|].
  destruct (le x y); [reflexivity|].
  rewrite perm_swap. constructor. exact IH.
Qed.

Lemma py_sorted_Permutation (l : list A) : Permutation l (py_sorted le l).
Proof.
  induction l as [|x l IH]; simpl; [constructor|].
  rewrite <- insert_sorted_Permutation. constructor. exact IH.
Qed.

Lemma insert_sorted_HdRel (a x : A) (l : list A) :
  leP a x -> HdRel leP a l -> HdRel leP a (insert_sorted le x l).
Proof.
  intros Hax Hal. destruct l as [|y l]; simpl.
  - constructor. exact Hax.
  - destruct (le x y); constructor; [exact Hax|].
    inversion Hal; assumption.
Qed.

Lemma insert_sorted_Sorted (x : A) (l : list A) :
  Sorted leP l -> Sorted leP (insert_sorted le x l).
Proof.
  induction l as [|y l IH]; simpl; intros Hs.
  - repeat constructor.
  - destruct (le x y) eqn:Hxy.
    + constructor; [exact Hs | constructor; exact Hxy].
    + inversion Hs as [|? ? Hs' Hhd]; subst.
      constructor; [apply IH; exact Hs'|].
      apply insert_sorted_HdRel; [|exact Hhd].
      destruct (le_total x y) as [H|H]; [congruence | exact H].
Qed.

Lemma py_sorted_Sorted (l : list A) : Sorted leP (py_sorted le l).
Proof.
  induction l as [|x l IH]; simpl; [constructor|].
  apply insert_sorted_Sorted. exact IH.
Qed.
End SortedFacts.

(** ** The log locator *)

Section LocatorFacts.
Variable list_objects_v2 : string -> listing.

Lemma collect_days_spec (n : nat) (current : Z) (acc collected : list string) :
  collect_days list_objects_v2 n current acc = Some collected ->
  collected = (acc ++ flat_map (day_keys list_objects_v2) (days_from n current))%list.
Proof.
  revert current acc. induction n as [|n IH]; intros current acc; simpl.
  - intros [= <-]. rewrite app_nil_r. reflexivity.
  - unfold PyDate.next_day. destruct (current + 1 <=? PyDate.MAXORDINAL); [|discriminate].
    intros Hrun. apply IH in Hrun. rewrite Hrun, <- app_assoc. reflexivity.
Qed.

Lemma collect_days_defined (n : nat) (current : Z) (acc : list string) :
  (n <> O -> current + Z.of_nat n <= PyDate.MAXORDINAL) ->
  exists collected, collect_days list_objects_v2 n current acc = Some collected.
Proof.
  revert current acc. induction n as [|n IH]; intros current acc Hle; simpl.
  - eexists; reflexivity.
  - unfold PyDate.next_day.
    destruct (Z.leb_spec (current + 1) PyDate.MAXORDINAL) as [_|Hgt]; [|lia].
    apply IH. lia.
Qed.

Lemma day_keys_gz (day : Z) (key : string) :
  In key (day_keys list_objects_v2 day) -> PyStr.endswith key ".gz" = true.
Proof.
  unfold day_keys. destruct (list_objects_v2 _) as [|[contents|]]; simpl; try tauto.
  intros Hin. apply filter_In in Hin. tauto.
Qed.
End LocatorFacts.

Lemma get_log_files_defined (list_objects_v2 : string -> listing) (start_date end_date : Z) :
  end_date < PyDate.MAXORDINAL ->
  exists log_files, get_log_files list_objects_v2 start_date end_date = Some log_files.
Proof.
  intros Hend. unfold get_log_files.
  destruct (collect_days_defined list_objects_v2
              (Z.to_nat (end_date - start_date + 1)) start_date []) as [collected ->].
  - intros Hdays. lia.
  - eexists; reflexivity.
Qed.

(** *** [_ymd2ord] undoes [_ord2ymd] *)

Lemma all_from_spec (fuel : nat) (i : Z) (p : Z -> bool) :
  all_from fuel i p = true ->
  forall r, i <= r < i + Z.of_nat fuel -> p r = true.
Proof.
  revert i. induction fuel as [|fuel IH]; intros i H r Hr; [lia|].
  cbn [all_from] in H. apply andb_true_iff in H. destruct H as [Hi Hrest].
  destruct (Z.eq_dec r i) as [->|Hne]; [exact Hi|].
  apply (IH (i + 1) Hrest). lia.
Qed.

Lemma month_day_checked (leapyear : bool) :
  all_from 365 0 (month_day_ok leapyear) = true.
Proof. destruct leapyear; vm_compute; reflexivity. Qed.

Lemma month_day_spec (leapyear : bool) (n : Z) :
  0 <= n < 365 ->
  1 <= fst (month_day leapyear n) <= 12
  /\ 1 <= snd (month_day leapyear n) <= 31
  /\ nth (Z.to_nat (fst (month_day leapyear n))) PyDate.DAYS_BEFORE_MONTH 0
     + PyDate.b2z ((2 <? fst (month_day leapyear n)) && leapyear)
     + snd (month_day leapyear n) = n + 1.
Proof.
  intros Hn.
  pose proof (all_from_spec _ _ _ (month_day_checked leapyear) n ltac:(lia)) as H.
  unfold month_day_ok in H. destruct (month_day leapyear n) as [month day].
  cbn [fst snd].
  repeat (apply andb_true_iff in H; destruct H as [H ?]).
  lia.
Qed.

Lemma ord2ymd_cases (ordinal : Z) :
  exists q n100 n4 n1 n : Z,
    ordinal - 1 = 146097 * q + 36524 * n100 + 1461 * n4 + 365 * n1 + n
    /\ 0 <= n100 /\ 0 <= n4 /\ 0 <= n1 /\ 0 <= n < 365
    /\ 36524 * n100 + 1461 * n4 + 365 * n1 + n < 146097
    /\ 1461 * n4 + 365 * n1 + n < 36524
    /\ 365 * n1 + n < 1461
    /\ PyDate.ord2ymd ordinal
       = let year := 400 * q + 1 + 100 * n100 + 4 * n4 + n1 in
         if (n1 =? 4) || (n100 =? 4) then (year - 1, 12, 31)
         else
           let leapyear := (n1 =? 3) && (negb (n4 =? 24) || (n100 =? 3)) in
           (year, fst (month_day leapyear n), snd (month_day leapyear n)).
Proof.
  set (r0 := ordinal - 1).
  set (q := r0 / 146097). set (r := r0 mod 146097).
  set (n100 := r / 36524). set (r1 := r mod 36524).
  set (n4 := r1 / 1461). set (r2 := r1 mod 1461).
  set (n1 := r2 / 365). set (n := r2 mod 365).
  exists q, n100, n4, n1, n.
  assert (Hshape : PyDate.ord2ymd ordinal
       = let year := q * 400 + 1 + n100 * 100 + n4 * 4 + n1 in
         if (n1 =? 4) || (n100 =? 4) then (year - 1, 12, 31)
         else
           let leapyear := (n1 =? 3) && (negb (n4 =? 24) || (n100 =? 3)) in
           (year, fst (month_day leapyear n), snd (month_day leapyear n))).
  { unfold PyDate.ord2ymd, month_day. cbv zeta.
    change PyDate.DI400Y with 146097. change PyDate.DI100Y with 36524.
    change PyDate.DI4Y with 1461.
    fold r0. fold q. fold r. fold n100. fold r1. fold n4. fold r2. fold n1. fold n.
    destruct ((n1 =? 4) || (n100 =? 4)); [reflexivity|].
    destruct (n <? _); reflexivity. }
  rewrite Hshape. cbv zeta.
  replace (q * 400 + 1 + n100 * 100 + n4 * 4 + n1)
    with (400 * q + 1 + 100 * n100 + 4 * n4 + n1) by lia.
  pose proof (Z.div_mod r0 146097 ltac:(lia)) as D0.
  pose proof (Z.mod_pos_bound r0 146097 ltac:(lia)) as B0.
  pose proof (Z.div_mod r 36524 ltac:(lia)) as D1.
  pose proof (Z.mod_pos_bound r 36524 ltac:(lia)) as B1.
  pose proof (Z.div_mod r1 1461 ltac:(lia)) as D2.
  pose proof (Z.mod_pos_bound r1 1461 ltac:(lia)) as B2.
  pose proof (Z.div_mod r2 365 ltac:(lia)) as D3.
  pose proof (Z.mod_pos_bound r2 365 ltac:(lia)) as B3.
  fold q in D0. fold r in D0, B0. fold n100 in D1. fold r1 in D1, B1.
  fold n4 in D2. fold r2 in D2, B2. fold n1 in D3. fold n in D3, B3.
  assert (0 <= n100) by (apply Z.div_pos; lia).
  assert (0 <= n4) by (apply Z.div_pos; lia).
  assert (0 <= n1) by (apply Z.div_pos; lia).
  clearbody q r n100 r1 n4 r2 n1 n.
  split; [lia|]. split; [lia|]. split; [lia|]. split; [lia|]. split; [lia|].
  split; [lia|]. split; [lia|]. split; [lia|]. reflexivity.
Qed.

Lemma is_leap_year (q n100 n4 n1 : Z) :
  0 <= n100 <= 3 -> 0 <= n4 <= 24 -> 0 <= n1 <= 3 ->
  PyDate.is_leap (400 * q + 1 + 100 * n100 + 4 * n4 + n1)
  = (n1 =? 3) && (negb (n4 =? 24) || (n100 =? 3)).
Proof.
  intros H100 H4 H1. unfold PyDate.is_leap.
  set (year := 400 * q + 1 + 100 * n100 + 4 * n4 + n1).
  assert (M4 : year mod 4 = (n1 + 1) mod 4).
  { replace year with (n1 + 1 + (100 * q + 25 * n100 + n4) * 4) by (unfold year; lia).
    apply Z_mod_plus_full. }
  assert (M100 : year mod 100 = (4 * n4 + n1 + 1) mod 100).
  { replace year with (4 * n4 + n1 + 1 + (4 * q + n100) * 100) by (unfold year; lia).
    apply Z_mod_plus_full. }
  assert (M400 : year mod 400 = (100 * n100 + 4 * n4 + n1 + 1) mod 400).
  { replace year with (100 * n100 + 4 * n4 + n1 + 1 + q * 400) by (unfold year; lia).
    apply Z_mod_plus_full. }
  rewrite M4, M100, M400. clearbody year. clear M4 M100 M400 year q.
  destruct (Z.eqb_spec n1 3) as [->|E1].
  - change ((3 + 1) mod 4 =? 0) with true. cbn [andb].
    destruct (Z.eqb_spec n4 24) as [->|E4].
    + change ((4 * 24 + 3 + 1) mod 100 =? 0) with true. cbn [negb orb].
      destruct (Z.eqb_spec n100 3) as [->|E100]; [reflexivity|].
      apply Z.eqb_neq. rewrite Z.mod_small by lia. lia.
    + cbn [negb orb].
      replace ((4 * n4 + 3 + 1) mod 100 =? 0) with false; [reflexivity|].
      symmetry. apply Z.eqb_neq. rewrite Z.mod_small by lia. lia.
  - cbn [andb]. replace ((n1 + 1) mod 4 =? 0) with false; [reflexivity|].
    symmetry. apply Z.eqb_neq. rewrite Z.mod_small by lia. lia.
Qed.

Lemma days_before_year_spec (q n100 n4 n1 : Z) :
  0 <= n100 <= 3 -> 0 <= n4 <= 24 -> 0 <= n1 <= 3 ->
  PyDate.days_before_year (400 * q + 1 + 100 * n100 + 4 * n4 + n1)
  = 146097 * q + 36524 * n100 + 1461 * n4 + 365 * n1.
Proof.
  intros H100 H4 H1. unfold PyDate.days_before_year. cbv zeta.
  replace (400 * q + 1 + 100 * n100 + 4 * n4 + n1 - 1)
    with (400 * q + 100 * n100 + 4 * n4 + n1) by lia.
  set (y := 400 * q + 100 * n100 + 4 * n4 + n1).
  assert (D4 : y / 4 = 100 * q + 25 * n100 + n4).
  { symmetry. apply (Z.div_unique y 4 _ n1); unfold y; lia. }
  assert (D100 : y / 100 = 4 * q + n100).
  { symmetry. apply (Z.div_unique y 100 _ (4 * n4 + n1)); unfold y; lia. }
  assert (D400 : y / 400 = q).
  { symmetry. apply (Z.div_unique y 400 _ (100 * n100 + 4 * n4 + n1)); unfold y; lia. }
  rewrite D4, D100, D400. unfold y. lia.
Qed.

(** [_ymd2ord] undoes [_ord2ymd]; months and days are in range. *)
Lemma ymd2ord_ord2ymd (ordinal : Z) :
  let '(year, month, day) := PyDate.ord2ymd ordinal in
  1 <= month <= 12 /\ 1 <= day <= 31 /\ PyDate.ymd2ord (year, month, day) = ordinal.
Proof.
  destruct (ord2ymd_cases ordinal)
    as (q & n100 & n4 & n1 & n & Hord & H100 & H4 & H1 & Hn & Hr & Hr1 & Hr2 & ->).
  cbv zeta.
  destruct (Z.eqb_spec n1 4) as [E1|E1]; cbn [orb].
  - split; [lia|]. split; [lia|].
    assert (B100 : 0 <= n100 <= 3) by lia.
    assert (B4 : 0 <= n4 <= 23) by lia.
    replace (400 * q + 1 + 100 * n100 + 4 * n4 + n1 - 1)
      with (400 * q + 1 + 100 * n100 + 4 * n4 + 3) by lia.
    unfold PyDate.ymd2ord, PyDate.days_before_month.
    rewrite days_before_year_spec, is_leap_year by lia.
    replace (n4 =? 24) with false by (symmetry; apply Z.eqb_neq; lia).
    change (nth (Z.to_nat 12) PyDate.DAYS_BEFORE_MONTH 0) with 334.
    change (2 <? 12) with true. change (3 =? 3) with true.
    cbn [andb negb orb PyDate.b2z]. lia.
  - destruct (Z.eqb_spec n100 4) as [E100|E100].
    + split; [lia|]. split; [lia|].
      assert (n4 = 0 /\ n1 = 0 /\ n = 0) as (-> & -> & ->) by lia. subst n100.
      replace (400 * q + 1 + 100 * 4 + 4 * 0 + 0 - 1)
        with (400 * q + 1 + 100 * 3 + 4 * 24 + 3) by lia.
      unfold PyDate.ymd2ord, PyDate.days_before_month.
      rewrite days_before_year_spec, is_leap_year by lia.
      change (nth (Z.to_nat 12) PyDate.DAYS_BEFORE_MONTH 0) with 334.
      change (2 <? 12) with true. change (3 =? 3) with true.
      change (24 =? 24) with true.
      cbn [andb negb orb PyDate.b2z]. lia.
    + assert (B100 : 0 <= n100 <= 3) by lia.
      assert (B4 : 0 <= n4 <= 24) by lia.
      assert (B1 : 0 <= n1 <= 3) by lia.
      set (leapyear := (n1 =? 3) && (negb (n4 =? 24) || (n100 =? 3))).
      destruct (month_day_spec leapyear n Hn) as (Hm & Hd & Hsum).
      split; [exact Hm|]. split; [exact Hd|].
      unfold PyDate.ymd2ord, PyDate.days_before_month.
      rewrite days_before_year_spec, is_leap_year by lia.
      fold leapyear. lia.
Qed.

Lemma ord2ymd_inj (a b : Z) : PyDate.ord2ymd a = PyDate.ord2ymd b -> a = b.
Proof.
  intros H. pose proof (ymd2ord_ord2ymd a) as Ha. pose proof (ymd2ord_ord2ymd b) as Hb.
  rewrite H in Ha. destruct (PyDate.ord2ymd b) as [[y m] d].
  destruct Ha as (_ & _ & <-). destruct Hb as (_ & _ & <-). reflexivity.
Qed.

(** *** Keys under a day prefix *)

Lemma append_assoc (a b c : string) : (a ++ b) ++ c = a ++ (b ++ c).
Proof. induction a as [|x a IH]; simpl; [reflexivity|]. rewrite IH. reflexivity. Qed.

Lemma append_inv_head (p a b : string) : p ++ a = p ++ b -> a = b.
Proof. induction p as [|x p IH]; simpl; [tauto|]. intros [= H]. exact (IH H). Qed.

Lemma until_slash_app (a r : string) :
  no_slash a = true -> until_slash (a ++ String "/" r) = (a, r).
Proof.
  induction a as [|c a IH]; simpl; [reflexivity|].
  intros H. apply andb_true_iff in H. destruct H as [Hc Ha].
  destruct (Ascii.eqb c "/"); [discriminate|].
  rewrite (IH Ha). reflexivity.
Qed.

Lemma string_of_uint_no_slash (d : Decimal.uint) :
  no_slash (NilEmpty.string_of_uint d) = true.
Proof. induction d; simpl; first [reflexivity | assumption]. Qed.

Lemma str_int_no_slash (n : Z) : no_slash (PyNum.str_int n) = true.
Proof.
  unfold PyNum.str_int, NilZero.string_of_int, NilZero.string_of_uint.
  destruct (Z.to_int n) as [d|d]; destruct d;
    first [reflexivity | apply (string_of_uint_no_slash (_ _))
           | cbn [no_slash]; apply (string_of_uint_no_slash (_ _))].
Qed.

Lemma fmt_02d_no_slash (n : Z) : no_slash (PyNum.fmt_02d n) = true.
Proof.
  unfold PyNum.fmt_02d. destruct (_ && _); [simpl|]; apply str_int_no_slash.
Qed.

Lemma str_int_inj (a b : Z) : PyNum.str_int a = PyNum.str_int b -> a = b.
Proof.
  unfold PyNum.str_int. intros H. apply DecimalZ.to_int_inj.
  assert (Hnorm : forall z, Decimal.norm (Z.to_int z) = Z.to_int z).
  { intros z. rewrite <- DecimalZ.to_of, DecimalZ.of_to. reflexivity. }
  assert (Hgood : forall z, Z.to_int z <> Decimal.Pos Decimal.Nil
                            /\ Z.to_int z <> Decimal.Neg Decimal.Nil).
  { intros z. pose proof (Hnorm z) as Hz.
    split; intros E; rewrite E in Hz; discriminate. }
  destruct (Hgood a) as [Ha1 Ha2]. destruct (Hgood b) as [Hb1 Hb2].
  pose proof (NilZero.isi _ Ha1 Ha2) as Ia. pose proof (NilZero.isi _ Hb1 Hb2) as Ib.
  rewrite H in Ia. congruence.
Qed.

Lemma fmt_02d_value_checked :
  all_from 100 0 (fun n => digits_value 0 (PyNum.fmt_02d n) =? n) = true.
Proof. vm_compute. reflexivity. Qed.

Lemma fmt_02d_inj (a b : Z) :
  0 <= a < 100 -> 0 <= b < 100 -> PyNum.fmt_02d a = PyNum.fmt_02d b -> a = b.
Proof.
  intros Ha Hb H.
  pose proof (all_from_spec _ _ _ fmt_02d_value_checked a ltac:(lia)) as Va.
  pose proof (all_from_spec _ _ _ fmt_02d_value_checked b ltac:(lia)) as Vb.
  cbv beta in Va, Vb. apply Z.eqb_eq in Va, Vb. rewrite H in Va. lia.
Qed.

Lemma key_date_under_prefix (current_date : Z) (key : string) :
  prefix (day_prefix current_date) key = true ->
  key_date key
  = let '(year, month, day) := PyDate.ord2ymd current_date in
    (PyNum.str_int year, PyNum.fmt_02d month, PyNum.fmt_02d day).
Proof.
  rewrite prefix_app. intros [post ->]. unfold day_prefix.
  destruct (PyDate.ord2ymd current_date) as [[year month] day].
  unfold key_date. cbv zeta.
  rewrite !append_assoc. cbn [append drop].
  rewrite until_slash_app by apply str_int_no_slash. cbn [fst snd drop].
  rewrite until_slash_app by apply fmt_02d_no_slash. cbn [fst snd drop].
  rewrite until_slash_app by apply fmt_02d_no_slash. reflexivity.
Qed.

(** A key lies under the prefix of one day at most. *)
Lemma day_prefix_disjoint (day1 day2 : Z) (key : string) :
  prefix (day_prefix day1) key = true ->
  prefix (day_prefix day2) key = true ->
  day1 = day2.
Proof.
  intros H1 H2. apply key_date_under_prefix in H1, H2.
  pose proof (ymd2ord_ord2ymd day1) as R1. pose proof (ymd2ord_ord2ymd day2) as R2.
  apply ord2ymd_inj.
  destruct (PyDate.ord2ymd day1) as [[y1 m1] d1].
  destruct (PyDate.ord2ymd day2) as [[y2 m2] d2].
  rewrite H1 in H2. injection H2 as Hy Hm Hd.
  apply str_int_inj in Hy. apply fmt_02d_inj in Hm; [|lia|lia].
  apply fmt_02d_inj in Hd; [|lia|lia]. subst. reflexivity.
Qed.

Lemma days_from_In (n : nat) (current day : Z) :
  In day (days_from n current) -> current <= day < current + Z.of_nat n.
Proof.
  revert current. induction n as [|n IH]; intros current; simpl; [tauto|].
  intros [<-|Hin]; [lia|]. apply IH in Hin. lia.
Qed.

Section ListingFacts.
Variable list_objects_v2 : string -> listing.
Hypothesis listing_ok : s3_listing list_objects_v2.

Lemma day_keys_under_prefix (day : Z) (key : string) :
  In key (day_keys list_objects_v2 day) -> prefix (day_prefix day) key = true.
Proof.
  unfold day_keys.
  destruct (list_objects_v2 (day_prefix day)) as [|[contents|]] eqn:Hlist;
    simpl; try tauto.
  intros Hin. apply filter_In in Hin. destruct Hin as [Hin _].
  destruct (listing_ok _ _ Hlist) as [_ Hunder].
  rewrite Forall_forall in Hunder. exact (Hunder key Hin).
Qed.

Lemma day_keys_NoDup (day : Z) : NoDup (day_keys list_objects_v2 day).
Proof.
  unfold day_keys.
  destruct (list_objects_v2 (day_prefix day)) as [|[contents|]] eqn:Hlist;
    try constructor.
  apply NoDup_filter. exact (proj1 (listing_ok _ _ Hlist)).
Qed.

(** No key is collected twice: within a day the listing has it once, and
    the keys of two days lie under different prefixes. *)
Lemma collected_NoDup (n : nat) (current : Z) :
  NoDup (flat_map (day_keys list_objects_v2) (days_from n current)).
Proof.
  revert current. induction n as [|n IH]; intros current; simpl; [constructor|].
  apply NoDup_app; [apply day_keys_NoDup | apply IH|].
  intros key Hfirst Hlater. apply in_flat_map in Hlater.
  destruct Hlater as (day & Hday & Hkey).
  apply days_from_In in Hday.
  pose proof (day_prefix_disjoint current day key
                (day_keys_under_prefix _ _ Hfirst)
                (day_keys_under_prefix _ _ Hkey)).
  lia.
Qed.
End ListingFacts.

(** C5. Against a bucket listed as S3 lists one (every key of a listing
    under the prefix asked for, no key twice in a listing), the locator
    returns a key sequence whenever the range ends before 9999-12-31, and
    the sequence it returns is in ascending order and holds no key more than
    once: the prefixes of two days never cover a common key.  It is a
    rearrangement of the ".gz" keys of the listings of the days of the
    range. *)
Theorem get_log_files_sorted :
  forall (list_objects_v2 : string -> listing) (start_date end_date : Z),
    s3_listing list_objects_v2 ->
    (end_date < PyDate.MAXORDINAL ->
     exists log_files,
       get_log_files list_objects_v2 start_date end_date = Some log_files)
    /\ forall log_files : list string,
         get_log_files list_objects_v2 start_date end_date = Some log_files ->
         let collected :=
           flat_map (day_keys list_objects_v2)
             (days_from (Z.to_nat (end_date - start_date + 1)) start_date) in
         Sorted (fun a b => String.leb a b = true) log_files
         /\ NoDup log_files
         /\ Permutation collected log_files
         /\ (forall key, In key log_files -> PyStr.endswith key ".gz" = true).
Proof.
  intros list_objects_v2 start_date end_date Hs3.
  split; [apply get_log_files_defined|].
  intros log_files. unfold get_log_files.
  destruct (collect_days _ _ _ _) as [collected|] eqn:Hrun; [|discriminate].
  intros [= <-]. apply collect_days_spec in Hrun. simpl in Hrun. subst collected.
  cbv zeta.
  pose proof (py_sorted_Permutation String.leb
                (flat_map (day_keys list_objects_v2)
                   (days_from (Z.to_nat (end_date - start_date + 1)) start_date)))
    as Hperm.
  split; [apply py_sorted_Sorted; exact String.leb_total|].
  split; [|split; [exact Hperm|]].
  - apply (Permutation_NoDup Hperm). apply collected_NoDup. exact Hs3.
  - intros key Hin. apply (Permutation_in _ (Permutation_sym Hperm)) in Hin.
    apply in_flat_map in Hin. destruct Hin as [day [_ Hin]].
    exact (day_keys_gz _ _ _ Hin).
Qed.

(** ** The report *)

Lemma method_lines_no_blocked (blocked : Z) (items : list (string * Z)) :
  blocked <= 0 -> exists lines, Report.method_lines blocked items = Some lines.
Proof.
  intros Hle. induction items as [|item items [lines IH]]; simpl.
  - eexists; reflexivity.
  - unfold Report.method_line.
    destruct (Z.ltb_spec 0 blocked) as [Hlt|_]; [lia|].
    rewrite IH. eexists; reflexivity.
Qed.

Lemma report_lines_inv (now : string) (a : Analysis) (lines : list string) :
  Report.report_lines now a = Some lines ->
  exists rate rest,
    Report.block_rate_lines a = Some rate
    /\ lines = (Report.header_lines now ++ Report.count_lines a ++ rate
                ++ "" :: "TOP TRIGGERED RULES" :: rest)%list.
Proof.
  unfold Report.report_lines.
  destruct (Report.block_rate_lines a) as [rate|]; [|discriminate].
  destruct (Report.method_lines _ _) as [methods|]; [|discriminate].
  intros [= <-]. eexists. eexists. split; reflexivity.
Qed.

Lemma report_lines_defined (now : string) (a : Analysis) (rate methods : list string) :
  Report.block_rate_lines a = Some rate ->
  Report.method_lines (blocked_requests a) (sorted_by_count (attack_methods a))
  = Some methods ->
  exists lines, Report.report_lines now a = Some lines.
Proof.
  intros Hrate Hmethods. unfold Report.report_lines.
  rewrite Hrate, Hmethods. eexists; reflexivity.
Qed.

Lemma nth_error_after_counts (now : string) (a : Analysis) (rest : list string) (n : nat) :
  nth_error (Report.header_lines now ++ Report.count_lines a ++ rest) (10 + n)
  = nth_error rest n.
Proof. reflexivity. Qed.

(** C3 (as amended). With [total_requests] 0 the renderer divides nothing
    and writes no block-rate line: the three counts are followed by the empty
    line and the next heading, and with no blocked requests either the whole
    report is produced.  With [total_requests] positive, the line after the
    three counts reads "Block Rate: x%", [x] being [blocked / total * 100]
    computed in binary64 and shown with two decimals. *)
Theorem block_rate_line :
  forall (now : string) (a : Analysis),
    (total_requests a = 0 ->
       Report.block_rate_lines a = Some []
       /\ (blocked_requests a = 0 ->
           exists lines, Report.report_lines now a = Some lines))
    /\ forall lines : list string,
         Report.report_lines now a = Some lines ->
         firstn 10 lines = (Report.header_lines now ++ Report.count_lines a)%list
         /\ (total_requests a <= 0 ->
             nth_error lines 10 = Some ""
             /\ nth_error lines 11 = Some "TOP TRIGGERED RULES")
         /\ (0 < total_requests a ->
             exists q : PyNum.float,
               PyNum.true_div (blocked_requests a) (total_requests a) = Some q
               /\ nth_error lines 10
                  = Some ("Block Rate: "
                          ++ PyNum.fmt_fixed 2 (PyNum.fmul q (PyNum.float_of_int 100))
                          ++ "%")
               /\ nth_error lines 11 = Some "").
Proof.
  intros now a. split.
  - intros Htotal.
    assert (Hrate : Report.block_rate_lines a = Some []).
    { unfold Report.block_rate_lines. rewrite Htotal. reflexivity. }
    split; [exact Hrate|]. intros Hblocked.
    destruct (method_lines_no_blocked (blocked_requests a)
                (sorted_by_count (attack_methods a))) as [methods Hmethods]; [lia|].
    exact (report_lines_defined now a _ _ Hrate Hmethods).
  - intros lines Hlines.
    apply report_lines_inv in Hlines. destruct Hlines as (rate & rest & Hrate & ->).
    split; [reflexivity|].
    unfold Report.block_rate_lines in Hrate. split.
    + intros Hle. destruct (Z.ltb_spec 0 (total_requests a)) as [Hlt|_]; [lia|].
      injection Hrate as <-.
      split; [exact (nth_error_after_counts now a _ 0)
             | exact (nth_error_after_counts now a _ 1)].
    + intros Hlt. destruct (Z.ltb_spec 0 (total_requests a)) as [_|Hle]; [|lia].
      destruct (PyNum.true_div _ _) as [q|]; [|discriminate].
      injection Hrate as <-. exists q. split; [reflexivity|].
      split; [exact (nth_error_after_counts now a _ 0)
             | exact (nth_error_after_counts now a _ 1)].
Qed.

(** C3, counterexample. The result for the empty record sequence has
    [total_requests] 0, and its report carries no block-rate line at all,
    hence no block rate of 0. *)
Lemma empty_report_has_no_block_rate :
  analyze_threat_patterns utc_zone [] = Some (initial_analysis [])
  /\ total_requests (initial_analysis []) = 0
  /\ Report.block_rate_lines (initial_analysis []) = Some []
  /\ Report.report_lines "2024-03-01 12:00:00" (initial_analysis [])
     = Some empty_report
  /\ existsb (prefix "Block Rate") empty_report = false.
Proof. repeat split; vm_compute; reflexivity. Qed.

(** ** The worked example of the specification *)

Lemma is_block_action (log : LogRecord) :
  action log = Some "BLOCK" -> is_block log = true.
Proof. unfold is_block. intros ->. reflexivity. Qed.

Lemma is_allow_action (log : LogRecord) :
  action log = Some "ALLOW" -> is_block log = false /\ is_allow log = true.
Proof. unfold is_block, is_allow. intros ->. split; reflexivity. Qed.

Lemma count_block_attack (log : LogRecord) (a : Analysis) :
  attack_methods (count_block log a)
  = Counter.incr (classify (rule_id_of log)) (attack_methods a).
Proof. reflexivity. Qed.

Lemma count_allow_attack (a : Analysis) :
  attack_methods (count_allow a) = attack_methods a.
Proof. reflexivity. Qed.

(** C1. Three blocked records whose rule ids are
    "AWSManagedRulesSQLiRuleSet", "AWSManagedRulesSQLiRuleSet" and
    "RateLimitRule", followed by two allowed records, every other field being
    arbitrary (with timestamps [fromtimestamp] accepts): the aggregator
    returns a result with 3 blocked, 2 allowed and 5 total requests, whose
    attack methods are SQL Injection 2 and Rate Limiting 1, and the report
    shows the block rate line "Block Rate: 60.00%". *)
Theorem example_three_blocked_two_allowed :
  forall (utc_offset : Z -> Z) (now : string) (b1 b2 b3 a1 a2 : LogRecord),
    action b1 = Some "BLOCK" ->
    terminatingRuleId b1 = Some "AWSManagedRulesSQLiRuleSet" ->
    action b2 = Some "BLOCK" ->
    terminatingRuleId b2 = Some "AWSManagedRulesSQLiRuleSet" ->
    action b3 = Some "BLOCK" ->
    terminatingRuleId b3 = Some "RateLimitRule" ->
    action a1 = Some "ALLOW" ->
    action a2 = Some "ALLOW" ->
    Forall (fun log => hour_of utc_offset log <> None) [b1; b2; b3; a1; a2] ->
    exists (a : Analysis) (lines : list string),
      analyze_threat_patterns utc_offset [b1; b2; b3; a1; a2] = Some a
      /\ blocked_requests a = 3
      /\ allowed_requests a = 2
      /\ total_requests a = 5
      /\ attack_methods a = [("SQL Injection", 2); ("Rate Limiting", 1)]
      /\ Report.block_rate_lines a = Some ["Block Rate: 60.00%"]
      /\ Report.report_lines now a = Some lines
      /\ nth_error lines 10 = Some "Block Rate: 60.00%".
Proof.
  intros utc_offset now b1 b2 b3 a1 a2 Hb1 Hr1 Hb2 Hr2 Hb3 Hr3 Ha1 Ha2 Hall.
  remember [b1; b2; b3; a1; a2] as logs eqn:Hlogs.
  apply analyze_defined in Hall. destruct Hall as [a Hrun].
  pose proof Hrun as Ha.
  unfold analyze_threat_patterns in Ha. rewrite analyze_loop_split in Ha.
  destruct (hours_of utc_offset logs) as [hs|]; [|discriminate].
  injection Ha as Ha.
  apply is_block_action in Hb1, Hb2, Hb3.
  apply is_allow_action in Ha1, Ha2.
  destruct Ha1 as [Hn1 Ha1]. destruct Ha2 as [Hn2 Ha2].
  destruct (tally_actions_totals logs (initial_analysis logs)) as (Ht & Hb & Hal).
  assert (Hblocked : blocked_requests a = 3).
  { rewrite <- Ha. cbn [blocked_requests set_hourly]. rewrite Hb.
    rewrite Hlogs. cbn [count]. rewrite Hb1, Hb2, Hb3, Hn1, Hn2. reflexivity. }
  assert (Hallowed : allowed_requests a = 2).
  { rewrite <- Ha. cbn [allowed_requests set_hourly]. rewrite Hal.
    rewrite Hlogs. cbn [count].
    rewrite (block_not_allow b1 Hb1), (block_not_allow b2 Hb2),
            (block_not_allow b3 Hb3), Ha1, Ha2. reflexivity. }
  assert (Htotal : total_requests a = 5).
  { rewrite <- Ha. cbn [total_requests set_hourly]. rewrite Ht, Hlogs. reflexivity. }
  assert (Hattack : attack_methods a = [("SQL Injection", 2); ("Rate Limiting", 1)]).
  { rewrite <- Ha. cbn [attack_methods set_hourly]. rewrite Hlogs.
    rewrite !tally_actions_cons.
    rewrite (count_action_block b1 _ Hb1).
    rewrite (count_action_block b2 _ Hb2).
    rewrite (count_action_block b3 _ Hb3).
    rewrite (count_action_allow a1 _ Hn1 Ha1).
    rewrite (count_action_allow a2 _ Hn2 Ha2).
    cbn [tally_actions fold_left].
    rewrite !count_allow_attack, !count_block_attack.
    unfold rule_id_of. rewrite Hr1, Hr2, Hr3. vm_compute. reflexivity. }
  assert (Hrate : Report.block_rate_lines a = Some ["Block Rate: 60.00%"]).
  { unfold Report.block_rate_lines. rewrite Hblocked, Htotal. vm_compute. reflexivity. }
  assert (Hmethods : exists methods,
             Report.method_lines (blocked_requests a)
               (sorted_by_count (attack_methods a)) = Some methods).
  { rewrite Hblocked, Hattack. eexists. vm_compute. reflexivity. }
  destruct Hmethods as [methods Hmethods].
  destruct (report_lines_defined now a _ _ Hrate Hmethods) as [lines Hlines].
  exists a, lines. repeat (split; [assumption|]).
  apply report_lines_inv in Hlines. destruct Hlines as (rate & rest & Hrate' & ->).
  rewrite Hrate in Hrate'. injection Hrate' as <-.
  exact (nth_error_after_counts now a _ 0).
Qed.

(** ** The log fetcher and parser *)

Section ParserFacts.
Variable get_object_text : string -> string + string.
Variable Entry : Type.
Variable json_loads : string -> loads_result Entry.

Lemma parse_lines_interleaved (lines : list string) (entries : list Entry) :
  Interleaved Entry json_loads lines entries ->
  forall logs, parse_lines Entry json_loads lines logs = ((logs ++ entries)%list, None).
Proof.
  induction 1 as [|line entry lines entries Hne Hload _ IH
                  |line lines entries Hload _ IH
                  |lines entries _ IH]; intros logs; cbn [parse_lines].
  - rewrite app_nil_r. reflexivity.
  - apply String.eqb_neq in Hne. rewrite Hne, Hload, IH, <- app_assoc. reflexivity.
  - destruct (String.eqb line ""); [apply IH|]. rewrite Hload. apply IH.
  - apply IH.
Qed.

Let process := process_file get_object_text Entry json_loads.
Let loop := download_loop get_object_text Entry json_loads.

Lemma process_file_processed (log_file : string) (st : Download Entry) :
  processed_files Entry st <= processed_files Entry (process log_file st)
  <= processed_files Entry st + 1.
Proof.
  unfold process, process_file.
  destruct (get_object_text log_file) as [content|message]; cbn; [|lia].
  destruct (parse_lines _ _ _ _) as [logs' [message|]]; cbn; lia.
Qed.

(** With a positive cap, the loop is the uncapped loop over a prefix of the
    keys; it stops before the first key at which the count has reached the
    cap. *)
Lemma download_loop_cap (cap : Z) (log_files : list string) (st : Download Entry) :
  0 < cap -> processed_files Entry st <= cap ->
  exists pre rest,
    log_files = (pre ++ rest)%list
    /\ loop log_files (Some cap) st = loop pre None st
    /\ processed_files Entry (loop pre None st) <= cap
    /\ (rest = [] \/ processed_files Entry (loop pre None st) = cap)
    /\ (forall before after,
          pre = (before ++ after)%list -> after <> [] ->
          processed_files Entry (loop before None st) < cap).
Proof.
  intros Hcap. revert st. induction log_files as [|log_file log_files IH]; intros st Hle.
  - exists [], []. cbn. repeat split; auto.
    intros before after Heq Hne. symmetry in Heq.
    apply app_eq_nil in Heq. destruct Heq as [_ ->]. congruence.
  - cbn [loop download_loop cap_reached] in *.
    destruct (Z.eqb_spec cap 0) as [Hz|_]; [lia|]. cbn [negb andb].
    destruct (Z.leb_spec cap (processed_files Entry st)) as [Hreached|Hbelow].
    + exists [], (log_file :: log_files). cbn. repeat split; auto; try lia.
      intros before after Heq Hne. symmetry in Heq.
      apply app_eq_nil in Heq. destruct Heq as [_ ->]. congruence.
    + pose proof (process_file_processed log_file st) as Hstep.
      destruct (IH (process log_file st)) as (pre & rest & -> & Hrun & Hmax & Hstop & Hbefore);
        [lia|].
      exists (log_file :: pre), rest. split; [reflexivity|].
      cbn [loop download_loop cap_reached]. fold loop. fold process.
      repeat split; try assumption.
      intros before after Heq Hne. destruct before as [|f before].
      * cbn. exact Hbelow.
      * cbn in Heq. injection Heq as <- Heq. cbn. fold process.
        exact (Hbefore before after Heq Hne).
Qed.

End ParserFacts.

(** C9 (as amended). When the text of a file, as the parser splits it
    (stripped of outer whitespace, then cut at newlines), interleaves valid
    lines with empty lines and with malformed lines on which the decoder
    raises [JSONDecodeError], processing the file appends exactly the entries
    of the valid lines, in order; the file counts as processed, and nothing
    but the "Processing" line is printed: no exception reaches the handler of
    the file.  Run on that file alone, the parser returns those entries and
    its summary counts them only. *)
Theorem malformed_lines_are_skipped :
  forall (get_object_text : string -> string + string) (Entry : Type)
         (json_loads : string -> loads_result Entry)
         (log_file content : string) (entries : list Entry)
         (st : Download Entry),
    get_object_text log_file = inl content ->
    Interleaved Entry json_loads (PyStr.split_lines (PyStr.strip content)) entries ->
    process_file get_object_text Entry json_loads log_file st
    = {| logs := (logs Entry st ++ entries)%list;
         processed_files := processed_files Entry st + 1;
         stdout := (stdout Entry st ++ [processing_message log_file])%list |}
    /\ download_and_parse_logs get_object_text Entry json_loads [log_file] None
       = entries
    /\ stdout Entry (download_run get_object_text Entry json_loads [log_file] None)
       = [processing_message log_file;
          summary_message 1 (Z.of_nat (List.length entries))].
Proof.
  intros get_object_text Entry json_loads log_file content entries st Hget Hlines.
  assert (Hfile : forall st0,
             process_file get_object_text Entry json_loads log_file st0
             = {| logs := (logs Entry st0 ++ entries)%list;
                  processed_files := processed_files Entry st0 + 1;
                  stdout := (stdout Entry st0 ++ [processing_message log_file])%list |}).
  { intros st0. unfold process_file. rewrite Hget.
    rewrite (parse_lines_interleaved Entry json_loads _ _ Hlines). reflexivity. }
  split; [apply Hfile|].
  unfold download_and_parse_logs, download_run.
  cbn [download_loop cap_reached]. rewrite Hfile. cbn. split; reflexivity.
Qed.

(** C9, counterexample. A malformed line need not raise
    [JSONDecodeError]: on a line of 1100 opening brackets the decoder raises
    [RecursionError], which the [except json.JSONDecodeError] of the line
    does not catch.  The exception reaches the handler of the file: the
    valid line after the malformed one is lost, the failure is reported on
    the output, and the file is not counted as processed. *)
Lemma malformed_line_ends_the_file :
  PyStr.split_lines (PyStr.strip nested_content) = ["{}"; nested_line; "{}"]
  /\ nesting_decoder "{}" = Parsed "{}"
  /\ nesting_decoder nested_line = OtherError recursion_message
  /\ download_and_parse_logs nested_store string nesting_decoder ["day1.gz"] None
     = ["{}"]
  /\ download_and_parse_logs nested_store string nesting_decoder ["day1.gz"] None
     <> ["{}"; "{}"]
  /\ processed_files string
       (download_run nested_store string nesting_decoder ["day1.gz"] None) = 0
  /\ stdout string
       (download_run nested_store string nesting_decoder ["day1.gz"] None)
     = [processing_message "day1.gz";
        error_message "day1.gz" recursion_message;
        summary_message 0 1].
Proof.
  split; [vm_compute; reflexivity|].
  split; [reflexivity|].
  split; [vm_compute; reflexivity|].
  split; [vm_compute; reflexivity|].
  split; [vm_compute; discriminate|].
  split; vm_compute; reflexivity.
Qed.

(** C4 (as amended). With a cap [max_files > 0], the count of processed
    files never exceeds the cap, and the run is the run without a cap over a
    prefix of the key sequence: either that prefix is the whole sequence, or
    the count has reached the cap at its end; before every key of the prefix
    the count is still below the cap. *)
Theorem cap_stops_processing :
  forall (get_object_text : string -> string + string) (Entry : Type)
         (json_loads : string -> loads_result Entry)
         (log_files : list string) (max_files : Z),
    0 < max_files ->
    let run := download_run get_object_text Entry json_loads in
    processed_files Entry (run log_files (Some max_files)) <= max_files
    /\ exists pre rest : list string,
         log_files = (pre ++ rest)%list
         /\ run log_files (Some max_files) = run pre None
         /\ download_and_parse_logs get_object_text Entry json_loads
              log_files (Some max_files)
            = download_and_parse_logs get_object_text Entry json_loads pre None
         /\ (rest = []
             \/ processed_files Entry (run log_files (Some max_files)) = max_files)
         /\ (forall before after : list string,
               pre = (before ++ after)%list -> after <> [] ->
               processed_files Entry (run before None) < max_files).
Proof.
  intros get_object_text Entry json_loads log_files max_files Hcap run.
  destruct (download_loop_cap get_object_text Entry json_loads max_files log_files
              {| logs := []; processed_files := 0; stdout := [] |} Hcap)
    as (pre & rest & Hsplit & Hrun & Hmax & Hstop & Hbefore); [cbn; lia|].
  assert (Heq : run log_files (Some max_files) = run pre None).
  { unfold run, download_run. rewrite Hrun. reflexivity. }
  split.
  - rewrite Heq. unfold run, download_run. cbn [processed_files]. exact Hmax.
  - exists pre, rest. split; [exact Hsplit|]. split; [exact Heq|]. split.
    + unfold download_and_parse_logs. fold run. rewrite Heq. reflexivity.
    + split.
      * rewrite Heq. unfold run, download_run. cbn [processed_files]. exact Hstop.
      * intros before after Hpre Hne. unfold run, download_run. cbn [processed_files].
        exact (Hbefore before after Hpre Hne).
Qed.

(** C4, counterexample. With the cap 0 the two files of the sequence are
    both processed. *)
Lemma cap_zero_processes_all :
  processed_files unit
    (download_run one_line_object unit accept_all ["a.gz"; "b.gz"] (Some 0)) = 2
  /\ download_and_parse_logs one_line_object unit accept_all ["a.gz"; "b.gz"] (Some 0)
     = [tt; tt]
  /\ ~ (processed_files unit
          (download_run one_line_object unit accept_all ["a.gz"; "b.gz"] (Some 0))
        <= 0).
Proof.
  split; [vm_compute; reflexivity|].
  split; [vm_compute; reflexivity|].
  vm_compute. intros H. apply H. reflexivity.
Qed.

(** * The properties on sample data *)

Lemma example_three_blocked_two_allowed_witness :
  Forall (fun log => hour_of utc_zone log <> None) example_logs
  /\ exists (a : Analysis) (lines : list string),
       analyze_threat_patterns utc_zone example_logs = Some a
       /\ blocked_requests a = 3
       /\ allowed_requests a = 2
       /\ total_requests a = 5
       /\ attack_methods a = [("SQL Injection", 2); ("Rate Limiting", 1)]
       /\ Report.block_rate_lines a = Some ["Block Rate: 60.00%"]
       /\ Report.report_lines "2024-03-01 12:00:00" a = Some lines
       /\ nth_error lines 10 = Some "Block Rate: 60.00%".
Proof.
  assert (Hall : Forall (fun log => hour_of utc_zone log <> None) example_logs).
  { repeat constructor; vm_compute; discriminate. }
  split; [exact Hall|].
  exact (example_three_blocked_two_allowed utc_zone "2024-03-01 12:00:00"
           sqli_record sqli_record rate_record allowed_record allowed_record
           eq_refl eq_refl eq_refl eq_refl eq_refl eq_refl eq_refl eq_refl Hall).
Defined.

Lemma blocked_allowed_le_total_witness :
  analyze_threat_patterns utc_zone example_logs = Some example_analysis
  /\ blocked_requests example_analysis + allowed_requests example_analysis
     <= total_requests example_analysis
  /\ exists (a a0 : Analysis) (hour : Z),
       analyze_threat_patterns utc_zone
         [sqli_record; counted_record; rate_record] = Some a
       /\ analyze_threat_patterns utc_zone [sqli_record; rate_record] = Some a0
       /\ hour_of utc_zone counted_record = Some hour
       /\ same_action_tally a a0
       /\ total_requests a = total_requests a0 + 1.
Proof.
  assert (Hrun : analyze_threat_patterns utc_zone example_logs = Some example_analysis).
  { vm_compute. reflexivity. }
  split; [exact Hrun|].
  split; [exact (proj1 (blocked_allowed_le_total utc_zone _ _ Hrun))|].
  destruct (analyze_threat_patterns utc_zone [sqli_record; counted_record; rate_record])
    as [a|] eqn:Hrun3; [|vm_compute in Hrun3; discriminate].
  destruct (proj2 (blocked_allowed_le_total utc_zone _ _ Hrun3)
              [sqli_record] [rate_record] counted_record eq_refl)
    as (a0 & hour & Hrun0 & Hhour & Hsame & Htotal & _);
    [vm_compute; discriminate | vm_compute; discriminate|].
  exists a, a0, hour. repeat split; try assumption; apply Hsame.
Defined.

Lemma block_rate_line_witness :
  Report.block_rate_lines (initial_analysis []) = Some []
  /\ (exists lines,
        Report.report_lines "2024-03-01 12:00:00" (initial_analysis []) = Some lines
        /\ nth_error lines 10 = Some ""
        /\ nth_error lines 11 = Some "TOP TRIGGERED RULES")
  /\ exists (lines : list string) (q : PyNum.float),
       Report.report_lines "2024-03-01 12:00:00" example_analysis = Some lines
       /\ PyNum.true_div 3 5 = Some q
       /\ nth_error lines 10
          = Some ("Block Rate: "
                  ++ PyNum.fmt_fixed 2 (PyNum.fmul q (PyNum.float_of_int 100))
                  ++ "%")
       /\ nth_error lines 11 = Some "".
Proof.
  destruct (block_rate_line "2024-03-01 12:00:00" (initial_analysis []))
    as [Hzero Hlines0].
  destruct (Hzero eq_refl) as [Hrate [lines0 Hreport0]]; [reflexivity|].
  split; [exact Hrate|]. split.
  - exists lines0. split; [exact Hreport0|].
    destruct (Hlines0 lines0 Hreport0) as (_ & Hnone & _).
    apply Hnone. vm_compute. discriminate.
  - destruct (Report.report_lines "2024-03-01 12:00:00" example_analysis)
      as [lines|] eqn:Hreport; [|vm_compute in Hreport; discriminate].
    destruct (proj2 (block_rate_line "2024-03-01 12:00:00" example_analysis)
                lines Hreport) as (_ & _ & Hpos).
    destruct Hpos as (q & Hq & H10 & H11); [reflexivity|].
    exists lines, q. repeat split; assumption.
Defined.

Lemma cap_stops_processing_witness :
  0 < 2
  /\ processed_files string
       (download_run flaky_store string brace_decoder
          ["a.gz"; "bad.gz"; "b.gz"; "c.gz"] (Some 2)) <= 2
  /\ exists pre rest : list string,
       ["a.gz"; "bad.gz"; "b.gz"; "c.gz"] = (pre ++ rest)%list
       /\ download_and_parse_logs flaky_store string brace_decoder
            ["a.gz"; "bad.gz"; "b.gz"; "c.gz"] (Some 2)
          = download_and_parse_logs flaky_store string brace_decoder pre None.
Proof.
  assert (Hcap : 0 < 2) by reflexivity.
  split; [exact Hcap|].
  destruct (cap_stops_processing flaky_store string brace_decoder
              ["a.gz"; "bad.gz"; "b.gz"; "c.gz"] 2 Hcap)
    as (Hmax & pre & rest & Hsplit & _ & Hlogs & _).
  split; [exact Hmax|]. exists pre, rest. split; assumption.
Defined.

Lemma get_log_files_sorted_witness :
  s3_listing dated_listing
  /\ get_log_files dated_listing 738946 738947
     = Some ["year=2024/month=03/day=01/waf-a.gz";
             "year=2024/month=03/day=01/waf-b.gz";
             "year=2024/month=03/day=02/waf-a.gz";
             "year=2024/month=03/day=02/waf-b.gz"]
  /\ Sorted (fun a b => String.leb a b = true)
       ["year=2024/month=03/day=01/waf-a.gz";
        "year=2024/month=03/day=01/waf-b.gz";
        "year=2024/month=03/day=02/waf-a.gz";
        "year=2024/month=03/day=02/waf-b.gz"]
  /\ NoDup
       ["year=2024/month=03/day=01/waf-a.gz";
        "year=2024/month=03/day=01/waf-b.gz";
        "year=2024/month=03/day=02/waf-a.gz";
        "year=2024/month=03/day=02/waf-b.gz"].
Proof.
  assert (Hs3 : s3_listing dated_listing).
  { intros asked contents [= <-]. split.
    - constructor.
      + intros [H|[H|[]]]; apply append_inv_head in H; discriminate.
      + constructor; [|constructor; [intros []|constructor]].
        intros [H|[]]; apply append_inv_head in H; discriminate.
    - repeat constructor; apply prefix_app; eexists; reflexivity. }
  assert (Hrun : get_log_files dated_listing 738946 738947
                 = Some ["year=2024/month=03/day=01/waf-a.gz";
                         "year=2024/month=03/day=01/waf-b.gz";
                         "year=2024/month=03/day=02/waf-a.gz";
                         "year=2024/month=03/day=02/waf-b.gz"]).
  { vm_compute. reflexivity. }
  split; [exact Hs3|]. split; [exact Hrun|].
  destruct (proj2 (get_log_files_sorted dated_listing 738946 738947 Hs3) _ Hrun)
    as (Hsorted & Hnodup & _).
  split; [exact Hsorted | exact Hnodup].
Defined.

Lemma blocked_without_request_counts_unknown_witness :
  action sqli_record = Some "BLOCK"
  /\ httpRequest sqli_record = None
  /\ exists a' : Analysis,
       analyze_one utc_zone sqli_record example_analysis = Some a'
       /\ Counter.get "Unknown" (blocked_by_country a') = 3
       /\ Counter.get "Unknown" (blocked_by_ip a') = 4
       /\ Counter.get "Unknown" (top_blocked_uris a') = 3.
Proof.
  split; [reflexivity|]. split; [reflexivity|].
  destruct (analyze_one utc_zone sqli_record example_analysis) as [a'|] eqn:Hstep;
    [|vm_compute in Hstep; discriminate].
  destruct (blocked_without_request_counts_unknown utc_zone sqli_record
              example_analysis a' eq_refl Hstep) as [Hnone _].
  destruct (Hnone eq_refl) as (_ & _ & _ & Hc & Hi & Hu).
  exists a'. split; [reflexivity|]. rewrite Hc, Hi, Hu. repeat split.
Defined.

Lemma permutation_same_counters_witness :
  Permutation [sqli_record; rate_record; allowed_record]
              [rate_record; sqli_record; allowed_record]
  /\ exists a a' : Analysis,
       analyze_threat_patterns utc_zone [sqli_record; rate_record; allowed_record]
       = Some a
       /\ analyze_threat_patterns utc_zone [rate_record; sqli_record; allowed_record]
          = Some a'
       /\ total_requests a' = total_requests a
       /\ blocked_requests a' = blocked_requests a
       /\ allowed_requests a' = allowed_requests a.
Proof.
  assert (Hperm : Permutation [sqli_record; rate_record; allowed_record]
                              [rate_record; sqli_record; allowed_record]).
  { apply perm_swap. }
  split; [exact Hperm|].
  destruct (analyze_threat_patterns utc_zone [sqli_record; rate_record; allowed_record])
    as [a|] eqn:Hrun; [|vm_compute in Hrun; discriminate].
  destruct (permutation_same_counters utc_zone _ _ a Hperm Hrun)
    as (a' & Hrun' & Ht & Hb & Ha & _).
  exists a, a'. repeat split; assumption.
Defined.

Lemma classify_first_match_wins_witness :
  (occurs "sql" "SQLi-XSS-Rule" /\ occurs "xss" "SQLi-XSS-Rule"
   /\ classify "SQLi-XSS-Rule" = "SQL Injection")
  /\ (~ occurs "sql" "AWS-XSS-GeoRule" /\ ~ occurs "sqli" "AWS-XSS-GeoRule"
      /\ occurs "xss" "AWS-XSS-GeoRule" /\ occurs "geo" "AWS-XSS-GeoRule"
      /\ classify "AWS-XSS-GeoRule" = "Cross-Site Scripting")
  /\ (~ occurs "sql" "RateLimitRule" /\ ~ occurs "sqli" "RateLimitRule"
      /\ ~ occurs "xss" "RateLimitRule" /\ occurs "ratelimit" "RateLimitRule"
      /\ classify "RateLimitRule" = "Rate Limiting")
  /\ (~ occurs "sql" "GeoBlockList" /\ ~ occurs "sqli" "GeoBlockList"
      /\ ~ occurs "xss" "GeoBlockList" /\ ~ occurs "ratelimit" "GeoBlockList"
      /\ occurs "geo" "GeoBlockList"
      /\ classify "GeoBlockList" = "Geographic Block")
  /\ (~ occurs "sql" "Unknown" /\ ~ occurs "sqli" "Unknown"
      /\ ~ occurs "xss" "Unknown" /\ ~ occurs "ratelimit" "Unknown"
      /\ ~ occurs "geo" "Unknown"
      /\ classify "Unknown" = "Other")
  /\ (same_ignoring_case "sqli-xss-rule" "SQLi-XSS-Rule"
      /\ classify "sqli-xss-rule" = classify "SQLi-XSS-Rule").
Proof.
  destruct keywords_small as (Ksql & Ksqli & Kxss & Krate & Kgeo).
  assert (Hyes : forall kw id, small_letters kw ->
                   PyStr.contains kw (PyStr.lower id) = true -> occurs kw id).
  { intros kw id Hkw H. apply contains_lower_occurs; assumption. }
  assert (Hno : forall kw id, small_letters kw ->
                  PyStr.contains kw (PyStr.lower id) = false -> ~ occurs kw id).
  { intros kw id Hkw H Hocc. apply (contains_lower_occurs kw id Hkw) in Hocc.
    rewrite H in Hocc. discriminate. }
  assert (Hxss : occurs "xss" "SQLi-XSS-Rule").
  { exists "SQLi-", "XSS", "-Rule". split; [reflexivity|].
    cbn. unfold small_letter, capital_of. cbn.
    repeat split; try lia; right; lia. }
  assert (Hsame : same_ignoring_case "sqli-xss-rule" "SQLi-XSS-Rule").
  { cbn. unfold capital_of. cbn.
    repeat split;
      first [left; reflexivity | right; right; lia]. }
  pose proof (Hyes "sql" "SQLi-XSS-Rule" Ksql eq_refl) as S1.
  pose proof (Hno "sql" "AWS-XSS-GeoRule" Ksql eq_refl) as X1.
  pose proof (Hno "sqli" "AWS-XSS-GeoRule" Ksqli eq_refl) as X2.
  pose proof (Hyes "xss" "AWS-XSS-GeoRule" Kxss eq_refl) as X3.
  pose proof (Hyes "geo" "AWS-XSS-GeoRule" Kgeo eq_refl) as X4.
  pose proof (Hno "sql" "RateLimitRule" Ksql eq_refl) as R1.
  pose proof (Hno "sqli" "RateLimitRule" Ksqli eq_refl) as R2.
  pose proof (Hno "xss" "RateLimitRule" Kxss eq_refl) as R3.
  pose proof (Hyes "ratelimit" "RateLimitRule" Krate eq_refl) as R4.
  pose proof (Hno "sql" "GeoBlockList" Ksql eq_refl) as G1.
  pose proof (Hno "sqli" "GeoBlockList" Ksqli eq_refl) as G2.
  pose proof (Hno "xss" "GeoBlockList" Kxss eq_refl) as G3.
  pose proof (Hno "ratelimit" "GeoBlockList" Krate eq_refl) as G4.
  pose proof (Hyes "geo" "GeoBlockList" Kgeo eq_refl) as G5.
  pose proof (Hno "sql" "Unknown" Ksql eq_refl) as U1.
  pose proof (Hno "sqli" "Unknown" Ksqli eq_refl) as U2.
  pose proof (Hno "xss" "Unknown" Kxss eq_refl) as U3.
  pose proof (Hno "ratelimit" "Unknown" Krate eq_refl) as U4.
  pose proof (Hno "geo" "Unknown" Kgeo eq_refl) as U5.
  split; [|split; [|split; [|split; [|split]]]].
  - split; [exact S1|]. split; [exact Hxss|].
    destruct (classify_first_match_wins "SQLi-XSS-Rule")
      as (_ & _ & _ & _ & _ & Hboth & _).
    exact (Hboth S1 Hxss).
  - split; [exact X1|]. split; [exact X2|]. split; [exact X3|]. split; [exact X4|].
    destruct (classify_first_match_wins "AWS-XSS-GeoRule") as (_ & H & _).
    exact (H X1 X2 X3).
  - split; [exact R1|]. split; [exact R2|]. split; [exact R3|]. split; [exact R4|].
    destruct (classify_first_match_wins "RateLimitRule") as (_ & _ & H & _).
    exact (H R1 R2 R3 R4).
  - split; [exact G1|]. split; [exact G2|]. split; [exact G3|]. split; [exact G4|].
    split; [exact G5|].
    destruct (classify_first_match_wins "GeoBlockList") as (_ & _ & _ & H & _).
    exact (H G1 G2 G3 G4 G5).
  - split; [exact U1|]. split; [exact U2|]. split; [exact U3|]. split; [exact U4|].
    split; [exact U5|].
    destruct (classify_first_match_wins "Unknown") as (_ & _ & _ & _ & H & _).
    exact (H U1 U2 U3 U4 U5).
  - split; [exact Hsame|].
    destruct (classify_first_match_wins "SQLi-XSS-Rule")
      as (_ & _ & _ & _ & _ & _ & Hcase & _).
    exact (Hcase "sqli-xss-rule" Hsame).
Defined.

Lemma malformed_lines_are_skipped_witness :
  sample_store "day1.gz" = inl sample_content
  /\ Interleaved string brace_decoder
       (PyStr.split_lines (PyStr.strip sample_content)) ["{first}"; "{second}"]
  /\ download_and_parse_logs sample_store string brace_decoder ["day1.gz"] None
     = ["{first}"; "{second}"]
  /\ stdout string (download_run sample_store string brace_decoder ["day1.gz"] None)
     = [processing_message "day1.gz"; summary_message 1 2].
Proof.
  assert (Hlines : Interleaved string brace_decoder
                     (PyStr.split_lines (PyStr.strip sample_content))
                     ["{first}"; "{second}"]).
  { change (PyStr.split_lines (PyStr.strip sample_content))
      with ["{first}"; "not json"; ""; "{second}"; "trunc}"].
    apply Interleaved_valid; [discriminate | reflexivity|].
    apply Interleaved_malformed; [reflexivity|].
    apply Interleaved_empty.
    apply Interleaved_valid; [discriminate | reflexivity|].
    apply Interleaved_malformed; [reflexivity|].
    apply Interleaved_nil. }
  split; [reflexivity|]. split; [exact Hlines|].
  destruct (malformed_lines_are_skipped sample_store string brace_decoder
              "day1.gz" sample_content ["{first}"; "{second}"]
              {| logs := []; processed_files := 0; stdout := [] |}
              eq_refl Hlines) as (_ & Hlogs & Hout).
  split; [exact Hlogs | exact Hout].
Defined.

Lemma hourly_sum_is_total_witness :
  analyze_threat_patterns utc_zone example_logs = Some example_analysis
  /\ Counter.total (hourly_distribution example_analysis)
     = total_requests example_analysis
  /\ exists (b' : Analysis) (hour : Z),
       analyze_one utc_zone sqli_record example_analysis = Some b'
       /\ 0 <= hour < 24
       /\ hourly_distribution b'
          = Counter.incr hour (hourly_distribution example_analysis)
       /\ PyDate.fromtimestamp_hour utc_zone 0 = Some hour.
Proof.
  assert (Hrun : analyze_threat_patterns utc_zone example_logs = Some example_analysis).
  { vm_compute. reflexivity. }
  destruct (hourly_sum_is_total utc_zone _ _ Hrun) as [Hsum Hstep].
  split; [exact Hrun|]. split; [exact Hsum|].
  destruct (analyze_one utc_zone sqli_record example_analysis) as [b'|] eqn:Hone;
    [|vm_compute in Hone; discriminate].
  destruct (Hstep sqli_record example_analysis b' Hone)
    as (hour & Hrange & Hincr & _ & Hepoch).
  exists b', hour. split; [reflexivity|]. split; [exact Hrange|].
  split; [exact Hincr | exact (Hepoch eq_refl)].
Defined.

(** * Further properties *)

(** ** Tables as dictionaries *)

Section CounterInvariants.
Context {K : Type} `{EqKey K}.

Lemma incr_positive (k : K) (d : Counter.t K) :
  positive_counts d -> positive_counts (Counter.incr k d).
Proof.
  unfold positive_counts. induction d as [|[k0 v] d IH]; simpl; intros Hpos.
  - constructor; [simpl; lia | constructor].
  - inversion Hpos as [|? ? Hv Hrest]; subst. simpl in Hv.
    destruct (keqb k k0); constructor; simpl; auto; lia.
Qed.

Lemma incr_well_formed (k : K) (d : Counter.t K) :
  well_formed d -> well_formed (Counter.incr k d).
Proof.
  intros [Hnd Hpos]. split; [apply keys_incr_NoDup | apply incr_positive]; assumption.
Qed.

Lemma empty_well_formed : well_formed (@Counter.empty K).
Proof. split; constructor. Qed.

(** A key is in the table exactly when its count is not 0. *)
Lemma get_positive_In (k : K) (d : Counter.t K) :
  positive_counts d -> (In k (Counter.keys d) <-> 1 <= Counter.get k d).
Proof.
  unfold positive_counts, Counter.keys.
  induction d as [|[k0 v] d IH]; simpl; intros Hpos.
  - split; [tauto | lia].
  - inversion Hpos as [|? ? Hv Hrest]; subst. simpl in Hv.
    destruct (keqb_spec k k0) as [->|Hne].
    + split; [intros _; exact Hv | intros _; left; reflexivity].
    + rewrite <- (IH Hrest). split; [intros [Heq|Hin]; [congruence | exact Hin] | tauto].
Qed.
End CounterInvariants.

Lemma tally_actions_preserves (P : Analysis -> Prop) :
  (forall log a, P a -> P (count_block log a)) ->
  (forall a, P a -> P (count_allow a)) ->
  forall logs a, P a -> P (tally_actions logs a).
Proof.
  intros Hblock Hallow logs. induction logs as [|log logs IH]; intros a Ha.
  - exact Ha.
  - rewrite tally_actions_cons. apply IH.
    case_action log; auto.
Qed.

Lemma tally_hours_preserves (P : Counter.t Z -> Prop) (Q : Z -> Prop) :
  (forall h d, Q h -> P d -> P (Counter.incr h d)) ->
  forall hs d, Forall Q hs -> P d -> P (tally_hours hs d).
Proof.
  intros Hstep hs. induction hs as [|h hs IH]; intros d Hall Hd.
  - exact Hd.
  - inversion Hall as [|? ? Hh Hrest]; subst.
    unfold tally_hours. simpl. apply IH; [exact Hrest|]. apply Hstep; assumption.
Qed.

Lemma hours_of_range (utc_offset : Z -> Z) (logs : list LogRecord) (hs : list Z) :
  hours_of utc_offset logs = Some hs -> Forall (fun h => 0 <= h < 24) hs.
Proof.
  revert hs. induction logs as [|log logs IH]; intros hs; simpl.
  - intros [= <-]. constructor.
  - destruct (hour_of utc_offset log) as [h|] eqn:Hh; [|discriminate].
    destruct (hours_of utc_offset logs) as [hs'|]; [|discriminate].
    intros [= <-]. constructor; [|apply IH; reflexivity].
    exact (fromtimestamp_hour_range _ _ _ Hh).
Qed.

(** What a returned result is made of. *)
Lemma analyze_result (utc_offset : Z -> Z) (logs : list LogRecord) (a : Analysis) :
  analyze_threat_patterns utc_offset logs = Some a ->
  exists hs,
    hours_of utc_offset logs = Some hs
    /\ a = set_hourly (tally_hours hs Counter.empty)
             (tally_actions logs (initial_analysis logs)).
Proof.
  unfold analyze_threat_patterns. rewrite analyze_loop_split.
  destruct (hours_of utc_offset logs) as [hs|]; [|discriminate].
  intros [= <-]. exists hs. split; reflexivity.
Qed.

(** X1. In every result the aggregator returns, the counts of each of the
    five tables of blocked requests sum to [blocked_requests]. *)
Theorem tables_sum_to_blocked :
  forall (utc_offset : Z -> Z) (logs : list LogRecord) (a : Analysis),
    analyze_threat_patterns utc_offset logs = Some a ->
    Counter.total (blocked_by_rule a) = blocked_requests a
    /\ Counter.total (blocked_by_country a) = blocked_requests a
    /\ Counter.total (blocked_by_ip a) = blocked_requests a
    /\ Counter.total (top_blocked_uris a) = blocked_requests a
    /\ Counter.total (attack_methods a) = blocked_requests a.
Proof.
  intros utc_offset logs a Hrun.
  apply analyze_result in Hrun. destruct Hrun as (hs & _ & ->).
  cbn [set_hourly blocked_by_rule blocked_by_country blocked_by_ip
       top_blocked_uris attack_methods blocked_requests].
  apply (tally_actions_preserves
           (fun a => Counter.total (blocked_by_rule a) = blocked_requests a
                     /\ Counter.total (blocked_by_country a) = blocked_requests a
                     /\ Counter.total (blocked_by_ip a) = blocked_requests a
                     /\ Counter.total (top_blocked_uris a) = blocked_requests a
                     /\ Counter.total (attack_methods a) = blocked_requests a)).
  - intros log b (H1 & H2 & H3 & H4 & H5).
    cbn [count_block blocked_by_rule blocked_by_country blocked_by_ip
         top_blocked_uris attack_methods blocked_requests].
    rewrite !total_incr. repeat split; lia.
  - intros b Hb. exact Hb.
  - repeat split; reflexivity.
Qed.

Lemma analyze_tables_well_formed (utc_offset : Z -> Z) (logs : list LogRecord)
    (a : Analysis) :
  analyze_threat_patterns utc_offset logs = Some a ->
  well_formed (blocked_by_rule a)
  /\ well_formed (blocked_by_country a)
  /\ well_formed (blocked_by_ip a)
  /\ well_formed (top_blocked_uris a)
  /\ well_formed (attack_methods a)
  /\ well_formed (hourly_distribution a).
Proof.
  intros Hrun.
  apply analyze_result in Hrun. destruct Hrun as (hs & _ & ->).
  cbn [set_hourly blocked_by_rule blocked_by_country blocked_by_ip
       top_blocked_uris attack_methods hourly_distribution].
  assert (Hhour : well_formed (tally_hours hs Counter.empty)).
  { apply (tally_hours_preserves (fun d => well_formed d) (fun _ => True)).
    - intros h d _ Hd. apply incr_well_formed. exact Hd.
    - apply Forall_forall. intros; exact I.
    - apply empty_well_formed. }
  assert (Hact : well_formed (blocked_by_rule (tally_actions logs (initial_analysis logs)))
                 /\ well_formed (blocked_by_country (tally_actions logs (initial_analysis logs)))
                 /\ well_formed (blocked_by_ip (tally_actions logs (initial_analysis logs)))
                 /\ well_formed (top_blocked_uris (tally_actions logs (initial_analysis logs)))
                 /\ well_formed (attack_methods (tally_actions logs (initial_analysis logs)))).
  { apply (tally_actions_preserves
             (fun a => well_formed (blocked_by_rule a)
                       /\ well_formed (blocked_by_country a)
                       /\ well_formed (blocked_by_ip a)
                       /\ well_formed (top_blocked_uris a)
                       /\ well_formed (attack_methods a))).
    - intros log b (H1 & H2 & H3 & H4 & H5).
      cbn [count_block blocked_by_rule blocked_by_country blocked_by_ip
           top_blocked_uris attack_methods].
      repeat split; apply incr_well_formed; assumption.
    - intros b Hb. exact Hb.
    - repeat split; constructor. }
  destruct Hact as (H1 & H2 & H3 & H4 & H5).
  repeat (split; [assumption|]). exact Hhour.
Qed.

(** X2. In every result the aggregator returns, each of the six tables has
    pairwise distinct keys and no count below 1; so a key is present in a
    table exactly when its count there is not 0. *)
Theorem tables_well_formed :
  forall (utc_offset : Z -> Z) (logs : list LogRecord) (a : Analysis),
    analyze_threat_patterns utc_offset logs = Some a ->
    (well_formed (blocked_by_rule a)
     /\ well_formed (blocked_by_country a)
     /\ well_formed (blocked_by_ip a)
     /\ well_formed (top_blocked_uris a)
     /\ well_formed (attack_methods a)
     /\ well_formed (hourly_distribution a))
    /\ (forall k,
          (In k (Counter.keys (blocked_by_rule a))
           <-> 1 <= Counter.get k (blocked_by_rule a))
          /\ (In k (Counter.keys (blocked_by_country a))
              <-> 1 <= Counter.get k (blocked_by_country a))
          /\ (In k (Counter.keys (blocked_by_ip a))
              <-> 1 <= Counter.get k (blocked_by_ip a))
          /\ (In k (Counter.keys (top_blocked_uris a))
              <-> 1 <= Counter.get k (top_blocked_uris a))
          /\ (In k (Counter.keys (attack_methods a))
              <-> 1 <= Counter.get k (attack_methods a)))
    /\ (forall h, In h (Counter.keys (hourly_distribution a))
                  <-> 1 <= Counter.get h (hourly_distribution a)).
Proof.
  intros utc_offset logs a Hrun.
  pose proof (analyze_tables_well_formed utc_offset logs a Hrun)
    as (H1 & H2 & H3 & H4 & H5 & H6).
  split; [exact (conj H1 (conj H2 (conj H3 (conj H4 (conj H5 H6)))))|]. split.
  - intros k.
    split; [apply get_positive_In; apply H1|].
    split; [apply get_positive_In; apply H2|].
    split; [apply get_positive_In; apply H3|].
    split; [apply get_positive_In; apply H4|].
    apply get_positive_In; apply H5.
  - intros h. apply get_positive_In. apply H6.
Qed.

Lemma classify_category (rule_id : string) : In (classify rule_id) categories.
Proof.
  unfold classify, categories.
  destruct (_ || _); [simpl; tauto|].
  destruct (PyStr.contains "xss" _); [simpl; tauto|].
  destruct (PyStr.contains "ratelimit" _); [simpl; tauto|].
  destruct (PyStr.contains "geo" _); simpl; tauto.
Qed.

Lemma hours_In (h : Z) : In h Charts.hours <-> 0 <= h < 24.
Proof.
  unfold Charts.hours. rewrite in_map_iff. split.
  - intros [n [<- Hin]]. apply in_seq in Hin. lia.
  - intros Hh. exists (Z.to_nat h). split; [lia|]. apply in_seq. lia.
Qed.

(** X3. In every result the aggregator returns, the keys of [attack_methods]
    are among the five category names and the keys of [hourly_distribution]
    are hours from 0 to 23; so the first table has at most 5 entries and the
    second at most 24. *)
Theorem category_and_hour_keys :
  forall (utc_offset : Z -> Z) (logs : list LogRecord) (a : Analysis),
    analyze_threat_patterns utc_offset logs = Some a ->
    (forall k, In k (Counter.keys (attack_methods a)) -> In k categories)
    /\ (forall h, In h (Counter.keys (hourly_distribution a)) -> 0 <= h < 24)
    /\ (List.length (attack_methods a) <= 5)%nat
    /\ (List.length (hourly_distribution a) <= 24)%nat.
Proof.
  intros utc_offset logs a Hrun.
  pose proof (analyze_tables_well_formed utc_offset logs a Hrun)
    as (_ & _ & _ & _ & [Hnd_attack _] & [Hnd_hour _]).
  apply analyze_result in Hrun. destruct Hrun as (hs & Hhs & ->).
  cbn [set_hourly attack_methods hourly_distribution] in *.
  assert (Hcat : forall k,
             In k (Counter.keys (attack_methods (tally_actions logs (initial_analysis logs))))
             -> In k categories).
  { apply (tally_actions_preserves
             (fun a => forall k, In k (Counter.keys (attack_methods a)) -> In k categories)).
    - intros log b Hb k. cbn [count_block attack_methods].
      rewrite keys_incr_In. intros [->|Hin]; [apply classify_category | auto].
    - intros b Hb. exact Hb.
    - intros k []. }
  assert (Hhour : forall h, In h (Counter.keys (tally_hours hs Counter.empty))
                            -> 0 <= h < 24).
  { apply (tally_hours_preserves
             (fun d => forall h, In h (Counter.keys d) -> 0 <= h < 24)
             (fun h => 0 <= h < 24)).
    - intros h d Hh Hd k. rewrite keys_incr_In. intros [->|Hin]; auto.
    - exact (hours_of_range utc_offset logs hs Hhs).
    - intros h []. }
  split; [exact Hcat|]. split; [exact Hhour|]. split.
  - rewrite <- (length_map fst). change (map fst ?d) with (Counter.keys d).
    apply (NoDup_incl_length Hnd_attack (l' := categories)). exact Hcat.
  - rewrite <- (length_map fst). change (map fst ?d) with (Counter.keys d).
    apply (NoDup_incl_length Hnd_hour (l' := Charts.hours)).
    intros h Hin. apply hours_In. exact (Hhour h Hin).
Qed.

(** ** What the aggregator counts *)

(** X4. In every result the aggregator returns, [blocked_requests] is the
    number of records whose action is BLOCK, [allowed_requests] the number
    whose action is ALLOW, the count under a key of a table the number of
    blocked records with that rule id, country, client IP, URI or category
    ("Unknown" standing for a missing field), and the count of an hour the
    number of records of that hour. *)
Theorem counters_count_records :
  forall (utc_offset : Z -> Z) (logs : list LogRecord) (a : Analysis),
    analyze_threat_patterns utc_offset logs = Some a ->
    total_requests a = Z.of_nat (List.length logs)
    /\ blocked_requests a = count is_block logs
    /\ allowed_requests a = count is_allow logs
    /\ (forall k : string,
          Counter.get k (blocked_by_rule a) = count (blocked_with rule_id_of k) logs
          /\ Counter.get k (blocked_by_country a) = count (blocked_with country_of k) logs
          /\ Counter.get k (blocked_by_ip a) = count (blocked_with client_ip_of k) logs
          /\ Counter.get k (top_blocked_uris a) = count (blocked_with uri_of k) logs
          /\ Counter.get k (attack_methods a) = count (blocked_with attack_of k) logs)
    /\ (forall h : Z,
          Counter.get h (hourly_distribution a) = count (hour_is utc_offset h) logs).
Proof.
  intros utc_offset logs a Hrun.
  apply analyze_result in Hrun. destruct Hrun as (hs & Hhs & ->).
  cbn [set_hourly total_requests blocked_requests allowed_requests blocked_by_rule
       blocked_by_country blocked_by_ip top_blocked_uris attack_methods
       hourly_distribution].
  destruct (tally_actions_totals logs (initial_analysis logs)) as (-> & -> & ->).
  cbn [initial_analysis total_requests blocked_requests allowed_requests].
  split; [reflexivity|]. split; [lia|]. split; [lia|]. split.
  - intros k.
    destruct (tally_actions_tables logs (initial_analysis logs) k)
      as (-> & -> & -> & -> & ->).
    cbn. repeat split; reflexivity.
  - intros h. rewrite (tally_hours_get utc_offset logs hs _ h Hhs). cbn. lia.
Qed.

(** X5. The aggregator is additive: when it returns a result for the
    concatenation of two sequences, it returns one for each of them, and
    every total and every count of the whole is the sum of those of the
    parts. *)
Theorem analysis_of_concatenation :
  forall (utc_offset : Z -> Z) (logs1 logs2 : list LogRecord) (a : Analysis),
    analyze_threat_patterns utc_offset (logs1 ++ logs2) = Some a ->
    exists a1 a2 : Analysis,
      analyze_threat_patterns utc_offset logs1 = Some a1
      /\ analyze_threat_patterns utc_offset logs2 = Some a2
      /\ total_requests a = total_requests a1 + total_requests a2
      /\ blocked_requests a = blocked_requests a1 + blocked_requests a2
      /\ allowed_requests a = allowed_requests a1 + allowed_requests a2
      /\ (forall k : string,
            Counter.get k (blocked_by_rule a)
            = Counter.get k (blocked_by_rule a1) + Counter.get k (blocked_by_rule a2)
            /\ Counter.get k (blocked_by_country a)
               = Counter.get k (blocked_by_country a1)
                 + Counter.get k (blocked_by_country a2)
            /\ Counter.get k (blocked_by_ip a)
               = Counter.get k (blocked_by_ip a1) + Counter.get k (blocked_by_ip a2)
            /\ Counter.get k (top_blocked_uris a)
               = Counter.get k (top_blocked_uris a1)
                 + Counter.get k (top_blocked_uris a2)
            /\ Counter.get k (attack_methods a)
               = Counter.get k (attack_methods a1) + Counter.get k (attack_methods a2))
      /\ (forall h : Z,
            Counter.get h (hourly_distribution a)
            = Counter.get h (hourly_distribution a1)
              + Counter.get h (hourly_distribution a2)).
Proof.
  intros utc_offset logs1 logs2 a Hrun.
  assert (Hdef : Forall (fun log => hour_of utc_offset log <> None) (logs1 ++ logs2)).
  { apply analyze_defined. eexists; exact Hrun. }
  apply Forall_app in Hdef. destruct Hdef as [Hdef1 Hdef2].
  apply analyze_defined in Hdef1, Hdef2.
  destruct Hdef1 as [a1 Hrun1]. destruct Hdef2 as [a2 Hrun2].
  exists a1, a2. split; [exact Hrun1|]. split; [exact Hrun2|].
  apply analyze_result in Hrun, Hrun1, Hrun2.
  destruct Hrun as (hs & Hhs & ->). destruct Hrun1 as (hs1 & Hhs1 & ->).
  destruct Hrun2 as (hs2 & Hhs2 & ->).
  cbn [set_hourly total_requests blocked_requests allowed_requests blocked_by_rule
       blocked_by_country blocked_by_ip top_blocked_uris attack_methods
       hourly_distribution].
  destruct (tally_actions_totals (logs1 ++ logs2) (initial_analysis (logs1 ++ logs2)))
    as (-> & -> & ->).
  destruct (tally_actions_totals logs1 (initial_analysis logs1)) as (-> & -> & ->).
  destruct (tally_actions_totals logs2 (initial_analysis logs2)) as (-> & -> & ->).
  cbn [initial_analysis total_requests blocked_requests allowed_requests].
  rewrite !count_app, length_app, Nat2Z.inj_add.
  split; [reflexivity|]. split; [lia|]. split; [lia|]. split.
  - intros k.
    destruct (tally_actions_tables (logs1 ++ logs2) (initial_analysis (logs1 ++ logs2)) k)
      as (-> & -> & -> & -> & ->).
    destruct (tally_actions_tables logs1 (initial_analysis logs1) k)
      as (-> & -> & -> & -> & ->).
    destruct (tally_actions_tables logs2 (initial_analysis logs2) k)
      as (-> & -> & -> & -> & ->).
    rewrite !count_app. cbn. repeat split; lia.
  - intros h.
    rewrite (tally_hours_get utc_offset _ hs _ h Hhs),
            (tally_hours_get utc_offset _ hs1 _ h Hhs1),
            (tally_hours_get utc_offset _ hs2 _ h Hhs2).
    rewrite count_app. cbn. lia.
Qed.



(** ** The keyword tests *)

Lemma contains_sqli_sql (s : string) :
  PyStr.contains "sqli" s = true -> PyStr.contains "sql" s = true.
Proof.
  rewrite !contains_spec. intros (pre & post & ->).
  exists pre, ("i" ++ post). reflexivity.
Qed.

(** X7. The test for "sqli" never decides a category: an id that holds
    "sqli" holds "sql", so [classify] is the chain of the four tests "sql",
    "xss", "ratelimit", "geo" on the lower-cased id. *)
Theorem sqli_test_is_redundant :
  forall rule_id : string,
    (PyStr.contains "sqli" (PyStr.lower rule_id) = true ->
     PyStr.contains "sql" (PyStr.lower rule_id) = true)
    /\ classify rule_id
       = if PyStr.contains "sql" (PyStr.lower rule_id) then "SQL Injection"
         else if PyStr.contains "xss" (PyStr.lower rule_id) then "Cross-Site Scripting"
         else if PyStr.contains "ratelimit" (PyStr.lower rule_id) then "Rate Limiting"
         else if PyStr.contains "geo" (PyStr.lower rule_id) then "Geographic Block"
         else "Other".
Proof.
  intros rule_id. split; [apply contains_sqli_sql|].
  unfold classify.
  destruct (PyStr.contains "sql" (PyStr.lower rule_id)) eqn:Hsql; [reflexivity|].
  destruct (PyStr.contains "sqli" (PyStr.lower rule_id)) eqn:Hsqli; [|reflexivity].
  apply contains_sqli_sql in Hsqli. congruence.
Qed.

(** ** The fetcher and parser: caps, failures, composition *)

Section ParserFurther.
Variable get_object_text : string -> string + string.
Variable Entry : Type.
Variable json_loads : string -> loads_result Entry.

Let run := download_run get_object_text Entry json_loads.
Let loop' := download_loop get_object_text Entry json_loads.
Let process' := process_file get_object_text Entry json_loads.
Let fresh : Download Entry := {| logs := []; processed_files := 0; stdout := [] |}.

Lemma download_loop_no_cap (log_files : list string) (st : Download Entry) :
  loop' log_files None st = fold_left (fun st f => process' f st) log_files st.
Proof.
  revert st. induction log_files as [|f fs IH]; intros st; [reflexivity|].
  cbn [loop' download_loop cap_reached fold_left]. apply IH.
Qed.

Lemma download_loop_cap_zero (log_files : list string) (st : Download Entry) :
  loop' log_files (Some 0) st = loop' log_files None st.
Proof.
  revert st. induction log_files as [|f fs IH]; intros st; [reflexivity|].
  cbn [loop' download_loop cap_reached Z.eqb negb andb]. apply IH.
Qed.

Lemma download_loop_reached (log_files : list string) (cap : option Z)
    (st : Download Entry) :
  cap_reached cap (processed_files Entry st) = true -> loop' log_files cap st = st.
Proof.
  intros Hcap. destruct log_files as [|f fs]; [reflexivity|].
  cbn [loop' download_loop]. rewrite Hcap. reflexivity.
Qed.

(** X8. A cap of 0 is no cap: the run is the one without a cap, every file
    is tried.  A negative cap stops the loop before the first file: nothing
    is fetched, no entry is returned, and only the summary is printed. *)
Theorem cap_zero_and_negative :
  forall (log_files : list string),
    run log_files (Some 0) = run log_files None
    /\ forall cap : Z,
         cap < 0 ->
         run log_files (Some cap)
         = {| logs := []; processed_files := 0; stdout := [summary_message 0 0] |}.
Proof.
  intros log_files. split.
  - unfold run, download_run. fold loop'. rewrite download_loop_cap_zero. reflexivity.
  - intros cap Hneg. unfold run, download_run. fold loop'.
    rewrite download_loop_reached; [reflexivity|].
    cbn [cap_reached processed_files].
    destruct (Z.eqb_spec cap 0) as [Hz|_]; [lia|].
    destruct (Z.leb_spec cap 0) as [_|Hgt]; [reflexivity | lia].
Qed.

(** Two states with the same entries and the same count. *)
Let same_data (st st' : Download Entry) : Prop :=
  logs Entry st = logs Entry st'
  /\ processed_files Entry st = processed_files Entry st'.

Lemma process_file_same_data (f : string) (st st' : Download Entry) :
  same_data st st' -> same_data (process' f st) (process' f st').
Proof.
  intros [Hlogs Hcount]. unfold process', process_file. rewrite Hlogs, Hcount.
  destruct (get_object_text f) as [content|message]; [|split; reflexivity].
  destruct (parse_lines _ _ _ _) as [logs' [message|]]; split; reflexivity.
Qed.

Lemma download_loop_same_data (log_files : list string) (cap : option Z)
    (st st' : Download Entry) :
  same_data st st' -> same_data (loop' log_files cap st) (loop' log_files cap st').
Proof.
  revert st st'. induction log_files as [|f fs IH]; intros st st' Hsame; [exact Hsame|].
  cbn [loop' download_loop]. destruct Hsame as [Hlogs Hcount]. rewrite Hcount.
  destruct (cap_reached cap _); [split; assumption|].
  apply IH. apply process_file_same_data. split; assumption.
Qed.

Lemma process_file_unfetchable (f : string) (st : Download Entry) :
  fetchable get_object_text f = false -> same_data (process' f st) st.
Proof.
  unfold fetchable, process', process_file.
  destruct (get_object_text f); [discriminate|]. intros _. split; reflexivity.
Qed.

Lemma download_loop_skip_unfetchable (log_files : list string) (cap : option Z)
    (st : Download Entry) :
  same_data (loop' log_files cap st)
            (loop' (filter (fetchable get_object_text) log_files) cap st).
Proof.
  revert st. induction log_files as [|f fs IH]; intros st; [split; reflexivity|].
  cbn [loop' download_loop filter].
  destruct (cap_reached cap (processed_files Entry st)) eqn:Hcap.
  - fold loop'. rewrite download_loop_reached by exact Hcap. split; reflexivity.
  - destruct (fetchable get_object_text f) eqn:Hf.
    + cbn [loop' download_loop]. rewrite Hcap. apply IH.
    + fold loop' process'.
      destruct (download_loop_same_data fs cap _ _ (process_file_unfetchable f st Hf))
        as [Hl Hc].
      destruct (IH st) as [Hl' Hc']. split; congruence.
Qed.

(** X9. A file that cannot be fetched or decompressed leaves no trace in
    the result: with any cap, the entries returned and the count of
    processed files are those of the run over the sequence without the keys
    that fail; in particular such a file does not use up the cap. *)
Theorem unfetchable_files_are_skipped :
  forall (log_files : list string) (cap : option Z),
    download_and_parse_logs get_object_text Entry json_loads log_files cap
    = download_and_parse_logs get_object_text Entry json_loads
        (filter (fetchable get_object_text) log_files) cap
    /\ processed_files Entry (run log_files cap)
       = processed_files Entry (run (filter (fetchable get_object_text) log_files) cap).
Proof.
  intros log_files cap.
  destruct (download_loop_skip_unfetchable log_files cap fresh) as [Hl Hc].
  unfold download_and_parse_logs, run, download_run. cbn [logs processed_files].
  split; assumption.
Qed.

Lemma parse_lines_from (lines : list string) (entries : list Entry) :
  parse_lines Entry json_loads lines entries
  = ((entries ++ fst (parse_lines Entry json_loads lines []))%list,
     snd (parse_lines Entry json_loads lines [])).
Proof.
  revert entries. induction lines as [|line lines IH]; intros entries; cbn [parse_lines].
  - cbn. rewrite app_nil_r. reflexivity.
  - destruct (String.eqb line ""); [apply IH|].
    destruct (json_loads line) as [entry| |message].
    + cbn [app]. rewrite (IH (entries ++ [entry])%list), (IH [entry]). cbn [fst snd].
      rewrite <- app_assoc. reflexivity.
    + apply IH.
    + cbn. rewrite app_nil_r. reflexivity.
Qed.

Lemma process_file_from (f : string) (st : Download Entry) :
  logs Entry (process' f st)
  = (logs Entry st ++ logs Entry (process' f fresh))%list
  /\ processed_files Entry (process' f st)
     = processed_files Entry st + processed_files Entry (process' f fresh).
Proof.
  unfold process', process_file.
  destruct (get_object_text f) as [content|message].
  - rewrite (parse_lines_from _ (logs Entry st)). cbn [fresh logs].
    destruct (parse_lines Entry json_loads _ []) as [found [message|]];
      cbn; split; auto; lia.
  - cbn. rewrite app_nil_r. split; [reflexivity | lia].
Qed.

Lemma download_loop_from (log_files : list string) (st : Download Entry) :
  logs Entry (loop' log_files None st)
  = (logs Entry st ++ logs Entry (loop' log_files None fresh))%list
  /\ processed_files Entry (loop' log_files None st)
     = processed_files Entry st + processed_files Entry (loop' log_files None fresh).
Proof.
  revert st. induction log_files as [|f fs IH]; intros st.
  - cbn. rewrite app_nil_r. split; [reflexivity | lia].
  - cbn [loop' download_loop cap_reached]. fold loop' process'.
    destruct (IH (process' f st)) as [Hl Hc].
    destruct (IH (process' f fresh)) as [Hl' Hc'].
    destruct (process_file_from f st) as [Hp Hq].
    rewrite Hl, Hc, Hl', Hc', Hp, Hq. rewrite <- app_assoc. split; [reflexivity | lia].
Qed.

(** X10. Without a cap the parser works file by file: the entries returned
    for two key sequences one after the other are those of the first
    followed by those of the second, and the counts of processed files add
    up. *)
Theorem download_of_concatenation :
  forall (files1 files2 : list string),
    download_and_parse_logs get_object_text Entry json_loads (files1 ++ files2) None
    = (download_and_parse_logs get_object_text Entry json_loads files1 None
       ++ download_and_parse_logs get_object_text Entry json_loads files2 None)%list
    /\ processed_files Entry (run (files1 ++ files2) None)
       = processed_files Entry (run files1 None) + processed_files Entry (run files2 None).
Proof.
  intros files1 files2.
  unfold download_and_parse_logs, run, download_run. cbn [logs processed_files].
  fold loop' fresh.
  assert (Happ : loop' (files1 ++ files2) None fresh
                 = loop' files2 None (loop' files1 None fresh)).
  { rewrite !download_loop_no_cap. apply fold_left_app. }
  rewrite Happ.
  destruct (download_loop_from files2 (loop' files1 None fresh)) as [Hl Hc].
  split; assumption.
Qed.

(** X11. When a line of a file makes the decoder raise something other than
    [JSONDecodeError], the entries of the valid lines before it stay in the
    result, the lines after it are not read, the file is not counted as
    processed, and the message is printed after the "Processing" line. *)
Theorem other_exception_keeps_earlier_entries :
  forall (log_file content message bad : string) (before after : list string)
         (entries : list Entry) (st : Download Entry),
    get_object_text log_file = inl content ->
    PyStr.split_lines (PyStr.strip content) = (before ++ bad :: after)%list ->
    Interleaved Entry json_loads before entries ->
    bad <> "" ->
    json_loads bad = OtherError message ->
    process' log_file st
    = {| logs := (logs Entry st ++ entries)%list;
         processed_files := processed_files Entry st;
         stdout := (stdout Entry st
                    ++ [processing_message log_file;
                        error_message log_file message])%list |}.
Proof.
  intros log_file content message bad before after entries st Hget Hsplit Hbefore
         Hne Hbad.
  unfold process', process_file. rewrite Hget, Hsplit.
  assert (Hparse : forall acc,
             parse_lines Entry json_loads (before ++ bad :: after) acc
             = ((acc ++ entries)%list, Some message)).
  { clear Hsplit. induction Hbefore as [|line entry lines es Hl Hload _ IH
                                        |line lines es Hload _ IH
                                        |lines es _ IH]; intros acc;
      cbn [app parse_lines].
    - apply String.eqb_neq in Hne. rewrite Hne, Hbad, app_nil_r. reflexivity.
    - apply String.eqb_neq in Hl. rewrite Hl, Hload, IH, <- app_assoc. reflexivity.
    - destruct (String.eqb line ""); [apply IH|]. rewrite Hload. apply IH.
    - apply IH. }
  rewrite Hparse. rewrite <- app_assoc. reflexivity.
Qed.

Lemma process_file_count (f : string) (st : Download Entry) :
  processed_files Entry st <= processed_files Entry (process' f st)
  <= processed_files Entry st + 1.
Proof.
  unfold process', process_file.
  destruct (get_object_text f) as [content|message]; cbn; [|lia].
  destruct (parse_lines _ _ _ _) as [logs' [message|]]; cbn; lia.
Qed.

Lemma download_loop_count (log_files : list string) (cap : option Z)
    (st : Download Entry) :
  processed_files Entry st <= processed_files Entry (loop' log_files cap st)
  <= processed_files Entry st + Z.of_nat (List.length log_files).
Proof.
  revert st. induction log_files as [|f fs IH]; intros st.
  - cbn. lia.
  - cbn [loop' download_loop]. destruct (cap_reached cap _).
    + cbn [List.length]. lia.
    + fold loop' process'. pose proof (IH (process' f st)) as Hrest.
      pose proof (process_file_count f st) as Hstep.
      cbn [List.length]. lia.
Qed.

(** X12. With any cap, the count of processed files lies between 0 and the
    number of keys given, and the summary printed last reports that count
    and the number of entries returned. *)
Theorem processed_count_bounds :
  forall (log_files : list string) (cap : option Z),
    0 <= processed_files Entry (run log_files cap) <= Z.of_nat (List.length log_files)
    /\ last (stdout Entry (run log_files cap)) ""
       = summary_message (processed_files Entry (run log_files cap))
           (Z.of_nat (List.length
                        (download_and_parse_logs get_object_text Entry json_loads
                           log_files cap))).
Proof.
  intros log_files cap. unfold download_and_parse_logs, run, download_run.
  cbn [processed_files stdout logs]. fold loop' fresh. split.
  - pose proof (download_loop_count log_files cap fresh) as Hb. cbn in Hb. lia.
  - apply last_last.
Qed.

Lemma lstrip_all_space (s : string) : all_space s = true -> PyStr.lstrip s = "".
Proof.
  induction s as [|c s IH]; simpl; [reflexivity|].
  destruct (PyStr.isspace c); [exact IH | discriminate].
Qed.

(** X13. A file whose text is empty or white space only gives no entry and
    no message, and still counts as processed. *)
Theorem blank_file_counts_as_processed :
  forall (log_file content : string) (st : Download Entry),
    get_object_text log_file = inl content ->
    all_space content = true ->
    process' log_file st
    = {| logs := logs Entry st;
         processed_files := processed_files Entry st + 1;
         stdout := (stdout Entry st ++ [processing_message log_file])%list |}.
Proof.
  intros log_file content st Hget Hblank.
  unfold process', process_file. rewrite Hget.
  unfold PyStr.strip. rewrite (lstrip_all_space content Hblank). reflexivity.
Qed.

End ParserFurther.

(** ** The locator: ranges and listings *)

Section LocatorFurther.
Variable list_objects_v2 : string -> listing.

Lemma collect_days_overflow (n : nat) (current : Z) (acc : list string) :
  n <> O -> PyDate.MAXORDINAL < current + Z.of_nat n ->
  collect_days list_objects_v2 n current acc = None.
Proof.
  revert current acc. induction n as [|n IH]; intros current acc Hn Hover; [congruence|].
  cbn [collect_days]. unfold PyDate.next_day.
  destruct (Z.leb_spec (current + 1) PyDate.MAXORDINAL) as [Hle|Hgt]; [|reflexivity].
  apply IH; [|lia]. destruct n; [lia | discriminate].
Qed.

(** X14. The locator raises instead of returning exactly when the range is
    not empty and ends on 9999-12-31 or later: stepping past the last day of
    the range then overflows the date, whatever the listings hold. *)
Theorem get_log_files_overflows :
  forall (start_date end_date : Z),
    get_log_files list_objects_v2 start_date end_date = None
    <-> start_date <= end_date /\ PyDate.MAXORDINAL <= end_date.
Proof.
  intros start_date end_date. unfold get_log_files. split.
  - intros Hnone.
    destruct (Z.le_gt_cases start_date end_date) as [Hle|Hgt].
    + split; [exact Hle|].
      destruct (Z.le_gt_cases PyDate.MAXORDINAL end_date) as [Hmax|Hlt]; [exact Hmax|].
      destruct (collect_days_defined list_objects_v2
                  (Z.to_nat (end_date - start_date + 1)) start_date [])
        as [collected Hrun]; [lia|].
      rewrite Hrun in Hnone. discriminate.
    + replace (Z.to_nat (end_date - start_date + 1)) with O in Hnone by lia.
      discriminate.
  - intros [Hle Hmax].
    rewrite collect_days_overflow; [reflexivity | lia | lia].
Qed.

(** X15. An empty range, its end before its start, gives the empty key
    sequence, whatever the listings hold. *)
Theorem get_log_files_empty_range :
  forall (start_date end_date : Z),
    end_date < start_date ->
    get_log_files list_objects_v2 start_date end_date = Some [].
Proof.
  intros start_date end_date Hlt. unfold get_log_files.
  replace (Z.to_nat (end_date - start_date + 1)) with O by lia. reflexivity.
Qed.

End LocatorFurther.

Lemma day_keys_listed (list_objects_v2 : string -> listing) (day : Z) :
  day_keys list_objects_v2 day
  = filter (fun key => PyStr.endswith key ".gz")
      (listed (list_objects_v2 (day_prefix day))).
Proof.
  unfold day_keys, listed.
  destruct (list_objects_v2 (day_prefix day)) as [message|[contents|]]; reflexivity.
Qed.

(** X16. A listing that fails, and a response without ['Contents'], count as
    a day without keys: two stores whose listings give the same keys for
    every prefix, however they fail where they give none, yield the same key
    sequence. *)
Theorem listing_failures_are_empty_days :
  forall (listing1 listing2 : string -> listing) (start_date end_date : Z),
    (forall prefix, listed (listing1 prefix) = listed (listing2 prefix)) ->
    get_log_files listing1 start_date end_date
    = get_log_files listing2 start_date end_date.
Proof.
  intros listing1 listing2 start_date end_date Hsame. unfold get_log_files.
  assert (Hcollect : forall n current acc,
             collect_days listing1 n current acc = collect_days listing2 n current acc).
  { induction n as [|n IH]; intros current acc; [reflexivity|].
    cbn [collect_days]. rewrite !day_keys_listed, Hsame.
    destruct (PyDate.next_day current); [apply IH | reflexivity]. }
  rewrite Hcollect. reflexivity.
Qed.

(** ** The report: order, length, text *)

Section TopLists.
Context {K : Type}.

Let by_count (a b : K * Z) : bool := snd b <=? snd a.

Lemma by_count_total (a b : K * Z) : by_count a b = true \/ by_count b a = true.
Proof. unfold by_count. destruct (Z.leb_spec (snd b) (snd a)); [left | right; apply Z.leb_le]; lia. Qed.

Lemma insert_with_count (c : Z) (x : K * Z) (l : list (K * Z)) :
  with_count c (insert_sorted by_count x l) = with_count c (x :: l).
Proof.
  unfold with_count. induction l as [|y l IH]; [reflexivity|].
  cbn [insert_sorted]. unfold by_count at 1.
  destruct (Z.leb_spec (snd y) (snd x)) as [Hle|Hgt]; [reflexivity|].
  cbn [filter] in *. rewrite IH.
  destruct (Z.eqb_spec (snd x) c) as [Hx|Hx]; [|reflexivity].
  destruct (Z.eqb_spec (snd y) c) as [Hy|Hy]; [lia | reflexivity].
Qed.

(** X17. The sort the report and the charts apply to a table is stable and
    descending: the sorted list is a rearrangement of the entries with the
    larger counts first, and the entries of equal count keep the order they
    have in the table, which is the order of first appearance. *)
Theorem sorted_by_count_stable :
  forall (d : Counter.t K),
    Permutation d (sorted_by_count d)
    /\ Sorted count_ge (sorted_by_count d)
    /\ forall c : Z, with_count c (sorted_by_count d) = with_count c d.
Proof.
  intros d. unfold sorted_by_count. fold by_count. split; [|split].
  - apply py_sorted_Permutation.
  - pose proof (py_sorted_Sorted by_count by_count_total d) as Hs.
    eapply Sorted_ind with (P := fun l => Sorted count_ge l); [constructor | | exact Hs].
    intros a l _ IH Hhd. constructor; [exact IH|].
    destruct Hhd as [|b l' Hab]; constructor.
    unfold by_count in Hab. apply Z.leb_le in Hab. exact Hab.
  - intros c. induction d as [|x d IH]; [reflexivity|].
    cbn [py_sorted fold_right]. rewrite insert_with_count.
    unfold with_count in *. cbn [filter]. unfold py_sorted in IH. rewrite IH.
    reflexivity.
Qed.

Lemma sorted_by_count_length (d : Counter.t K) :
  List.length (sorted_by_count d) = List.length d.
Proof.
  symmetry. apply Permutation_length. unfold sorted_by_count.
  apply py_sorted_Permutation.
Qed.

End TopLists.

Lemma top10_lines_length (d : Counter.t string) :
  List.length (Report.top10_lines d) = Nat.min 10 (List.length d).
Proof.
  unfold Report.top10_lines.
  rewrite length_map, length_firstn, sorted_by_count_length. reflexivity.
Qed.

Lemma method_lines_length (blocked : Z) (items : list (string * Z)) (lines : list string) :
  Report.method_lines blocked items = Some lines ->
  List.length lines = List.length items.
Proof.
  revert lines. induction items as [|item items IH]; intros lines; cbn [Report.method_lines].
  - intros [= <-]. reflexivity.
  - destruct (Report.method_line blocked item); [|discriminate].
    destruct (Report.method_lines blocked items) as [rest|]; [|discriminate].
    intros [= <-]. cbn [List.length]. f_equal. apply IH. reflexivity.
Qed.

(** X18. The report has a fixed frame: 25 lines of banner, headings, counts
    and separators, one more for the block rate when [total_requests] is
    positive, at most ten lines for each of the rule, country, IP and URI
    tables, and one line for every attack method. *)
Theorem report_length :
  forall (now : string) (a : Analysis) (lines : list string),
    Report.report_lines now a = Some lines ->
    List.length lines
    = (25 + (if (0 <? total_requests a)%Z then 1 else 0)
       + Nat.min 10 (List.length (blocked_by_rule a))
       + Nat.min 10 (List.length (blocked_by_country a))
       + Nat.min 10 (List.length (blocked_by_ip a))
       + List.length (attack_methods a)
       + Nat.min 10 (List.length (top_blocked_uris a)))%nat.
Proof.
  intros now a lines. unfold Report.report_lines, Report.block_rate_lines.
  destruct (0 <? total_requests a).
  - destruct (PyNum.true_div _ _) as [q|]; [|discriminate].
    destruct (Report.method_lines _ _) as [methods|] eqn:Hm; [|discriminate].
    intros [= <-]. apply method_lines_length in Hm.
    rewrite sorted_by_count_length in Hm.
    repeat first [rewrite length_app | progress cbn [List.length]].
    rewrite !top10_lines_length, Hm. lia.
  - destruct (Report.method_lines _ _) as [methods|] eqn:Hm; [|discriminate].
    intros [= <-]. apply method_lines_length in Hm.
    rewrite sorted_by_count_length in Hm.
    repeat first [rewrite length_app | progress cbn [List.length]].
    rewrite !top10_lines_length, Hm. lia.
Qed.

(** X19. When [blocked_requests] is 0 or less, no share is computed: every
    attack-method line shows the share 0.0%, and the lines are always
    produced. *)
Theorem method_share_without_blocked :
  forall (blocked : Z) (items : list (string * Z)),
    blocked <= 0 ->
    Report.method_lines blocked items
    = Some (map (fun item =>
                   fst item ++ ": " ++ PyNum.fmt_comma (snd item) ++ " (0.0%)")
              items).
Proof.
  intros blocked items Hle.
  induction items as [|item items IH]; cbn [Report.method_lines map]; [reflexivity|].
  rewrite IH. unfold Report.method_line.
  destruct (Z.ltb_spec 0 blocked) as [Hlt|_]; [lia|]. reflexivity.
Qed.

Lemma split_lines_nonempty (s : string) : PyStr.split_lines s <> [].
Proof.
  destruct s as [|c s]; cbn [PyStr.split_lines]; [discriminate|].
  destruct (Ascii.eqb c PyStr.newline); [discriminate|].
  destruct (PyStr.split_lines s); discriminate.
Qed.

Lemma join_split_lines (s : string) : PyStr.join_lines (PyStr.split_lines s) = s.
Proof.
  induction s as [|c s IH]; [reflexivity|].
  cbn [PyStr.split_lines].
  destruct (Ascii.eqb_spec c PyStr.newline) as [->|Hne].
  - pose proof (split_lines_nonempty s) as Hnil.
    destruct (PyStr.split_lines s) as [|l ls]; [congruence|].
    cbn [PyStr.join_lines String.append]. cbn [PyStr.join_lines] in IH.
    rewrite IH. reflexivity.
  - pose proof (split_lines_nonempty s) as Hnil.
    destruct (PyStr.split_lines s) as [|l ls]; [congruence|].
    destruct ls as [|l' ls].
    + cbn [PyStr.join_lines] in *. rewrite IH. reflexivity.
    + cbn [PyStr.join_lines String.append] in *. rewrite IH. reflexivity.
Qed.

Lemma split_lines_line (l rest : string) :
  no_newline l = true ->
  PyStr.split_lines (l ++ String PyStr.newline rest) = l :: PyStr.split_lines rest.
Proof.
  induction l as [|c l IH]; cbn [no_newline String.append PyStr.split_lines].
  - intros _. reflexivity.
  - intros Hc. apply andb_true_iff in Hc. destruct Hc as [Hc Hl].
    apply negb_true_iff in Hc. rewrite Hc, (IH Hl). reflexivity.
Qed.

Lemma split_lines_single (l : string) :
  no_newline l = true -> PyStr.split_lines l = [l].
Proof.
  induction l as [|c l IH]; cbn [no_newline PyStr.split_lines]; [reflexivity|].
  intros Hc. apply andb_true_iff in Hc. destruct Hc as [Hc Hl].
  apply negb_true_iff in Hc. rewrite Hc, (IH Hl). reflexivity.
Qed.

Lemma split_join_lines (ls : list string) :
  ls <> [] -> Forall (fun l => no_newline l = true) ls ->
  PyStr.split_lines (PyStr.join_lines ls) = ls.
Proof.
  induction ls as [|l ls IH]; [congruence|]. intros _ Hall.
  inversion Hall as [|? ? Hl Hrest]; subst.
  destruct ls as [|l' ls].
  - cbn [PyStr.join_lines]. apply split_lines_single. exact Hl.
  - change (PyStr.join_lines (l :: l' :: ls))
      with (l ++ String PyStr.newline (PyStr.join_lines (l' :: ls))).
    rewrite (split_lines_line _ _ Hl). f_equal. apply IH; [discriminate | exact Hrest].
Qed.

(** X20. The text the renderer returns is its lines joined by newlines, and
    cutting the text at newlines gives the lines back as long as none of
    them holds a newline (a key of a table could). *)
Theorem report_text_round_trip :
  forall (now : string) (a : Analysis) (text : string),
    Report.generate_report now a = Some text ->
    exists lines : list string,
      Report.report_lines now a = Some lines
      /\ text = PyStr.join_lines lines
      /\ PyStr.join_lines (PyStr.split_lines text) = text
      /\ (Forall (fun l => no_newline l = true) lines ->
          PyStr.split_lines text = lines).
Proof.
  intros now a text. unfold Report.generate_report.
  destruct (Report.report_lines now a) as [lines|] eqn:Hlines; [|discriminate].
  intros [= <-]. exists lines. split; [reflexivity|]. split; [reflexivity|].
  split; [apply join_split_lines|].
  intros Hall. apply split_join_lines; [|exact Hall].
  apply report_lines_inv in Hlines. destruct Hlines as (rate & rest & _ & ->).
  discriminate.
Qed.

(** ** The top lists *)

Lemma strongly_sorted_split {A : Type} (R : A -> A -> Prop) (n : nat) (l : list A) :
  StronglySorted R l ->
  forall x y, In x (firstn n l) -> In y (skipn n l) -> R x y.
Proof.
  revert n. induction l as [|a l IH]; intros n Hs x y Hx Hy.
  - destruct n; destruct Hy.
  - destruct n as [|n]; [destruct Hx|].
    apply StronglySorted_inv in Hs. destruct Hs as [Hs Hall].
    cbn [firstn skipn] in Hx, Hy. destruct Hx as [<-|Hx].
    + rewrite Forall_forall in Hall. apply Hall.
      rewrite <- (firstn_skipn n l). apply in_or_app. right. exact Hy.
    + exact (IH n Hs x y Hx Hy).
Qed.

Lemma sorted_by_count_strongly {K : Type} (d : Counter.t K) :
  StronglySorted count_ge (sorted_by_count d).
Proof.
  apply Sorted_StronglySorted.
  - intros x y z Hxy Hyz. unfold count_ge in *. lia.
  - unfold sorted_by_count.
    pose proof (py_sorted_Sorted (fun a b : K * Z => snd b <=? snd a)) as Hs.
    assert (Htotal : forall a b : K * Z,
               (snd b <=? snd a) = true \/ (snd a <=? snd b) = true).
    { intros a b. destruct (Z.leb_spec (snd b) (snd a)); [left | right; apply Z.leb_le]; lia. }
    specialize (Hs Htotal d).
    eapply Sorted_ind with (P := fun l => Sorted count_ge l); [constructor | | exact Hs].
    intros a l _ IH Hhd. constructor; [exact IH|].
    destruct Hhd as [|b l' Hab]; constructor. apply Z.leb_le in Hab. exact Hab.
Qed.

(** X21. The top list of a table, as the report prints it and the charts
    draw it, holds at most ten entries of the table, and they are the
    largest: every entry left out has a count no greater than every entry
    kept. *)
Theorem top10_holds_the_largest :
  forall (d : Counter.t string),
    (List.length (Charts.top10 d) <= 10)%nat
    /\ List.length (Charts.top10 d) = Nat.min 10 (List.length d)
    /\ Report.top10_lines d = map Report.blocks_line (Charts.top10 d)
    /\ exists rest : list (string * Z),
         Permutation d (Charts.top10 d ++ rest)
         /\ forall kept left_out,
              In kept (Charts.top10 d) -> In left_out rest ->
              snd left_out <= snd kept.
Proof.
  intros d. unfold Charts.top10.
  assert (Hlen : List.length (firstn 10 (sorted_by_count d))
                 = Nat.min 10 (List.length d)).
  { rewrite length_firstn, sorted_by_count_length. reflexivity. }
  split; [rewrite Hlen; apply Nat.le_min_l|]. split; [exact Hlen|].
  split; [reflexivity|].
  exists (skipn 10 (sorted_by_count d)). split.
  - rewrite firstn_skipn. unfold sorted_by_count. apply py_sorted_Permutation.
  - intros kept left_out Hk Hl.
    exact (strongly_sorted_split count_ge 10 _ (sorted_by_count_strongly d) _ _ Hk Hl).
Qed.

(** ** The charts *)

Lemma get_not_in (k : Z) (d : Counter.t Z) :
  ~ In k (Counter.keys d) -> Counter.get k d = 0.
Proof.
  unfold Counter.keys. induction d as [|[k0 v] d IH]; cbn; [reflexivity|].
  intros Hnot. destruct (Z.eqb_spec k k0) as [->|Hne]; [tauto|]. apply IH. tauto.
Qed.

Lemma sum_map_other (k v : Z) (f : Z -> Z) (l : list Z) :
  ~ In k l ->
  sum (map (fun h => if h =? k then v else f h) l) = sum (map f l).
Proof.
  unfold sum. induction l as [|h l IH]; cbn -[Z.add]; [reflexivity|].
  intros Hnot. destruct (Z.eqb_spec h k) as [->|Hne]; [tauto|].
  rewrite IH; tauto.
Qed.

Lemma sum_map_one (k v : Z) (f : Z -> Z) (l : list Z) :
  NoDup l -> In k l ->
  sum (map (fun h => if h =? k then v else f h) l) = v + sum (map f l) - f k.
Proof.
  unfold sum. induction l as [|h l IH]; cbn -[Z.add]; [tauto|].
  intros Hnd Hin. inversion Hnd as [|? ? Hnot Hnd']; subst.
  destruct (Z.eqb_spec h k) as [->|Hne].
  - pose proof (sum_map_other k v f l Hnot) as Hrest. unfold sum in Hrest.
    rewrite Hrest. lia.
  - destruct Hin as [Heq|Hin]; [congruence|]. rewrite (IH Hnd' Hin). lia.
Qed.

Lemma sum_get_over (d : Counter.t Z) (l : list Z) :
  NoDup (Counter.keys d) -> NoDup l ->
  (forall k, In k (Counter.keys d) -> In k l) ->
  sum (map (fun h => Counter.get h d) l) = Counter.total d.
Proof.
  intros Hkeys Hl. unfold Counter.keys, Counter.total, Counter.values in *.
  induction d as [|[k v] d IH]; intros Hin.
  - clear. unfold sum. induction l as [|h l IHl]; cbn; [reflexivity | exact IHl].
  - cbn [map fst snd fold_right] in *. inversion Hkeys as [|? ? Hnot Hkeys']; subst.
    change (fun h => Counter.get h ((k, v) :: d))
      with (fun h => if h =? k then v else Counter.get h d).
    rewrite (sum_map_one k v _ l Hl); [|apply Hin; left; reflexivity].
    rewrite (IH Hkeys'); [|intros k' Hk'; apply Hin; right; exact Hk'].
    rewrite (get_not_in k d Hnot). lia.
Qed.

Lemma hours_NoDup : NoDup Charts.hours.
Proof.
  unfold Charts.hours. apply Finite.Injective_map_NoDup; [|apply seq_NoDup].
  intros x y Heq. lia.
Qed.

(** X22. For every result the aggregator returns, the series of the hourly
    chart has one value for each hour from 0 to 23, and the 24 values sum to
    [total_requests]: no request is missing from the chart. *)
Theorem hourly_chart_covers_all_requests :
  forall (utc_offset : Z -> Z) (logs : list LogRecord) (a : Analysis),
    analyze_threat_patterns utc_offset logs = Some a ->
    List.length (Charts.hourly_counts a) = 24%nat
    /\ sum (Charts.hourly_counts a) = total_requests a
    /\ forall h, 0 <= h < 24 ->
         nth_error (Charts.hourly_counts a) (Z.to_nat h)
         = Some (Counter.get h (hourly_distribution a)).
Proof.
  intros utc_offset logs a Hrun.
  pose proof (analyze_tables_well_formed utc_offset logs a Hrun)
    as (_ & _ & _ & _ & _ & [Hnd _]).
  apply analyze_result in Hrun. destruct Hrun as (hs & Hhs & ->).
  cbn [set_hourly hourly_distribution total_requests] in *.
  split; [reflexivity|]. split.
  - unfold Charts.hourly_counts. cbn [set_hourly hourly_distribution].
    rewrite (sum_get_over _ Charts.hours Hnd hours_NoDup).
    + rewrite tally_hours_total, (hours_of_length utc_offset logs hs Hhs).
      destruct (tally_actions_totals logs (initial_analysis logs)) as (-> & _).
      reflexivity.
    + intros k Hk. apply hours_In. revert k Hk.
      apply (tally_hours_preserves
               (fun d => forall h, In h (Counter.keys d) -> 0 <= h < 24)
               (fun h => 0 <= h < 24)).
      * intros h d Hh Hd k. rewrite keys_incr_In. intros [->|Hin]; auto.
      * exact (hours_of_range utc_offset logs hs Hhs).
      * intros h [].
  - intros h Hh. unfold Charts.hourly_counts, Charts.hours.
    rewrite nth_error_map, nth_error_map.
    rewrite (nth_error_nth' _ 0%nat); [|rewrite length_seq; lia].
    rewrite seq_nth by lia. cbn [option_map]. f_equal. f_equal. lia.
Qed.

Lemma string_length_app (s t : string) :
  String.length (s ++ t) = (String.length s + String.length t)%nat.
Proof. induction s as [|c s IH]; cbn; [reflexivity | rewrite IH; reflexivity]. Qed.

Lemma substring_length (n : nat) (s : string) :
  String.length (substring 0 n s) = Nat.min n (String.length s).
Proof.
  revert s. induction n as [|n IH]; intros s.
  - destruct s; reflexivity.
  - destruct s as [|c s]; cbn; [reflexivity|]. rewrite IH. reflexivity.
Qed.

Lemma substring_prefix (n : nat) (s : string) :
  exists tail, s = substring 0 n s ++ tail.
Proof.
  revert s. induction n as [|n IH]; intros s.
  - exists s. destruct s; reflexivity.
  - destruct s as [|c s]; [exists ""; reflexivity|].
    destruct (IH s) as [tail Htail]. exists tail. cbn. rewrite <- Htail. reflexivity.
Qed.

(** X23. The label of a rule on the rules chart is the rule id when it has
    at most 30 characters, and otherwise its first 30 characters followed by
    three dots; so no label is longer than 33 characters. *)
Theorem truncate_rule_label :
  forall rule : string,
    (String.length (Charts.truncate_rule rule) <= 33)%nat
    /\ ((String.length rule <= 30)%nat -> Charts.truncate_rule rule = rule)
    /\ ((30 < String.length rule)%nat ->
        exists head tail : string,
          rule = head ++ tail
          /\ String.length head = 30%nat
          /\ tail <> ""
          /\ Charts.truncate_rule rule = head ++ "...").
Proof.
  intros rule. unfold Charts.truncate_rule.
  destruct (Nat.ltb_spec 30 (String.length rule)) as [Hlong|Hshort].
  - split; [|split].
    + rewrite string_length_app, substring_length.
      change (String.length "...") with 3%nat. lia.
    + lia.
    + intros _. destruct (substring_prefix 30 rule) as [tail Htail].
      exists (substring 0 30 rule), tail.
      assert (Hhead : String.length (substring 0 30 rule) = 30%nat).
      { rewrite substring_length. lia. }
      split; [exact Htail|]. split; [exact Hhead|]. split; [|reflexivity].
      intros ->. rewrite Htail, string_length_app, Hhead in Hlong. cbn in Hlong. lia.
  - split; [lia|]. split; [reflexivity | lia].
Qed.

Lemma combine_unzip (pairs : list (string * Z)) :
  combine (fst (Charts.unzip pairs)) (snd (Charts.unzip pairs)) = pairs.
Proof.
  unfold Charts.unzip. cbn [fst snd].
  induction pairs as [|[k v] pairs IH]; cbn; [reflexivity | rewrite IH; reflexivity].
Qed.

Lemma save_charts_spec (plots : Charts.chart -> bool)
    (planned : list (string * Charts.chart)) :
  (snd (Charts.save_charts plots planned) = false
   /\ fst (Charts.save_charts plots planned) = planned
   /\ Forall (fun item => plots (snd item) = true) planned)
  \/ (snd (Charts.save_charts plots planned) = true
      /\ exists file c later,
           planned = (fst (Charts.save_charts plots planned) ++ (file, c) :: later)%list
           /\ plots c = false
           /\ Forall (fun item => plots (snd item) = true)
                (fst (Charts.save_charts plots planned))).
Proof.
  induction planned as [|[file c] planned IH]; cbn [Charts.save_charts].
  - left. repeat split. constructor.
  - destruct (plots c) eqn:Hc.
    + destruct (Charts.save_charts plots planned) as [saved raised].
      cbn [fst snd] in *.
      destruct IH as [(-> & -> & Hall) | (-> & f & c' & later & Hsplit & Hc' & Hall)].
      * left. repeat split. constructor; assumption.
      * right. split; [reflexivity|]. exists f, c', later.
        split; [cbn; rewrite <- Hsplit; reflexivity|].
        split; [exact Hc'|]. constructor; assumption.
    + right. cbn [fst snd]. split; [reflexivity|].
      exists file, c, planned. repeat split; [exact Hc | constructor].
Qed.

(** X24. Without the plotting libraries nothing is saved.  With them, the
    method plans five charts under the output directory, in a fixed order:
    the bars of the country chart are the top list of the country table,
    label by label and count by count, those of the rule chart the top list
    of the rule table with the labels shortened, and the pie of attack
    methods has one slice for each entry of that table.  The charts are
    saved in that order up to the first one the plotting library refuses to
    draw: all five are saved exactly when it draws them all, and otherwise
    the method raises, having saved those before the refused chart only and
    without printing its closing line. *)
Theorem charts_saved :
  forall (plots : Charts.chart -> bool) (a : Analysis) (output_dir : string),
    (Charts.saved (Charts.create_visualizations false plots a output_dir) = []
     /\ Charts.raised (Charts.create_visualizations false plots a output_dir) = false)
    /\ exists countries country_counts methods method_counts rules rule_counts,
         let drawing := Charts.create_visualizations true plots a output_dir in
         let planned :=
           [(output_dir ++ "/request_distribution.png",
             Charts.Pie ["Blocked"; "Allowed"] [blocked_requests a; allowed_requests a]);
            (output_dir ++ "/top_countries.png", Charts.Bar countries country_counts);
            (output_dir ++ "/attack_methods.png", Charts.Pie methods method_counts);
            (output_dir ++ "/hourly_distribution.png",
             Charts.Line Charts.hours (Charts.hourly_counts a));
            (output_dir ++ "/top_rules.png",
             Charts.BarH (map Charts.truncate_rule rules) rule_counts)] in
         combine countries country_counts = Charts.top10 (blocked_by_country a)
         /\ combine rules rule_counts = Charts.top10 (blocked_by_rule a)
         /\ combine methods method_counts = attack_methods a
         /\ (Charts.raised drawing = false
             <-> Forall (fun item => plots (snd item) = true) planned)
         /\ (Charts.raised drawing = false ->
             Charts.saved drawing = planned
             /\ Charts.printed drawing = ["Visualizations saved to " ++ output_dir ++ "/"])
         /\ (Charts.raised drawing = true ->
             Charts.printed drawing = []
             /\ exists file c later,
                  planned = (Charts.saved drawing ++ (file, c) :: later)%list
                  /\ plots c = false
                  /\ Forall (fun item => plots (snd item) = true)
                       (Charts.saved drawing)).
Proof.
  intros plots a output_dir. split; [split; reflexivity|].
  exists (fst (Charts.unzip (Charts.top10 (blocked_by_country a)))),
         (snd (Charts.unzip (Charts.top10 (blocked_by_country a)))),
         (Counter.keys (attack_methods a)), (Counter.values (attack_methods a)),
         (fst (Charts.unzip (Charts.top10 (blocked_by_rule a)))),
         (snd (Charts.unzip (Charts.top10 (blocked_by_rule a)))).
  cbv zeta. rewrite !combine_unzip.
  split; [reflexivity|]. split; [reflexivity|]. split.
  { unfold Counter.keys, Counter.values.
    induction (attack_methods a) as [|[k v] d IH]; cbn;
      [reflexivity | rewrite IH; reflexivity]. }
  unfold Charts.create_visualizations. cbn [negb].
  change (Charts.planned_charts a output_dir)
    with [(output_dir ++ "/request_distribution.png",
           Charts.Pie ["Blocked"; "Allowed"] [blocked_requests a; allowed_requests a]);
          (output_dir ++ "/top_countries.png",
           Charts.Bar (fst (Charts.unzip (Charts.top10 (blocked_by_country a))))
                      (snd (Charts.unzip (Charts.top10 (blocked_by_country a)))));
          (output_dir ++ "/attack_methods.png",
           Charts.Pie (Counter.keys (attack_methods a))
                      (Counter.values (attack_methods a)));
          (output_dir ++ "/hourly_distribution.png",
           Charts.Line Charts.hours (Charts.hourly_counts a));
          (output_dir ++ "/top_rules.png",
           Charts.BarH (map Charts.truncate_rule
                          (fst (Charts.unzip (Charts.top10 (blocked_by_rule a)))))
                       (snd (Charts.unzip (Charts.top10 (blocked_by_rule a)))))].
  set (planned := [_; _; _; _; _]).
  pose proof (save_charts_spec plots planned) as Hspec.
  destruct (Charts.save_charts plots planned) as [saved raised].
  cbn [fst snd Charts.saved Charts.raised Charts.printed] in *.
  destruct Hspec as [(-> & -> & Hall) | (-> & file & c & later & Hsplit & Hc & Hall)].
  - split; [split; [intros _; exact Hall | reflexivity]|].
    split; [intros _; split; reflexivity | discriminate].
  - split; [split; [discriminate|]|].
    + intros Hplanned. rewrite Hsplit in Hplanned.
      apply Forall_app in Hplanned. destruct Hplanned as [_ Hrest].
      inversion Hrest as [|? ? Hhead _]; subst. cbn in Hhead. congruence.
    + split; [discriminate|]. intros _. split; [reflexivity|].
      exists file, c, later. repeat split; assumption.
Qed.

(** Five charts when the library draws them all, fewer when it raises. *)
Lemma charts_are_a_prefix (plots : Charts.chart -> bool) (a : Analysis)
    (output_dir : string) :
  let drawing := Charts.create_visualizations true plots a output_dir in
  (Charts.raised drawing = false -> List.length (Charts.saved drawing) = 5%nat)
  /\ (Charts.raised drawing = true -> (List.length (Charts.saved drawing) < 5)%nat).
Proof.
  cbv zeta. unfold Charts.create_visualizations. cbn [negb].
  assert (Hfive : List.length (Charts.planned_charts a output_dir) = 5%nat)
    by reflexivity.
  pose proof (save_charts_spec plots (Charts.planned_charts a output_dir)) as Hspec.
  destruct (Charts.save_charts plots (Charts.planned_charts a output_dir))
    as [saved raised].
  cbn [fst snd Charts.saved Charts.raised] in *.
  destruct Hspec as [(-> & -> & _) | (-> & file & c & later & Hsplit & _ & _)].
  - split; [intros _; exact Hfive | discriminate].
  - split; [discriminate|]. intros _.
    rewrite Hsplit, length_app in Hfive. cbn [List.length] in Hfive. lia.
Qed.

(** ** The command *)

Section MainFacts.
Variable strptime : string -> option Z.
Variable list_objects_v2 : string -> listing.
Variable get_object_text : string -> string + string.
Variable json_loads : string -> loads_result LogRecord.
Variable utc_offset : Z -> Z.
Variable now : string.
Variable VISUALIZATION_AVAILABLE : bool.
Variable plots : Charts.chart -> bool.

Let main' := main strptime list_objects_v2 get_object_text json_loads utc_offset now
               VISUALIZATION_AVAILABLE plots.

Lemma analyze_total (logs : list LogRecord) (a : Analysis) :
  analyze_threat_patterns utc_offset logs = Some a ->
  total_requests a = Z.of_nat (List.length logs).
Proof.
  intros Hrun. apply analyze_result in Hrun. destruct Hrun as (hs & _ & ->).
  cbn [set_hourly total_requests].
  destruct (tally_actions_totals logs (initial_analysis logs)) as (-> & _).
  reflexivity.
Qed.

Lemma visualize_spec (args : Args) (analysis : Analysis) (text : string) :
  let run := visualize VISUALIZATION_AVAILABLE plots args analysis text in
  let drawing :=
    Charts.create_visualizations true plots analysis (output_charts args) in
  report_text run = Some text
  /\ (no_charts args = true \/ VISUALIZATION_AVAILABLE = false ->
      ended run = Completed /\ charts run = [])
  /\ (no_charts args = false -> VISUALIZATION_AVAILABLE = true ->
      charts run = Charts.saved drawing
      /\ ended run = if Charts.raised drawing then Uncaught else Completed).
Proof.
  unfold visualize. cbv zeta.
  destruct (no_charts args); cbn [negb].
  - repeat split; try discriminate; reflexivity.
  - destruct VISUALIZATION_AVAILABLE.
    + split; [reflexivity|]. split; [intros [H|H]; discriminate|].
      intros _ _. split; reflexivity.
    + repeat split; try discriminate; reflexivity.
Qed.

(** X25. A run that ends normally has printed a report, and a run that
    printed none saved no chart.  A report, when the command prints one, is
    that of a result with at least one request: both dates were read, at
    least one key was found and at least one entry parsed, so the line after
    the three counts of the report is always a block-rate line.  With charts
    switched off or the plotting libraries missing the run then ends
    normally without a chart; otherwise it saves the charts of
    [create_visualizations], and ends normally with five of them, or with
    the exception of the plotting library and fewer than five. *)
Theorem main_reports_a_block_rate :
  forall args : Args,
    (ended (main' args) = Completed -> report_text (main' args) <> None)
    /\ (report_text (main' args) = None -> charts (main' args) = [])
    /\ (report_text (main' args) <> None ->
        exists (start_day end_day : Z) (log_files : list string)
               (analysis : Analysis) (lines : list string) (rate : string),
          strptime (start_date args) = Some start_day
          /\ strptime (end_date args) = Some end_day
          /\ get_log_files list_objects_v2 start_day end_day = Some log_files
          /\ log_files <> []
          /\ analyze_threat_patterns utc_offset
               (download_and_parse_logs get_object_text LogRecord json_loads
                  log_files (max_files args)) = Some analysis
          /\ 0 < total_requests analysis
          /\ Report.report_lines now analysis = Some lines
          /\ report_text (main' args) = Some (PyStr.join_lines lines)
          /\ nth_error lines 10 = Some ("Block Rate: " ++ rate)
          /\ (no_charts args = true \/ VISUALIZATION_AVAILABLE = false ->
              ended (main' args) = Completed /\ charts (main' args) = [])
          /\ (no_charts args = false -> VISUALIZATION_AVAILABLE = true ->
              let drawing :=
                Charts.create_visualizations true plots analysis
                  (output_charts args) in
              charts (main' args) = Charts.saved drawing
              /\ (Charts.raised drawing = false ->
                  ended (main' args) = Completed
                  /\ List.length (charts (main' args)) = 5%nat)
              /\ (Charts.raised drawing = true ->
                  ended (main' args) = Uncaught
                  /\ (List.length (charts (main' args)) < 5)%nat))).
Proof.
  intros args. unfold main', main.
  destruct (strptime (start_date args)) as [start_day|];
    [|cbn; repeat split; try congruence; intros; discriminate].
  destruct (strptime (end_date args)) as [end_day|];
    [|cbn; repeat split; try congruence; intros; discriminate].
  destruct (get_log_files list_objects_v2 start_day end_day) as [log_files|] eqn:Hfiles;
    [|cbn; repeat split; try congruence; intros; discriminate].
  destruct log_files as [|log_file log_files];
    [cbn; repeat split; try congruence; intros; discriminate|].
  destruct (download_and_parse_logs get_object_text LogRecord json_loads
              (log_file :: log_files) (max_files args)) as [|log logs] eqn:Hlogs;
    [cbn; repeat split; try congruence; intros; discriminate|].
  destruct (analyze_threat_patterns utc_offset (log :: logs)) as [analysis|] eqn:Hrun;
    [|cbn; repeat split; try congruence; intros; discriminate].
  unfold Report.generate_report.
  destruct (Report.report_lines now analysis) as [lines|] eqn:Hlines;
    [|cbn; repeat split; try congruence; intros; discriminate].
  cbn [option_map].
  destruct (visualize_spec args analysis (PyStr.join_lines lines))
    as (Htext & Hoff & Hon).
  cbv zeta in Htext, Hoff, Hon.
  set (run := visualize VISUALIZATION_AVAILABLE plots args analysis
                (PyStr.join_lines lines)) in *.
  split; [intros _; rewrite Htext; discriminate|].
  split; [rewrite Htext; discriminate|]. intros _.
  pose proof (analyze_total _ _ Hrun) as Htotal. cbn [List.length] in Htotal.
  pose proof Hlines as Hinv. apply report_lines_inv in Hinv.
  destruct Hinv as (rate_lines & rest & Hrate & Hshape).
  unfold Report.block_rate_lines in Hrate.
  destruct (Z.ltb_spec 0 (total_requests analysis)) as [Hpos|Hle]; [|lia].
  destruct (PyNum.true_div _ _) as [q|]; [|discriminate].
  injection Hrate as <-.
  exists start_day, end_day, (log_file :: log_files), analysis, lines,
         (PyNum.fmt_fixed 2 (PyNum.fmul q Report.hundred) ++ "%").
  split; [reflexivity|]. split; [reflexivity|]. split; [exact Hfiles|].
  split; [discriminate|]. split; [rewrite Hlogs; exact Hrun|].
  split; [exact Hpos|]. split; [exact Hlines|]. split; [exact Htext|].
  split; [rewrite Hshape; exact (nth_error_after_counts now analysis _ 0)|].
  split; [exact Hoff|].
  intros Hcharts Hlibs. destruct (Hon Hcharts Hlibs) as [Hsaved Hended].
  cbv zeta. split; [exact Hsaved|].
  rewrite Hsaved, Hended.
  destruct (charts_are_a_prefix plots analysis (output_charts args)) as [Hall Hsome].
  split.
  - intros Hr. rewrite Hr. split; [reflexivity|]. exact (Hall Hr).
  - intros Hr. rewrite Hr. split; [reflexivity|]. exact (Hsome Hr).
Qed.

End MainFacts.

(** ** Fields no counter reads *)



(** * The further properties on sample data *)

Lemma example_run : analyze_threat_patterns utc_zone example_logs = Some example_analysis.
Proof. vm_compute. reflexivity. Defined.

Lemma tables_sum_to_blocked_witness :
  analyze_threat_patterns utc_zone example_logs = Some example_analysis
  /\ Counter.total (blocked_by_rule example_analysis) = 3
  /\ Counter.total (attack_methods example_analysis) = 3.
Proof.
  split; [exact example_run|].
  destruct (tables_sum_to_blocked utc_zone example_logs example_analysis example_run)
    as (Hrule & _ & _ & _ & Hattack).
  split; [exact Hrule | exact Hattack].
Defined.

Lemma tables_well_formed_witness :
  analyze_threat_patterns utc_zone example_logs = Some example_analysis
  /\ well_formed (blocked_by_country example_analysis)
  /\ (In "US" (Counter.keys (blocked_by_country example_analysis))
      <-> 1 <= Counter.get "US" (blocked_by_country example_analysis)).
Proof.
  split; [exact example_run|].
  destruct (tables_well_formed utc_zone example_logs example_analysis example_run)
    as ((_ & Hcountry & _) & Hkeys & _).
  split; [exact Hcountry|]. exact (proj1 (proj2 (Hkeys "US"))).
Defined.

Lemma category_and_hour_keys_witness :
  analyze_threat_patterns utc_zone example_logs = Some example_analysis
  /\ In "Rate Limiting" categories
  /\ 0 <= 22 < 24
  /\ (List.length (attack_methods example_analysis) <= 5)%nat.
Proof.
  split; [exact example_run|].
  destruct (category_and_hour_keys utc_zone example_logs example_analysis example_run)
    as (Hcat & Hhour & Hlen & _).
  split; [apply Hcat; right; left; reflexivity|].
  split; [apply Hhour; right; left; reflexivity | exact Hlen].
Defined.

Lemma counters_count_records_witness :
  analyze_threat_patterns utc_zone example_logs = Some example_analysis
  /\ blocked_requests example_analysis = count is_block example_logs
  /\ Counter.get "Unknown" (blocked_by_country example_analysis)
     = count (blocked_with country_of "Unknown") example_logs
  /\ Counter.get 23 (hourly_distribution example_analysis)
     = count (hour_is utc_zone 23) example_logs.
Proof.
  split; [exact example_run|].
  destruct (counters_count_records utc_zone example_logs example_analysis example_run)
    as (_ & Hblocked & _ & Htables & Hhours).
  split; [exact Hblocked|].
  split; [exact (proj1 (proj2 (Htables "Unknown"))) | exact (Hhours 23)].
Defined.

Lemma analysis_of_concatenation_witness :
  analyze_threat_patterns utc_zone
    ([sqli_record; sqli_record] ++ [rate_record; allowed_record; allowed_record])
  = Some example_analysis
  /\ exists a1 a2 : Analysis,
       analyze_threat_patterns utc_zone [sqli_record; sqli_record] = Some a1
       /\ analyze_threat_patterns utc_zone
            [rate_record; allowed_record; allowed_record] = Some a2
       /\ total_requests example_analysis = total_requests a1 + total_requests a2
       /\ blocked_requests example_analysis
          = blocked_requests a1 + blocked_requests a2.
Proof.
  split; [exact example_run|].
  destruct (analysis_of_concatenation utc_zone [sqli_record; sqli_record]
              [rate_record; allowed_record; allowed_record] example_analysis
              example_run)
    as (a1 & a2 & H1 & H2 & Ht & Hb & _).
  exists a1, a2. repeat split; assumption.
Defined.


Lemma sqli_test_is_redundant_witness :
  PyStr.contains "sqli" (PyStr.lower "AWSManagedRulesSQLiRuleSet") = true
  /\ PyStr.contains "sql" (PyStr.lower "AWSManagedRulesSQLiRuleSet") = true.
Proof.
  assert (Hsqli : PyStr.contains "sqli" (PyStr.lower "AWSManagedRulesSQLiRuleSet") = true)
    by reflexivity.
  split; [exact Hsqli|].
  exact (proj1 (sqli_test_is_redundant "AWSManagedRulesSQLiRuleSet") Hsqli).
Defined.

Lemma cap_zero_and_negative_witness :
  -1 < 0
  /\ download_run flaky_store string brace_decoder ["a.gz"; "bad.gz"; "b.gz"] (Some (-1))
     = {| logs := []; processed_files := 0; stdout := [summary_message 0 0] |}.
Proof.
  assert (Hneg : -1 < 0) by reflexivity.
  split; [exact Hneg|].
  exact (proj2 (cap_zero_and_negative flaky_store string brace_decoder
                  ["a.gz"; "bad.gz"; "b.gz"]) (-1) Hneg).
Defined.

Lemma other_exception_keeps_earlier_entries_witness :
  deep_store "k.gz" = inl deep_content
  /\ PyStr.split_lines (PyStr.strip deep_content)
     = (["{first}"; "oops"] ++ "deep" :: ["{never read}"])%list
  /\ Interleaved string raising_decoder ["{first}"; "oops"] ["{first}"]
  /\ raising_decoder "deep" = OtherError "maximum recursion depth exceeded"
  /\ process_file deep_store string raising_decoder "k.gz"
       {| logs := []; processed_files := 0; stdout := [] |}
     = {| logs := ["{first}"];
          processed_files := 0;
          stdout := [processing_message "k.gz";
                     error_message "k.gz" "maximum recursion depth exceeded"] |}.
Proof.
  assert (Hbefore : Interleaved string raising_decoder ["{first}"; "oops"] ["{first}"]).
  { apply Interleaved_valid; [discriminate | reflexivity|].
    apply Interleaved_malformed; [reflexivity|]. apply Interleaved_nil. }
  split; [reflexivity|]. split; [reflexivity|]. split; [exact Hbefore|].
  split; [reflexivity|].
  apply (other_exception_keeps_earlier_entries deep_store string raising_decoder
           "k.gz" deep_content "maximum recursion depth exceeded" "deep"
           ["{first}"; "oops"] ["{never read}"] ["{first}"]
           {| logs := []; processed_files := 0; stdout := [] |}).
  - reflexivity.
  - reflexivity.
  - exact Hbefore.
  - discriminate.
  - reflexivity.
Defined.

Lemma blank_file_counts_as_processed_witness :
  all_space (String " " (String PyStr.newline (String " " EmptyString))) = true
  /\ process_file blank_store string brace_decoder "k.gz"
       {| logs := []; processed_files := 0; stdout := [] |}
     = {| logs := [];
          processed_files := 1;
          stdout := [processing_message "k.gz"] |}.
Proof.
  split; [reflexivity|].
  exact (blank_file_counts_as_processed blank_store string brace_decoder "k.gz" _
           {| logs := []; processed_files := 0; stdout := [] |} eq_refl eq_refl).
Defined.

Lemma get_log_files_overflows_witness :
  (3652058 <= 3652059 /\ PyDate.MAXORDINAL <= 3652059)
  /\ get_log_files dated_listing 3652058 3652059 = None.
Proof.
  assert (Hrange : 3652058 <= 3652059 /\ PyDate.MAXORDINAL <= 3652059).
  { split; discriminate. }
  split; [exact Hrange|].
  exact (proj2 (get_log_files_overflows dated_listing 3652058 3652059) Hrange).
Defined.

Lemma get_log_files_empty_range_witness :
  738946 < 738947
  /\ get_log_files dated_listing 738947 738946 = Some [].
Proof.
  assert (Hlt : 738946 < 738947) by reflexivity.
  split; [exact Hlt|].
  exact (get_log_files_empty_range dated_listing 738947 738946 Hlt).
Defined.

Lemma listing_failures_are_empty_days_witness :
  (forall prefix, listed (failing_listing prefix) = listed (bare_listing prefix))
  /\ get_log_files failing_listing 738946 738947
     = get_log_files bare_listing 738946 738947.
Proof.
  assert (Hsame : forall prefix,
             listed (failing_listing prefix) = listed (bare_listing prefix)).
  { intros prefix. reflexivity. }
  split; [exact Hsame|].
  exact (listing_failures_are_empty_days failing_listing bare_listing
           738946 738947 Hsame).
Defined.

Lemma report_lines_example :
  {lines | Report.report_lines "2024-03-01 12:00:00" example_analysis = Some lines}.
Proof. eexists. vm_compute. reflexivity. Defined.

Lemma report_length_witness :
  Report.report_lines "2024-03-01 12:00:00" example_analysis
  = Some (proj1_sig report_lines_example)
  /\ List.length (proj1_sig report_lines_example) = 35%nat.
Proof.
  split; [exact (proj2_sig report_lines_example)|].
  rewrite (report_length "2024-03-01 12:00:00" example_analysis _
             (proj2_sig report_lines_example)).
  reflexivity.
Defined.

Lemma method_share_without_blocked_witness :
  0 <= 0
  /\ Report.method_lines 0 [("SQL Injection", 2); ("Other", 1200)]
     = Some ["SQL Injection: 2 (0.0%)"; "Other: 1,200 (0.0%)"].
Proof.
  assert (Hle : 0 <= 0) by discriminate.
  split; [exact Hle|].
  rewrite (method_share_without_blocked 0 [("SQL Injection", 2); ("Other", 1200)] Hle).
  vm_compute. reflexivity.
Defined.

Lemma report_text_example :
  {text | Report.generate_report "2024-03-01 12:00:00" example_analysis = Some text}.
Proof. eexists. vm_compute. reflexivity. Defined.

Lemma report_text_round_trip_witness :
  Report.generate_report "2024-03-01 12:00:00" example_analysis
  = Some (proj1_sig report_text_example)
  /\ PyStr.join_lines (PyStr.split_lines (proj1_sig report_text_example))
     = proj1_sig report_text_example.
Proof.
  split; [exact (proj2_sig report_text_example)|].
  destruct (report_text_round_trip "2024-03-01 12:00:00" example_analysis _
              (proj2_sig report_text_example)) as (lines & _ & _ & Hjoin & _).
  exact Hjoin.
Defined.

Lemma top10_holds_the_largest_witness :
  Charts.top10 tied_table = [("b", 3); ("d", 3); ("e", 2); ("a", 1); ("c", 1)]
  /\ (List.length (Charts.top10 tied_table) <= 10)%nat
  /\ exists rest : list (string * Z),
       Permutation tied_table (Charts.top10 tied_table ++ rest)
       /\ forall left_out, In left_out rest -> snd left_out <= 3.
Proof.
  split; [reflexivity|].
  destruct (top10_holds_the_largest tied_table) as (Hlen & _ & _ & rest & Hperm & Htop).
  split; [exact Hlen|]. exists rest. split; [exact Hperm|].
  intros left_out Hin. apply (Htop ("b", 3) left_out); [left; reflexivity | exact Hin].
Defined.

Lemma hourly_chart_covers_all_requests_witness :
  analyze_threat_patterns utc_zone example_logs = Some example_analysis
  /\ List.length (Charts.hourly_counts example_analysis) = 24%nat
  /\ sum (Charts.hourly_counts example_analysis) = 5
  /\ nth_error (Charts.hourly_counts example_analysis) 22 = Some 1.
Proof.
  split; [exact example_run|].
  destruct (hourly_chart_covers_all_requests utc_zone example_logs example_analysis
              example_run) as (Hlen & Hsum & Hnth).
  split; [exact Hlen|]. split; [exact Hsum|].
  exact (Hnth 22 (conj (Zle_bool_imp_le 0 22 eq_refl) eq_refl)).
Defined.

Lemma truncate_rule_label_witness :
  (30 < String.length "AWSManagedRulesKnownBadInputsRuleSet-Log4JRCE")%nat
  /\ (String.length
        (Charts.truncate_rule "AWSManagedRulesKnownBadInputsRuleSet-Log4JRCE") <= 33)%nat
  /\ exists head tail : string,
       "AWSManagedRulesKnownBadInputsRuleSet-Log4JRCE" = head ++ tail
       /\ String.length head = 30%nat
       /\ Charts.truncate_rule "AWSManagedRulesKnownBadInputsRuleSet-Log4JRCE"
          = head ++ "...".
Proof.
  assert (Hlong : (30 < String.length "AWSManagedRulesKnownBadInputsRuleSet-Log4JRCE")%nat).
  { apply Nat.ltb_lt. reflexivity. }
  split; [exact Hlong|].
  destruct (truncate_rule_label "AWSManagedRulesKnownBadInputsRuleSet-Log4JRCE")
    as (Hlen & _ & Hcut).
  split; [exact Hlen|].
  destruct (Hcut Hlong) as (head & tail & Hsplit & Hhead & _ & Hlabel).
  exists head, tail. repeat split; assumption.
Defined.

Lemma charts_saved_witness :
  Charts.raised
    (Charts.create_visualizations true sample_plots example_analysis "./waf_charts")
  = false
  /\ map fst
       (Charts.saved
          (Charts.create_visualizations true sample_plots example_analysis
             "./waf_charts"))
     = ["./waf_charts/request_distribution.png"; "./waf_charts/top_countries.png";
        "./waf_charts/attack_methods.png"; "./waf_charts/hourly_distribution.png";
        "./waf_charts/top_rules.png"]
  /\ Charts.printed
       (Charts.create_visualizations true sample_plots example_analysis
          "./waf_charts")
     = ["Visualizations saved to ./waf_charts/"].
Proof.
  assert (Hraised : Charts.raised
                      (Charts.create_visualizations true sample_plots
                         example_analysis "./waf_charts") = false).
  { vm_compute. reflexivity. }
  split; [exact Hraised|].
  destruct (charts_saved sample_plots example_analysis "./waf_charts")
    as (_ & countries & country_counts & methods & method_counts & rules
        & rule_counts & _ & _ & _ & _ & Hdrawn & _).
  destruct (Hdrawn Hraised) as [Hsaved Hprinted].
  split; [rewrite Hsaved; reflexivity | exact Hprinted].
Defined.

Lemma main_reports_a_block_rate_witness :
  (ended (main sample_strptime dated_listing record_store record_decoder utc_zone
            "2024-03-01 12:00:00" true sample_plots sample_args) = Completed
   /\ exists (analysis : Analysis) (lines : list string) (rate : string),
        0 < total_requests analysis
        /\ Report.report_lines "2024-03-01 12:00:00" analysis = Some lines
        /\ nth_error lines 10 = Some ("Block Rate: " ++ rate)
        /\ List.length
             (charts (main sample_strptime dated_listing record_store record_decoder
                        utc_zone "2024-03-01 12:00:00" true sample_plots sample_args))
           = 5%nat)
  /\ (report_text (main sample_strptime dated_listing allowed_store record_decoder
                     utc_zone "2024-03-01 12:00:00" true sample_plots sample_args)
      <> None
      /\ ended (main sample_strptime dated_listing allowed_store record_decoder
                  utc_zone "2024-03-01 12:00:00" true sample_plots sample_args)
         = Uncaught
      /\ map fst
           (charts (main sample_strptime dated_listing allowed_store record_decoder
                      utc_zone "2024-03-01 12:00:00" true sample_plots sample_args))
         = ["./waf_charts/request_distribution.png"; "./waf_charts/top_countries.png"]).
Proof.
  split.
  - assert (Hend : ended (main sample_strptime dated_listing record_store
                            record_decoder utc_zone "2024-03-01 12:00:00" true
                            sample_plots sample_args) = Completed).
    { vm_compute. reflexivity. }
    split; [exact Hend|].
    destruct (main_reports_a_block_rate sample_strptime dated_listing record_store
                record_decoder utc_zone "2024-03-01 12:00:00" true sample_plots
                sample_args)
      as (Hreport & _ & Hdone).
    destruct (Hdone (Hreport Hend))
      as (start_day & end_day & log_files & analysis & lines & rate
          & _ & _ & _ & _ & _ & Hpos & Hlines & _ & Hrate & _ & Hcharts).
    exists analysis, lines, rate.
    split; [exact Hpos|]. split; [exact Hlines|]. split; [exact Hrate|].
    destruct (Hcharts eq_refl eq_refl) as (_ & Hfive & Hfewer).
    cbv zeta in Hfive, Hfewer.
    destruct (Charts.raised
                (Charts.create_visualizations true sample_plots analysis
                   (output_charts sample_args))) eqn:Hraised.
    + destruct (Hfewer eq_refl) as [Hunc _]. rewrite Hend in Hunc. discriminate.
    + exact (proj2 (Hfive eq_refl)).
  - split; [vm_compute; discriminate|]. split; vm_compute; reflexivity.
Defined.

